(** * Multiple correspondence analysis: a shallow embedding of [mca.py]

    The development follows the Python module top to bottom:
    [process_df], [dummy], [_multiply_matrices] and the methods of the
    class [MCA].  Python floats are idealised as exact rationals; the
    numerical collaborators the module imports (numpy's [sqrt], the dense
    and the truncated SVD, pandas' dummy coding) are the members of the
    class [Collaborators], so every statement below holds whatever values
    they return, unless it names an assumption on them. *)

From Stdlib Require Import QArith ZArith List String Bool Lia Arith.
From coqutil Require Import Datatypes.RecordSetters.
Import ListNotations.
Import DoubleBraceUpdate.

Local Close Scope Q_scope.
Local Open Scope string_scope.
Local Open Scope nat_scope.

(** Python's [float], read as an exact rational. *)
#[warning="-notation-for-abbreviation"]
Notation float := Q (only parsing).

(** ** Python values, exceptions and results *)

(** The exceptions the module raises itself ([ValueError] with its
    message), the ones its expressions can raise ([IndexError],
    [ZeroDivisionError]) and the ones that come out of a collaborator. *)
Inductive exception : Type :=
| ValueError (msg : string)
| IndexError (msg : string)
| ZeroDivisionError (msg : string)
| CollaboratorError (msg : string).

Inductive result (A : Type) : Type :=
| OK (a : A)
| Raise (e : exception).
Arguments OK {A} a.
Arguments Raise {A} e.

Definition rbind {A B} (x : result A) (f : A -> result B) : result B :=
  match x with
  | OK a => f a
  | Raise e => Raise e
  end.

Fixpoint rmap {A B} (f : A -> result B) (l : list A) : result (list B) :=
  match l with
  | [] => OK []
  | a :: l' => rbind (f a) (fun b => rbind (rmap f l') (fun bs => OK (b :: bs)))
  end.

(** What a caller may pass for [ncols] and [N]: [None], a built-in [int]
    (a [bool] is an [int] in Python), a numpy [int64], or a [float]. *)
Inductive pyobj : Type :=
| PyNone
| PyInt (z : Z)
| PyInt64 (z : Z)
| PyFloat (q : float).

(** Truth value of an object, as [if N:] tests it. *)
Definition truthy (v : pyobj) : bool :=
  match v with
  | PyNone => false
  | PyInt z | PyInt64 z => negb (z =? 0)%Z
  | PyFloat q => negb (Qeq_bool q 0)
  end.

Definition Qlt_bool (x y : float) : bool := negb (Qle_bool y x).

(** ** Arrays *)

(** A two-dimensional array: its shape and its entries.  Entries outside
    the shape are never read. *)
Record ndarray : Type := {
  shape : nat * nat;
  item : nat -> nat -> float
}.

(** [len(A)], the number of rows. *)
Definition len2 (A : ndarray) : nat := fst (shape A).

(** A pandas table: the column labels, the number of rows, the cells. *)
Record DataFrame : Type := {
  columns : list string;
  index : nat;
  values : nat -> nat -> float
}.

Module np.

(** Python's [sum] and numpy's [sum] over a vector, left to right. *)
Definition sum (v : list float) : float :=
  fold_left Qplus v (0%Q).

Definition sumn (n : nat) (f : nat -> float) : float :=
  sum (map f (seq 0 n)).

Fixpoint cumsum_from (acc : float) (v : list float) : list float :=
  match v with
  | [] => []
  | x :: v' => (acc + x)%Q :: cumsum_from (acc + x)%Q v'
  end.

Definition cumsum (v : list float) : list float := cumsum_from (0%Q) v.

Fixpoint flatnonzero_from (i : nat) (b : list bool) : list nat :=
  match b with
  | [] => []
  | true :: b' => i :: flatnonzero_from (S i) b'
  | false :: b' => flatnonzero_from (S i) b'
  end.

Definition flatnonzero (b : list bool) : list nat := flatnonzero_from 0 b.

(** [argmax] of a boolean vector: the first [True], or [0] when there is
    none; an empty vector is an error. *)
Fixpoint first_true (b : list bool) : option nat :=
  match b with
  | [] => None
  | true :: _ => Some 0
  | false :: b' => option_map S (first_true b')
  end.

Definition argmax (b : list bool) : result nat :=
  match b with
  | [] => Raise (ValueError "attempt to get argmax of an empty sequence")
  | _ => OK (match first_true b with Some i => i | None => 0 end)
  end.

(** [v[:n]] for a Python integer [n]. *)
Definition upto {A} (n : Z) (v : list A) : list A :=
  if (n <? 0)%Z then firstn (List.length v - Z.to_nat (- n)) v
  else firstn (Z.to_nat n) v.

(** [v[::-1]]. *)
Definition reversed {A} (v : list A) : list A := rev v.

Definition diag (v : list float) : ndarray :=
  {| shape := (List.length v, List.length v);
     item := fun i j => if i =? j then nth i v (0%Q) else 0%Q |}.

Definition outer (a b : list float) : ndarray :=
  {| shape := (List.length a, List.length b);
     item := fun i j => (nth i a 0 * nth j b 0)%Q |}.

Definition T (A : ndarray) : ndarray :=
  {| shape := (snd (shape A), fst (shape A));
     item := fun i j => item A j i |}.

(** [A[::-1]]: the rows in reverse order. *)
Definition flipud (A : ndarray) : ndarray :=
  {| shape := shape A;
     item := fun i j => item A (fst (shape A) - 1 - i) j |}.

(** [A.dot(B)]: the inner dimensions must agree. *)
Definition dot (A B : ndarray) : result ndarray :=
  if snd (shape A) =? fst (shape B) then
    OK {| shape := (fst (shape A), snd (shape B));
          item := fun i j =>
            sumn (snd (shape A)) (fun l => (item A i l * item B l j)%Q) |}
  else Raise (ValueError "shapes not aligned").

(** [finfo(float).eps], two to the power -52. *)
Definition eps : float := (1 # 4503599627370496)%Q.

End np.

(** [scipy.linalg.diagsvd(s, M, N)]: the [M] by [N] matrix with [s] on its
    diagonal; [len(s)] must be [M] or [N], and the block of zeros that
    completes the square part cannot have a negative dimension. *)
Definition diagsvd (s : list float) (M N : Z) : result ndarray :=
  let part :=
    {| shape := (Z.to_nat M, Z.to_nat N);
       item := fun i j => if i =? j then nth i s (0%Q) else 0%Q |} in
  if (Z.of_nat (List.length s) =? M)%Z then
    if (N - M <? 0)%Z then Raise (ValueError "negative dimensions are not allowed")
    else OK part
  else if (Z.of_nat (List.length s) =? N)%Z then
    if (M - N <? 0)%Z then Raise (ValueError "negative dimensions are not allowed")
    else OK part
  else Raise (ValueError "Length of s must be M or N.").

(** ** The collaborators

    [sqrt] is numpy's; [svd] is [numpy.linalg.svd] and [svds] is
    [scipy.sparse.linalg.svds], which is handed the number of triplets as
    the Python object it was given; [get_dummies DF col] is pandas'
    [get_dummies(DF[col])] and [concat] is [concat(..., axis=1, keys=...)].
    A collaborator that fails answers [None]; [call] turns that into the
    exception that then leaves the module. *)
Class Collaborators : Type := {
  sqrt : float -> float;
  svd : ndarray -> option (ndarray * list float * ndarray);
  svds : ndarray -> pyobj -> option (ndarray * list float * ndarray);
  get_dummies : DataFrame -> string -> option DataFrame;
  concat : list DataFrame -> list string -> option DataFrame
}.

Definition call {A} (name : string) (x : option A) : result A :=
  match x with
  | Some a => OK a
  | None => Raise (CollaboratorError name)
  end.

(** Pandas reductions and arithmetic on a table, as [_fit] uses them. *)
Module pd.

(** [X.shape]. *)
Definition shape_of (X : DataFrame) : nat * nat :=
  (index X, List.length (columns X)).

(** [X.sum()]: the column sums. *)
Definition sum (X : DataFrame) : list float :=
  map (fun j => np.sumn (index X) (fun i => values X i j))
      (seq 0 (List.length (columns X))).

(** [X.sum(axis=1)]: the row sums. *)
Definition sum_axis1 (X : DataFrame) : list float :=
  map (fun i => np.sumn (List.length (columns X)) (fun j => values X i j))
      (seq 0 (index X)).

(** [X / S] for a scalar [S]. *)
Definition div (X : DataFrame) (S : float) : DataFrame :=
  {| columns := columns X;
     index := index X;
     values := fun i j => (values X i j / S)%Q |}.

(** [Z - A] for an array [A] of the same shape. *)
Definition sub (Z : DataFrame) (A : ndarray) : ndarray :=
  {| shape := shape_of Z;
     item := fun i j => (values Z i j - item A i j)%Q |}.

End pd.

(** ** The object

    The attributes of an [MCA] instance.  The six first ones are set by
    [__init__]; [E], [k], [F] and [G] are absent ([None]) until the method
    that assigns them has run, which is what [hasattr] and [is None] test;
    the others are assigned by [_fit] before anything reads them. *)
Module self.
Record t : Type := {
  cols : option (list string);
  n_cols : pyobj;
  benzecri : bool;
  tol : float;
  sparse : bool;
  approximate : bool;
  K : Z;
  J : nat;
  r : list float;
  c : list float;
  D_r : ndarray;
  D_c : ndarray;
  P : ndarray;
  s : list float;
  _numitems : Z;
  E : option (list float);
  inertia : float;
  rank : nat;
  L : list float;
  k : option nat;
  F : option ndarray;
  G : option ndarray;
  Q : ndarray
}.
End self.

Definition empty_array : ndarray := {| shape := (0, 0); item := fun _ _ => 0%Q |}.

(** [MCA(cols, n_cols, benzecri, tol, sparse, approximate)]. *)
Definition __init__ (cols : option (list string)) (n_cols : pyobj)
    (benzecri : bool) (tol : float) (sparse approximate : bool) : self.t :=
  {| self.cols := cols; self.n_cols := n_cols; self.benzecri := benzecri;
     self.tol := tol; self.sparse := sparse; self.approximate := approximate;
     self.K := 0%Z; self.J := 0; self.r := []; self.c := [];
     self.D_r := empty_array; self.D_c := empty_array; self.P := empty_array;
     self.s := []; self._numitems := 0%Z; self.E := None; self.inertia := 0%Q;
     self.rank := 0; self.L := []; self.k := None; self.F := None;
     self.G := None; self.Q := empty_array |}.

(** ** Methods: a state and exception monad over the object

    A method takes the object, returns a value or raises, and leaves the
    object as the assignments made before the return or the raise left
    it. *)
Definition M (A : Type) : Type := self.t -> result A * self.t.

Definition ret {A} (a : A) : M A := fun o => (OK a, o).

Definition raise {A} (e : exception) : M A := fun o => (Raise e, o).

Definition bind {A B} (m : M A) (f : A -> M B) : M B :=
  fun o =>
    match m o with
    | (OK a, o') => f a o'
    | (Raise e, o') => (Raise e, o')
    end.

(** Read an attribute; assign attributes; run a pure computation that
    can raise. *)
Definition attr {A} (f : self.t -> A) : M A := fun o => (OK (f o), o).

Definition assign (u : self.t -> self.t) : M unit := fun o => (OK tt, u o).

Definition lift {A} (x : result A) : M A := fun o => (x, o).

Declare Scope method_scope.
Delimit Scope method_scope with method.
Notation "x <- m ;; f" := (bind m (fun x => f))
  (at level 61, m at next level, right associativity) : method_scope.
Notation "' p <- m ;; f" := (bind m (fun x => match x with p => f end))
  (at level 61, p pattern, m at next level, right associativity) : method_scope.
Notation "m ;; f" := (bind m (fun _ => f))
  (at level 61, right associativity) : method_scope.
Local Open Scope method_scope.

Section Module_mca.

Context {collab : Collaborators}.

(** [isinstance(v, int)] and [isinstance(v, (int, int64))]. *)
Definition isinstance_int (v : pyobj) : bool :=
  match v with PyInt _ => true | _ => false end.

Definition isinstance_int_int64 (v : pyobj) : bool :=
  match v with PyInt _ | PyInt64 _ => true | _ => false end.

(** The integer an [int] or [int64] object holds. *)
Definition int_of (v : pyobj) : Z :=
  match v with PyInt z | PyInt64 z => z | _ => 0%Z end.

(** [dummy(DF, cols)]. *)
Definition dummy (DF : DataFrame) (cols : option (list string)) : result DataFrame :=
  rbind (rmap (fun col => call "get_dummies" (get_dummies DF col))
              (match cols with None => columns DF | Some cs => cs end))
        (fun dummies => call "concat" (concat dummies (columns DF))).

(** [process_df(DF, cols, ncols)], returning [(X, K, J)]. *)
Definition process_df (DF : DataFrame) (cols : option (list string))
    (ncols : pyobj) : result (DataFrame * Z * nat) :=
  rbind
    (match cols with
     | Some ((_ :: _) as cs) =>
         rbind (dummy DF cols) (fun X => OK (X, Z.of_nat (List.length cs)))
     | _ =>
         match ncols with
         | PyNone =>
             let K := List.length (columns DF) in
             if K =? 0 then Raise (ValueError "Your DataFrame has no columns.")
             else OK (DF, Z.of_nat K)
         | _ =>
             if negb (isinstance_int ncols)
                || (int_of ncols <=? 0)%Z
                || (int_of ncols >? Z.of_nat (List.length (columns DF)))%Z
             then Raise (ValueError "You must pass a valid number of columns.")
             else OK (DF, int_of ncols)
         end
     end)
    (fun '(X, K) => OK (X, K, snd (pd.shape_of X))).

(** [_multiply_matrices] of one array and more: [reduce(dot, args)]. *)
Definition _multiply_matrices (first : ndarray) (rest : list ndarray) : result ndarray :=
  fold_left (fun acc A => rbind acc (fun B => np.dot B A)) rest (OK first).

(** One entry of the comprehension of [_apply_benzecri_correction]:
    [(K/(K-1.)*(x - 1./K))**2 if x > 1./K else 0].  Python's float
    division raises on a zero divisor. *)
Definition benzecri_entry (K : Z) (x : float) : result float :=
  if (K =? 0)%Z then Raise (ZeroDivisionError "float division by zero")
  else if Qlt_bool (1 / inject_Z K) x then
    if Qeq_bool (inject_Z K - 1) 0
    then Raise (ZeroDivisionError "float division by zero")
    else OK ((inject_Z K / (inject_Z K - 1) * (x - 1 / inject_Z K)) ^ 2)%Q
  else OK 0%Q.

(** [s**2]. *)
Definition squares (s : list float) : list float := map (fun x => (x ^ 2)%Q) s.

(** [_apply_benzecri_correction()]: computed once, then read from [E]. *)
Definition _apply_benzecri_correction : M (list float) :=
  E <- attr self.E ;;
  match E with
  | None =>
      K <- attr self.K ;;
      s <- attr self.s ;;
      E' <- lift (rmap (benzecri_entry K) (squares s)) ;;
      assign (fun o => o{{ self.E := Some E' }}) ;;
      ret E'
  | Some E' => ret E'
  end.

(** [min(A.shape)]. *)
Definition min_shape (A : ndarray) : nat := Nat.min (fst (shape A)) (snd (shape A)).

(** [_fit(X)].  [diags], which builds [D_r] when [sparse] is set, holds the
    same matrix as [diag] in another storage, so [np.diag] stands for
    both. *)
Definition _fit (X : DataFrame) : M unit :=
  cols <- attr self.cols ;;
  n_cols <- attr self.n_cols ;;
  '(X, K, J) <- lift (process_df X cols n_cols) ;;
  assign (fun o => o{{ self.K := K; self.J := J }}) ;;
  let S := np.sum (pd.sum X) in
  let Z := pd.div X S in
  assign (fun o => o{{ self.r := pd.sum_axis1 Z; self.c := pd.sum Z }}) ;;
  r <- attr self.r ;;
  c <- attr self.c ;;
  assign (fun o => o{{
    self.D_r := np.diag (map (fun x => 1 / (np.eps + sqrt x))%Q r);
    self.D_c := np.diag (map (fun x => 1 / (np.eps + sqrt x))%Q c) }}) ;;
  let Z_c := pd.sub Z (np.outer r c) in
  D_r <- attr self.D_r ;;
  D_c <- attr self.D_c ;;
  D_r_Z_c <- lift (np.dot D_r Z_c) ;;
  product <- lift (np.dot D_r_Z_c D_c) ;;
  sparse <- attr self.sparse ;;
  (if sparse then
     '(P, s, Q) <- lift (call "svds"
                          (svds product
                             (match n_cols with
                              | PyNone => PyInt (Z.of_nat (min_shape product) - 1)
                              | _ => n_cols
                              end))) ;;
     assign (fun o => o{{
       self.P := np.T (np.flipud (np.T P));
       self.Q := np.flipud Q;
       self.s := np.reversed s;
       self._numitems := (Z.of_nat (min_shape product) - 1)%Z }})
   else
     assign (fun o => o{{ self._numitems := Z.of_nat (index X) }}) ;;
     '(P, s, Q) <- lift (call "svd" (svd product)) ;;
     assign (fun o => o{{ self.P := P; self.s := s; self.Q := Q }})) ;;
  assign (fun o => o{{ self.E := None }}) ;;
  benzecri <- attr self.benzecri ;;
  E <- (if benzecri then _apply_benzecri_correction
        else s <- attr self.s ;; ret (squares s)) ;;
  assign (fun o => o{{ self.inertia := np.sum E }}) ;;
  tol <- attr self.tol ;;
  rank <- lift (np.argmax (map (fun e => Qlt_bool e tol) E)) ;;
  assign (fun o => o{{ self.rank := rank }}) ;;
  rank <- attr self.rank ;;
  (if rank =? 0 then assign (fun o => o{{ self.rank := List.length E }})
   else ret tt) ;;
  rank <- attr self.rank ;;
  assign (fun o => o{{ self.L := firstn rank E }}).

(** [fit(X)] returns the object itself. *)
Definition fit (X : DataFrame) : M unit := _fit X.

(** The validation of [N] shared by the two score calculators:
    [if N: (raise unless a positive int) ; N = min(N, self.rank)].
    An [N] that is not truthy is left as it is. *)
Definition check_N (N : pyobj) : M pyobj :=
  if truthy N then
    if negb (isinstance_int_int64 N) || (int_of N <=? 0)%Z
    then raise (ValueError "N should be a positive integer.")
    else
      rank <- attr self.rank ;;
      ret (PyInt (Z.min (int_of N) (Z.of_nat rank)))
  else ret N.

(** [1 + flatnonzero(cumsum(L) >= sum(L)*percent)[0]]. *)
Definition retained (L : list float) (percent : float) : result nat :=
  match np.flatnonzero
          (map (fun x => Qle_bool (np.sum L * percent) x) (np.cumsum L)) with
  | [] => Raise (IndexError "index 0 is out of bounds for axis 0 with size 0")
  | i :: _ => OK (1 + i)
  end.

(** The lines the two calculators share up to the diagonal matrix:
    the check of [percent], the check of [N], [self.k], [num2ret] and
    the scaling vector cut to [num2ret] entries. *)
Definition scaling (percent : float) (N : pyobj) : M (list float * Z) :=
  (if negb (Qle_bool 0 percent && Qle_bool percent 1)
   then raise (ValueError "Percent should be a real number between 0 and 1.")
   else ret tt) ;;
  N <- check_N N ;;
  L <- attr self.L ;;
  k <- lift (retained L percent) ;;
  assign (fun o => o{{ self.k := Some k }}) ;;
  let num2ret := if truthy N then int_of N else Z.of_nat k in
  benzecri <- attr self.benzecri ;;
  s <- attr self.s ;;
  let s := if benzecri then map (fun x => (- sqrt x)%Q) L else s in
  ret (np.upto num2ret s, num2ret).

(** [_calc_row_factor_scores(percent, N)]. *)
Definition _calc_row_factor_scores (percent : float) (N : pyobj) : M ndarray :=
  '(s, num2ret) <- scaling percent N ;;
  numitems <- attr self._numitems ;;
  S <- lift (diagsvd s numitems num2ret) ;;
  D_r <- attr self.D_r ;;
  P <- attr self.P ;;
  D_r_P <- lift (np.dot D_r P) ;;
  F <- lift (np.dot D_r_P S) ;;
  assign (fun o => o{{ self.F := Some F }}) ;;
  ret F.

(** [_calc_col_factor_scores(percent, N)]. *)
Definition _calc_col_factor_scores (percent : float) (N : pyobj) : M ndarray :=
  '(s, num2ret) <- scaling percent N ;;
  Q <- attr self.Q ;;
  S <- lift (diagsvd s (Z.of_nat (len2 Q)) num2ret) ;;
  D_c <- attr self.D_c ;;
  G <- lift (_multiply_matrices D_c [np.T Q; S]) ;;
  assign (fun o => o{{ self.G := Some G }}) ;;
  ret G.

(** [fit_transform(X, percent, N, col_factor_scores)]. *)
Definition fit_transform (X : DataFrame) (percent : float) (N : pyobj)
    (col_factor_scores : bool) : M ndarray :=
  _fit X ;;
  if col_factor_scores then _calc_col_factor_scores percent N
  else _calc_row_factor_scores percent N.

End Module_mca.

(** ** Methods that read a fitted object *)

Section Module_mca_reading.
Context {collab : Collaborators}.

(** Python's division of a number by a float, which raises on a zero
    divisor; numpy's division of arrays does not raise and is written with
    the division of the rationals. *)
Definition truediv (x y : float) : result float :=
  if Qeq_bool y 0 then Raise (ZeroDivisionError "float division by zero")
  else OK (x / y)%Q.

(** [v[:N]] for an [N] that is [None] or an integer. *)
Definition slice_to {A} (N : option Z) (v : list A) : list A :=
  match N with
  | None => v
  | Some n => np.upto n v
  end.

(** [A[:, :n]] for a Python integer [n]. *)
Definition columns_upto (n : Z) (A : ndarray) : ndarray :=
  {| shape := (fst (shape A), List.length (np.upto n (seq 0 (snd (shape A)))));
     item := item A |}.

(** [expl_var(greenacre, N)], for an [N] that is [None] or an integer.
    [sum(self.s**4)] is Python's [sum] over the array. *)
Definition expl_var (greenacre : bool) (N : option Z) : M (list float) :=
  if greenacre then
    K <- attr self.K ;;
    J <- attr self.J ;;
    s <- attr self.s ;;
    ratio <- lift (truediv (inject_Z K) (inject_Z K - 1)) ;;
    excess <- lift (truediv (inject_Z (Z.of_nat J - K)) (inject_Z K ^ 2)) ;;
    let greenacre_inertia :=
      (ratio * (np.sum (map (fun x => x ^ 4) s) - excess))%Q in
    E <- _apply_benzecri_correction ;;
    ret (slice_to N (map (fun e => e / greenacre_inertia)%Q E))
  else
    benzecri <- attr self.benzecri ;;
    E <- (if benzecri then _apply_benzecri_correction
          else s <- attr self.s ;; ret (squares s)) ;;
    ret (slice_to N (map (fun e => e / np.sum E)%Q E)).

(** [-sqrt(self.E) if self.benzecri else self.s].  numpy's [sqrt] refuses
    the [None] that [E] holds until the correction has run. *)
Definition inverse_scale : M (list float) :=
  benzecri <- attr self.benzecri ;;
  if benzecri then
    E <- attr self.E ;;
    match E with
    | Some E => ret (map (fun x => (- sqrt x)%Q) E)
    | None => raise (CollaboratorError "sqrt")
    end
  else attr self.s.

(** [DF.div(DF.sum(axis=1), axis=0)], every row divided by its sum, and
    [(DF/DF.sum()).T], every column divided by its sum, transposed; both
    as the arrays [dot] reads. *)
Definition row_profiles (DF : DataFrame) : ndarray :=
  {| shape := pd.shape_of DF;
     item := fun i j => (values DF i j / nth i (pd.sum_axis1 DF) 0)%Q |}.

Definition column_profiles (DF : DataFrame) : ndarray :=
  np.T {| shape := pd.shape_of DF;
          item := fun i j => (values DF i j / nth j (pd.sum DF) 0)%Q |}.

(** [fs_r_sup(DF, N)].  The column scores are generated with
    [N = self.rank] when the object has none; [_calc_col_factor_scores]
    returns the matrix it stores in [G]. *)
Definition fs_r_sup (DF : DataFrame) (N : pyobj) : M ndarray :=
  cached <- attr self.G ;;
  G <- match cached with
       | Some G => ret G
       | None =>
           rank <- attr self.rank ;;
           _calc_col_factor_scores (9 # 10) (PyInt (Z.of_nat rank))
       end ;;
  (if truthy N && (negb (isinstance_int N) || (int_of N <=? 0)%Z)
   then raise (ValueError "ncols should be a positive integer.")
   else ret tt) ;;
  s <- inverse_scale ;;
  rank <- attr self.rank ;;
  let N := if truthy N then Z.min (int_of N) (Z.of_nat rank) else Z.of_nat rank in
  S_inv <- lift (diagsvd (map (fun x => (-1 / x)%Q) (np.upto N s))
                         (Z.of_nat (len2 (np.T G))) N) ;;
  product <- lift (_multiply_matrices (row_profiles DF) [G; S_inv]) ;;
  ret (columns_upto N product).

(** [fs_c_sup(DF, N)], the same with the row scores. *)
Definition fs_c_sup (DF : DataFrame) (N : pyobj) : M ndarray :=
  cached <- attr self.F ;;
  F <- match cached with
       | Some F => ret F
       | None =>
           rank <- attr self.rank ;;
           _calc_row_factor_scores (9 # 10) (PyInt (Z.of_nat rank))
       end ;;
  (if truthy N && (negb (isinstance_int N) || (int_of N <=? 0)%Z)
   then raise (ValueError "ncols should be a positive integer.")
   else ret tt) ;;
  s <- inverse_scale ;;
  rank <- attr self.rank ;;
  let N := if truthy N then Z.min (int_of N) (Z.of_nat rank) else Z.of_nat rank in
  S_inv <- lift (diagsvd (map (fun x => (-1 / x)%Q) (np.upto N s))
                         (Z.of_nat (len2 (np.T F))) N) ;;
  product <- lift (_multiply_matrices (column_profiles DF) [F; S_inv]) ;;
  ret (columns_upto N product).

End Module_mca_reading.

(** ** Concrete tables and collaborators for running the model *)

(** A table given by its rows; the columns are labelled by position. *)
Definition table (labels : list string) (rows : list (list float)) : DataFrame :=
  {| columns := labels;
     index := List.length rows;
     values := fun i j => nth j (nth i rows []) (0%Q) |}.

Definition identity (n : nat) : ndarray := np.diag (repeat (1%Q) n).

Definition zeros (n m : nat) : ndarray :=
  {| shape := (n, m); item := fun _ _ => 0%Q |}.

(** The square root rounded down to six decimal places. *)
Definition sqrt6 (x : float) : float :=
  (Z.sqrt (Qnum x * 10 ^ 12 / Zpos (Qden x)) # 10 ^ 6)%Q.

(** Dummy coding of a column of numeric codes: one indicator column per
    distinct code, in increasing order of the codes. *)
Fixpoint insert_level (x : float) (levels : list float) : list float :=
  match levels with
  | [] => [x]
  | y :: levels' =>
      if Qeq_bool x y then levels
      else if Qle_bool x y then x :: levels
      else y :: insert_level x levels'
  end.

Fixpoint position (col : string) (labels : list string) : option nat :=
  match labels with
  | [] => None
  | l :: labels' =>
      if String.eqb col l then Some 0 else option_map S (position col labels')
  end.

Definition indicator_columns (DF : DataFrame) (col : string) : option DataFrame :=
  match position col (columns DF) with
  | None => None
  | Some j =>
      let levels :=
        fold_right insert_level [] (map (fun i => values DF i j) (seq 0 (index DF))) in
      Some {| columns := map (fun _ => col) levels;
              index := index DF;
              values := fun i l =>
                if Qeq_bool (values DF i j) (nth l levels 0%Q) then 1%Q else 0%Q |}
  end.

(** Tables side by side. *)
Fixpoint beside (parts : list DataFrame) : DataFrame :=
  match parts with
  | [] => {| columns := []; index := 0; values := fun _ _ => 0%Q |}
  | [A] => A
  | A :: parts' =>
      let B := beside parts' in
      let w := List.length (columns A) in
      {| columns := columns A ++ columns B;
         index := index A;
         values := fun i j => if j <? w then values A i j else values B i (j - w) |}
  end.

(** Collaborators that answer with arrays of the shapes numpy and scipy
    document and with the singular values [sv], largest first: the dense
    solver gives [min(n, m)] of them with square factors, the truncated
    one gives the [k] it was asked for, smallest first, with [n] by [k]
    and [k] by [m] factors, and refuses a [k] outside [1 .. min(n, m) - 1]. *)
Definition answering (sv : list float) : Collaborators :=
  {| sqrt := sqrt6;
     svd := fun A =>
       Some (identity (fst (shape A)), firstn (min_shape A) sv,
             identity (snd (shape A)));
     svds := fun A k =>
       match k with
       | PyInt z | PyInt64 z =>
           if ((1 <=? z) && (z <? Z.of_nat (min_shape A)))%Z then
             Some (zeros (fst (shape A)) (Z.to_nat z),
                   rev (firstn (Z.to_nat z) sv),
                   zeros (Z.to_nat z) (snd (shape A)))
           else None
       | _ => None
       end;
     get_dummies := indicator_columns;
     concat := fun parts _ =>
       match parts with [] => None | _ => Some (beside parts) end |}.

(** Two observations of two variables that each take a single value: the
    indicator matrix is all ones, the residuals vanish and so do the
    singular values. *)
Definition constant_table : DataFrame :=
  table ["a"; "b"] [[1; 1]; [1; 1]]%Q.

(** Four observations of two variables, the first with two levels and the
    second with three, as codes. *)
Definition raw_table : DataFrame :=
  table ["a"; "b"] [[1; 1]; [1; 2]; [2; 3]; [2; 1]]%Q.

(** The same observations, dummy coded by hand. *)
Definition survey_table : DataFrame :=
  table ["a1"; "a2"; "b1"; "b2"; "b3"]
        [[1; 0; 1; 0; 0]; [1; 0; 0; 1; 0]; [0; 1; 0; 0; 1]; [0; 1; 1; 0; 0]]%Q.

(** [MCA()], with the defaults of the constructor. *)
Definition MCA_default : self.t :=
  __init__ None PyNone true (1 # 10000)%Q false false.

(** Solvers that answer with singular values 3/4, 1/2, 1/4 and 0, and
    solvers that answer with zeros, as any solver does on a matrix of
    zeros. *)
Definition sample_solvers : Collaborators :=
  answering [3 # 4; 1 # 2; 1 # 4; 0]%Q.

Definition zero_solvers : Collaborators :=
  answering [0; 0]%Q.



(** Four observations of one variable with four levels, each observed
    once, dummy coded: the indicator matrix is the identity.  Every row
    mass and every column mass is 1/4, whose square root is exact, and the
    matrix [_fit] decomposes is [sigma * (I - J/4)], [J] being the matrix
    of ones and [sigma] the weight [1/(eps + 1/2)] squared over 4. *)
Definition identity_table : DataFrame :=
  table ["a"; "b"; "c"; "d"]
        [[1; 0; 0; 0]; [0; 1; 0; 0]; [0; 0; 1; 0]; [0; 0; 0; 1]]%Q.

(** An array given by its rows. *)
Definition matrix (rows : list (list float)) : ndarray :=
  {| shape := (List.length rows, List.length (hd [] rows));
     item := fun i j => nth j (nth i rows []) (0%Q) |}.

(** An orthonormal basis of rational vectors: three vectors orthogonal to
    the vector of ones, then the normalised vector of ones, as columns. *)
Definition hadamard : ndarray :=
  matrix [[  1 # 2;    1 # 2;    1 # 2;  1 # 2];
          [  1 # 2; -(1 # 2); -(1 # 2);  1 # 2];
          [-(1 # 2);   1 # 2; -(1 # 2);  1 # 2];
          [-(1 # 2); -(1 # 2);   1 # 2;  1 # 2]]%Q.

Definition sigma : float := ((1 / (np.eps + (1 # 2))) ^ 2 / 4)%Q.

(** A dense solver that answers a 4 by 4 matrix with the exact singular
    value decomposition of [sigma * (I - J/4)]: the singular value [sigma]
    three times and 0, largest first. *)
Definition exact_solvers : Collaborators :=
  {| sqrt := sqrt6;
     svd := fun A =>
       if (fst (shape A) =? 4) && (snd (shape A) =? 4)
       then Some (hadamard, [sigma; sigma; sigma; 0%Q], np.T hadamard)
       else None;
     svds := fun _ _ => None;
     get_dummies := indicator_columns;
     concat := fun parts _ =>
       match parts with [] => None | _ => Some (beside parts) end |}.

(** [MCA(benzecri=False)]. *)
Definition MCA_plain : self.t :=
  __init__ None PyNone false (1 # 10000)%Q false false.

(** [MCA(n_cols=n_cols, sparse=True)]. *)
Definition MCA_sparse (n_cols : pyobj) : self.t :=
  __init__ None n_cols true (1 # 10000)%Q true false.

(** [MCA(cols=cols, n_cols=n_cols)]. *)
Definition MCA_cols (cols : list string) (n_cols : pyobj) : self.t :=
  __init__ (Some cols) n_cols true (1 # 10000)%Q false false.

(** An object with two categories and two singular values, the cache of
    corrected eigenvalues still empty. *)
Definition before_correction : self.t :=
  MCA_default{{ self.K := 2%Z; self.s := [3 # 4; 1 # 2]%Q }}.

(** ** Vocabulary of the statements *)

(** The eigenvalue vector [E] that [_fit] thresholds and truncates: the
    corrected eigenvalues when the Benzecri correction is on, the squared
    singular values otherwise. *)
Definition eigenvalues (o : self.t) : list float :=
  if self.benzecri o then
    match self.E o with Some E => E | None => [] end
  else squares (self.s o).

(** The index of the first entry of [E] below [tol], if there is one. *)
Definition first_below (tol : float) (E : list float) : option nat :=
  np.first_true (map (fun e => Qlt_bool e tol) E).

(** The Benzecri correction in the words of the specification, for a
    singular value [sigma] and a category count [K]. *)
Definition benzecri_spec (K : Z) (sigma : float) : float :=
  let K := inject_Z K in
  if Qlt_bool (1 / K) (sigma ^ 2) then (K / (K - 1) * (sigma ^ 2 - 1 / K)) ^ 2
  else 0.

(** Largest first, and smallest first. *)
Definition descending (s : list float) : Prop :=
  forall i j, i <= j -> j < List.length s -> (nth j s 0 <= nth i s 0)%Q.

Definition ascending (s : list float) : Prop :=
  forall i j, i <= j -> j < List.length s -> (nth i s 0 <= nth j s 0)%Q.

(** The cumulative inertia of the first [k] axes reaches the fraction
    [percent] of the whole. *)
Definition reaches (L : list float) (percent : float) (k : nat) : Prop :=
  (percent * np.sum L <= np.sum (firstn k L))%Q.

(** The two errors of [process_df], and the two of the score calculators. *)
Definition invalid_configuration (e : exception) : Prop :=
  e = ValueError "Your DataFrame has no columns." \/
  e = ValueError "You must pass a valid number of columns.".

Definition invalid_argument (e : exception) : Prop :=
  e = ValueError "Percent should be a real number between 0 and 1." \/
  e = ValueError "N should be a positive integer.".

(** A positive integer, as an [int] or an [int64]. *)
Definition positive_integer (N : pyobj) : Prop :=
  exists z, (N = PyInt z \/ N = PyInt64 z) /\ (0 < z)%Z.

(** The lines of [_fit] that follow the decomposition: the eigenvalue
    vector, the inertia, the rank and [L]. *)
Definition correction : M unit :=
  assign (fun o => o{{ self.E := None }}) ;;
  benzecri <- attr self.benzecri ;;
  E <- (if benzecri then _apply_benzecri_correction
        else s <- attr self.s ;; ret (squares s)) ;;
  assign (fun o => o{{ self.inertia := np.sum E }}) ;;
  tol <- attr self.tol ;;
  rank <- lift (np.argmax (map (fun e => Qlt_bool e tol) E)) ;;
  assign (fun o => o{{ self.rank := rank }}) ;;
  rank <- attr self.rank ;;
  (if rank =? 0 then assign (fun o => o{{ self.rank := List.length E }})
   else ret tt) ;;
  rank <- attr self.rank ;;
  assign (fun o => o{{ self.L := firstn rank E }}).

(** The object as the lines of [_fit] before them leave it, given what
    [process_df] returned, the matrix that was decomposed and the triplets
    the solver answered. *)
Definition decomposed {collab : Collaborators} (o : self.t) (X : DataFrame)
    (K : Z) (J : nat) (product P : ndarray) (s : list float) (Q : ndarray) : self.t :=
  let Z := pd.div X (np.sum (pd.sum X)) in
  let o1 := o{{
    self.K := K; self.J := J;
    self.r := pd.sum_axis1 Z; self.c := pd.sum Z;
    self.D_r := np.diag (map (fun x => 1 / (np.eps + sqrt x))%Q (pd.sum_axis1 Z));
    self.D_c := np.diag (map (fun x => 1 / (np.eps + sqrt x))%Q (pd.sum Z)) }} in
  if self.sparse o then
    o1{{ self.P := np.T (np.flipud (np.T P));
         self.Q := np.flipud Q;
         self.s := np.reversed s;
         self._numitems := (Z.of_nat (min_shape product) - 1)%Z }}
  else
    o1{{ self._numitems := Z.of_nat (index X);
         self.P := P; self.s := s; self.Q := Q }}.

(** The rank [_fit] settles on, from the tolerance and the eigenvalues. *)
Definition settled_rank (tol : float) (E : list float) : nat :=
  match first_below tol E with
  | Some (S i) => S i
  | _ => List.length E
  end.

(** The instances a caller can hold after a successful fit: the object
    [_fit] leaves, and the objects the score calculators leave from such
    an instance, whether they returned or raised. *)
Inductive fitted {collab : Collaborators} : self.t -> Prop :=
| fitted_fit (X : DataFrame) (o o' : self.t) :
    _fit X o = (OK tt, o') -> fitted o'
| fitted_rows (percent : float) (N : pyobj) (o : self.t) :
    fitted o -> fitted (snd (_calc_row_factor_scores percent N o))
| fitted_cols (percent : float) (N : pyobj) (o : self.t) :
    fitted o -> fitted (snd (_calc_col_factor_scores percent N o)).

(** [N] after the check of the calculators, and the number of factors
    they then retain, for a rank and a count [k]. *)
Definition checked (N : pyobj) (rank : nat) : pyobj :=
  if truthy N then PyInt (Z.min (int_of N) (Z.of_nat rank)) else N.

Definition num2ret (N : pyobj) (rank k : nat) : Z :=
  if truthy (checked N rank) then int_of (checked N rank) else Z.of_nat k.

(** The arguments the calculators accept: a [percent] between 0 and 1, and
    an [N] that is either not truthy ([None], [0], [0.0]) or a positive
    [int] or [int64]. *)
Definition accepted (percent : float) (N : pyobj) : Prop :=
  (0 <= percent)%Q /\ (percent <= 1)%Q /\
  (truthy N = false \/ positive_integer N).

(** What the correction stage establishes, and what the score calculators
    leave untouched. *)
Definition corrected (o : self.t) : Prop :=
  eigenvalues o <> [] /\
  List.length (eigenvalues o) = List.length (self.s o) /\
  Forall (fun x => 0 <= x)%Q (eigenvalues o) /\
  self.rank o = settled_rank (self.tol o) (eigenvalues o) /\
  self.L o = firstn (self.rank o) (eigenvalues o).

Definition stable (o o' : self.t) : Prop :=
  self.benzecri o' = self.benzecri o /\ self.tol o' = self.tol o /\
  self.E o' = self.E o /\ self.s o' = self.s o /\
  self.rank o' = self.rank o /\ self.L o' = self.L o /\
  self.K o' = self.K o /\ self._numitems o' = self._numitems o /\
  self.P o' = self.P o /\ self.Q o' = self.Q o /\
  self.D_r o' = self.D_r o /\ self.D_c o' = self.D_c o.

(** No columns are specified: [cols] is [None] or empty, which is what
    [if cols:] tests. *)
Definition unspecified (cols : option (list string)) : Prop :=
  cols = None \/ cols = Some [].

(** A coded-column count [process_df] takes: a positive [int] that does
    not exceed the number of columns of the table. *)
Definition valid_count (ncols : pyobj) (DF : DataFrame) : Prop :=
  exists z, ncols = PyInt z /\ (0 < z <= Z.of_nat (List.length (columns DF)))%Z.

(** The condition of the specification for an invalid configuration: no
    columns are specified and the table has zero columns, or a coded-column
    count is supplied that is not a positive integer or exceeds the
    table's column count. *)
Definition claimed_invalid (cols : option (list string)) (ncols : pyobj)
    (DF : DataFrame) : Prop :=
  (unspecified cols /\ columns DF = []) \/
  (ncols <> PyNone /\ ~ valid_count ncols DF).

(** A computation that never raises an invalid-configuration error. *)
Definition quiet {A} (m : M A) : Prop :=
  forall o e o', m o = (Raise e, o') -> ~ invalid_configuration e.

Definition rquiet {A} (x : result A) : Prop :=
  forall e, x = Raise e -> ~ invalid_configuration e.



(** The dimensions the score calculators rely on: [D_r] and [P] can be
    multiplied, the diagonal matrix of the rows has as many rows as [P]
    has columns, [D_c] and the transpose of [Q] can be multiplied, and
    neither [P] nor [Q] has fewer vectors than the rank. *)
Definition well_dimensioned (o : self.t) : Prop :=
  snd (shape (self.D_r o)) = fst (shape (self.P o)) /\
  self._numitems o = Z.of_nat (snd (shape (self.P o))) /\
  self.rank o <= snd (shape (self.P o)) /\
  snd (shape (self.D_c o)) = snd (shape (self.Q o)) /\
  self.rank o <= fst (shape (self.Q o)).


(** ** Properties *)

Section Properties.

Context {collab : Collaborators}.

(** *** Comparisons and sums *)

Lemma Qlt_bool_iff (x y : float) : Qlt_bool x y = true <-> (x < y)%Q.
Proof.
  unfold Qlt_bool. rewrite negb_true_iff. split; intros H.
  - apply Qnot_le_lt. intros Hle. apply Qle_bool_iff in Hle. congruence.
  - destruct (Qle_bool y x) eqn:E; [|reflexivity].
    apply Qle_bool_iff in E. exfalso. exact (Qlt_not_le _ _ H E).
Qed.

Lemma Qsquare_nonneg (x : float) : (0 <= x ^ 2)%Q.
Proof.
  assert (E : (x ^ 2 == x * x)%Q) by (simpl; ring).
  rewrite E. destruct (Qlt_le_dec x 0) as [Hn | Hp].
  - setoid_replace (x * x)%Q with ((- x) * (- x))%Q by ring.
    apply Qmult_le_0_compat; apply (Qopp_le_compat x 0); apply Qlt_le_weak; exact Hn.
  - apply Qmult_le_0_compat; exact Hp.
Qed.

Lemma fold_left_Qplus_le (l : list float) (a b : float) :
  (a <= b)%Q -> Forall (fun x => 0 <= x)%Q l -> (a <= fold_left Qplus l b)%Q.
Proof.
  intros Hab Hl. revert a b Hab. induction Hl as [|x l Hx Hl IH]; intros a b Hab.
  - exact Hab.
  - simpl. apply IH. rewrite <- (Qplus_0_r a). apply Qplus_le_compat; assumption.
Qed.

Lemma sum_nonneg (l : list float) :
  Forall (fun x => 0 <= x)%Q l -> (0 <= np.sum l)%Q.
Proof. intros Hl. apply fold_left_Qplus_le; [apply Qle_refl | exact Hl]. Qed.

Lemma nth_cumsum_from (l : list float) (acc : float) (i : nat) :
  i < List.length l ->
  nth i (np.cumsum_from acc l) 0%Q = fold_left Qplus (firstn (S i) l) acc.
Proof.
  revert acc i. induction l as [|x l IH]; intros acc i Hi; simpl in Hi.
  - lia.
  - destruct i as [|i].
    + reflexivity.
    + change (nth i (np.cumsum_from (acc + x)%Q l) 0%Q =
              fold_left Qplus (firstn (S i) l) (acc + x)%Q).
      apply IH. lia.
Qed.

Lemma nth_cumsum (l : list float) (i : nat) :
  i < List.length l -> nth i (np.cumsum l) 0%Q = np.sum (firstn (S i) l).
Proof. apply nth_cumsum_from. Qed.

Lemma length_cumsum_from (l : list float) (acc : float) :
  List.length (np.cumsum_from acc l) = List.length l.
Proof. revert acc. induction l as [|x l IH]; intros acc; simpl; [|rewrite IH]; reflexivity. Qed.

(** *** First true entry of a boolean vector *)

Lemma first_true_Some (b : list bool) (i : nat) :
  np.first_true b = Some i ->
  i < List.length b /\ nth i b false = true /\
  forall j, j < i -> nth j b false = false.
Proof.
  revert i. induction b as [|x b IH]; intros i H; simpl in H.
  - discriminate.
  - destruct x.
    + inversion H; subst. simpl. repeat split; [lia | intros j Hj; lia].
    + destruct (np.first_true b) as [i'|]; [|discriminate].
      inversion H; subst. destruct (IH i' eq_refl) as (Hl & Ht & Hf).
      simpl. repeat split; [lia | exact Ht |].
      intros [|j] Hj; [reflexivity | apply Hf; lia].
Qed.

Lemma first_true_None (b : list bool) :
  np.first_true b = None -> forall j, nth j b false = false.
Proof.
  induction b as [|x b IH]; intros H j; simpl in H.
  - destruct j; reflexivity.
  - destruct x; [discriminate|].
    destruct (np.first_true b); [discriminate|].
    destruct j; [reflexivity | apply IH; reflexivity].
Qed.

Lemma first_true_exists (b : list bool) (i : nat) :
  nth i b false = true -> exists j, np.first_true b = Some j /\ j <= i.
Proof.
  intros H. destruct (np.first_true b) as [j|] eqn:E.
  - exists j. split; [reflexivity|].
    destruct (first_true_Some _ _ E) as (_ & _ & Hf).
    destruct (le_lt_dec j i) as [Hle|Hlt]; [exact Hle|].
    rewrite (Hf i Hlt) in H. discriminate.
  - rewrite (first_true_None _ E i) in H. discriminate.
Qed.

Lemma flatnonzero_from_first (b : list bool) (i : nat) :
  hd_error (np.flatnonzero_from i b) = option_map (Nat.add i) (np.first_true b).
Proof.
  revert i. induction b as [|x b IH]; intros i; simpl.
  - reflexivity.
  - destruct x; simpl.
    + f_equal. lia.
    + rewrite IH. destruct (np.first_true b); simpl; [f_equal; lia | reflexivity].
Qed.

(** *** Running a method *)

Lemma bind_OK {A B} (m : M A) (f : A -> M B) o b o' :
  bind m f o = (OK b, o') ->
  exists a o1, m o = (OK a, o1) /\ f a o1 = (OK b, o').
Proof.
  unfold bind. destruct (m o) as [[a|e] o1]; intros H.
  - exists a, o1. split; [reflexivity | exact H].
  - discriminate.
Qed.

Lemma bind_Raise {A B} (m : M A) (f : A -> M B) o e o' :
  bind m f o = (Raise e, o') ->
  m o = (Raise e, o') \/ exists a o1, m o = (OK a, o1) /\ f a o1 = (Raise e, o').
Proof.
  unfold bind. destruct (m o) as [[a|e1] o1]; intros H.
  - right. exists a, o1. split; [reflexivity | exact H].
  - left. inversion H. reflexivity.
Qed.

Lemma attr_run {A} (f : self.t -> A) o r o' :
  attr f o = (r, o') -> r = OK (f o) /\ o' = o.
Proof. unfold attr. intros H. inversion H. split; reflexivity. Qed.

Lemma assign_run u o r o' : assign u o = (r, o') -> r = OK tt /\ o' = u o.
Proof. unfold assign. intros H. inversion H. split; reflexivity. Qed.

Lemma lift_run {A} (x : result A) o r o' : lift x o = (r, o') -> r = x /\ o' = o.
Proof. unfold lift. intros H. inversion H. split; reflexivity. Qed.

Lemma ret_run {A} (x : A) o r o' : ret x o = (r, o') -> r = OK x /\ o' = o.
Proof. unfold ret. intros H. inversion H. split; reflexivity. Qed.

(** *** The Benzecri correction *)

Lemma benzecri_entry_nonneg (K : Z) (x y : float) :
  benzecri_entry K x = OK y -> (0 <= y)%Q.
Proof.
  unfold benzecri_entry. intros H.
  destruct (K =? 0)%Z; [discriminate|].
  destruct (Qlt_bool _ x).
  - destruct (Qeq_bool _ 0); [discriminate|].
    inversion H; subst. apply Qsquare_nonneg.
  - inversion H; subst. apply Qle_refl.
Qed.

Lemma benzecri_entry_spec (K : Z) (sigma : float) :
  (2 <= K)%Z -> benzecri_entry K (sigma ^ 2) = OK (benzecri_spec K sigma).
Proof.
  intros HK. unfold benzecri_entry, benzecri_spec.
  destruct (Z.eqb_spec K 0) as [E|_]; [lia|].
  destruct (Qlt_bool _ _); [|reflexivity].
  destruct (Qeq_bool (inject_Z K - 1) 0) eqn:E; [|reflexivity].
  apply Qeq_bool_eq in E. exfalso.
  unfold Qeq, Qminus, Qplus, inject_Z in E. simpl in E. lia.
Qed.

Lemma rmap_OK_inv {A B} (f : A -> result B) (l : list A) (l' : list B) :
  rmap f l = OK l' -> Forall2 (fun a b => f a = OK b) l l'.
Proof.
  revert l'. induction l as [|a l IH]; intros l' H; simpl in H.
  - inversion H. constructor.
  - destruct (f a) as [b|e] eqn:Ea; simpl in H; [|discriminate].
    destruct (rmap f l) as [bs|e]; simpl in H; [|discriminate].
    inversion H; subst. constructor; [exact Ea | apply IH; reflexivity].
Qed.

Lemma rmap_total {A B} (f : A -> result B) (g : A -> B) (l : list A) :
  (forall a, In a l -> f a = OK (g a)) -> rmap f l = OK (map g l).
Proof.
  induction l as [|a l IH]; intros H; simpl.
  - reflexivity.
  - rewrite (H a (or_introl eq_refl)). simpl.
    rewrite IH by (intros a' Ha'; apply H; right; exact Ha'). reflexivity.
Qed.

Lemma rmap_map {A B C} (f : B -> result C) (g : A -> B) (l : list A) :
  rmap f (map g l) = rmap (fun a => f (g a)) l.
Proof.
  induction l as [|a l IH]; simpl; [|rewrite IH]; reflexivity.
Qed.

Lemma benzecri_entries_nonneg (K : Z) (xs E : list float) :
  rmap (benzecri_entry K) xs = OK E ->
  List.length E = List.length xs /\ Forall (fun x => 0 <= x)%Q E.
Proof.
  intros H. apply rmap_OK_inv in H. induction H as [|x y xs E Hxy _ [IHl IHn]].
  - split; [reflexivity | constructor].
  - split; [simpl; rewrite IHl; reflexivity|].
    constructor; [apply (benzecri_entry_nonneg K x); exact Hxy | exact IHn].
Qed.

Lemma benzecri_spec_nonneg (K : Z) (sigma : float) : (0 <= benzecri_spec K sigma)%Q.
Proof.
  unfold benzecri_spec. destruct (Qlt_bool _ _); [apply Qsquare_nonneg | apply Qle_refl].
Qed.

(** C2.  For a category count [K >= 2], the Benzecri correction turns
    each singular value [sigma] into [(K/(K-1) * (sigma^2 - 1/K))^2] when
    [sigma^2 > 1/K] and into [0] otherwise, so that every corrected
    eigenvalue is non-negative.  The method is run on an object whose
    cache [E] is empty, as [_fit] leaves it just before the call; it
    returns the corrected vector and stores it in [E]. *)
Theorem benzecri_correction_formula (o : self.t) :
  (2 <= self.K o)%Z ->
  self.E o = None ->
  exists E,
    _apply_benzecri_correction o = (OK E, o{{ self.E := Some E }}) /\
    List.length E = List.length (self.s o) /\
    forall i, i < List.length (self.s o) ->
      let sigma := nth i (self.s o) 0%Q in
      let K := inject_Z (self.K o) in
      ((1 / K < sigma ^ 2)%Q ->
         nth i E 0%Q = ((K / (K - 1) * (sigma ^ 2 - 1 / K)) ^ 2)%Q) /\
      (~ (1 / K < sigma ^ 2)%Q -> nth i E 0%Q = 0%Q) /\
      (0 <= nth i E 0%Q)%Q.
Proof.
  intros HK HE. exists (map (benzecri_spec (self.K o)) (self.s o)).
  split; [|split].
  - unfold _apply_benzecri_correction, bind, attr, assign, lift, ret.
    rewrite HE. unfold squares. rewrite rmap_map.
    rewrite (rmap_total _ (benzecri_spec (self.K o)))
      by (intros sigma _; apply benzecri_entry_spec; exact HK).
    reflexivity.
  - apply length_map.
  - intros i Hi sigma K.
    assert (E : nth i (map (benzecri_spec (self.K o)) (self.s o)) 0%Q =
                benzecri_spec (self.K o) sigma).
    { rewrite (nth_indep _ 0%Q (benzecri_spec (self.K o) 0%Q))
        by (rewrite length_map; exact Hi).
      apply map_nth. }
    rewrite E. unfold benzecri_spec. fold K. repeat split.
    + intros Hlt. apply Qlt_bool_iff in Hlt. rewrite Hlt. reflexivity.
    + intros Hnlt. destruct (Qlt_bool (1 / K) (sigma ^ 2)) eqn:Eb; [|reflexivity].
      apply Qlt_bool_iff in Eb. contradiction.
    + apply (benzecri_spec_nonneg (self.K o) sigma).
Qed.

(** *** What a successful fit leaves behind *)

Ltac run_pure H :=
  let a := fresh "a" in
  let o1 := fresh "o" in
  let H1 := fresh "H" in
  apply bind_OK in H; destruct H as (a & o1 & H1 & H);
  first [ apply attr_run in H1; destruct H1 as [H1 ->]; inversion H1; subst a; clear H1
        | apply assign_run in H1; destruct H1 as [_ ->]
        | apply ret_run in H1; destruct H1 as [H1 ->]; inversion H1; subst a; clear H1 ].

Ltac run_lift H a H1 :=
  let o1 := fresh "o" in
  apply bind_OK in H; destruct H as (a & o1 & H1 & H);
  apply lift_run in H1; destruct H1 as [H1 ->]; symmetry in H1.

Lemma dot_shape (A B C : ndarray) :
  np.dot A B = OK C -> shape C = (fst (shape A), snd (shape B)).
Proof.
  unfold np.dot. destruct (_ =? _); intros H; inversion H. reflexivity.
Qed.

Lemma fit_decomposition (X : DataFrame) (o o' : self.t) :
  _fit X o = (OK tt, o') ->
  exists X' K J product P s Q,
    process_df X (self.cols o) (self.n_cols o) = OK (X', K, J) /\
    shape product = pd.shape_of X' /\
    (if self.sparse o
     then svds product
            (match self.n_cols o with
             | PyNone => PyInt (Z.of_nat (min_shape product) - 1)
             | _ => self.n_cols o
             end)
     else svd product) = Some (P, s, Q) /\
    correction (decomposed o X' K J product P s Q) = (OK tt, o').
Proof.
  unfold _fit. intros H.
  run_pure H. run_pure H. run_lift H a Hdf. destruct a as [[X' K] J].
  do 7 run_pure H. run_lift H D_r_Z_c Hdot1. run_lift H product Hdot2.
  run_pure H.
  apply bind_OK in H. destruct H as ([] & o2 & Hsolve & H).
  change (correction o2 = (OK tt, o')) in H.
  assert (Hshape : shape product = pd.shape_of X').
  { rewrite (dot_shape _ _ _ Hdot2), (dot_shape _ _ _ Hdot1).
    unfold constant, pd.sum, pd.sum_axis1, pd.shape_of. simpl.
    rewrite !length_map, !length_seq. reflexivity. }
  exists X', K, J, product.
  match type of Hsolve with (if ?b then _ else _) _ = _ =>
    change b with (self.sparse o) in Hsolve end.
  unfold decomposed. destruct (self.sparse o).
  - run_lift Hsolve t Hs. destruct t as [[P s] Q].
    apply assign_run in Hsolve. destruct Hsolve as [_ ->].
    unfold call in Hs. destruct (svds _ _) as [t|] eqn:Es; [|discriminate].
    inversion Hs; subst t. exists P, s, Q. repeat split; assumption.
  - run_pure Hsolve. run_lift Hsolve t Hs. destruct t as [[P s] Q].
    apply assign_run in Hsolve. destruct Hsolve as [_ ->].
    unfold call in Hs. destruct (svd _) as [t|] eqn:Es; [|discriminate].
    inversion Hs; subst t. exists P, s, Q. repeat split; assumption.
Qed.

Lemma settled_rank_argmax (tol : float) (E : list float) (rank : nat) :
  np.argmax (map (fun e => Qlt_bool e tol) E) = OK rank ->
  (if rank =? 0 then List.length E else rank) = settled_rank tol E.
Proof.
  unfold settled_rank, first_below, np.argmax. intros H.
  destruct (map _ E) as [|b bs] eqn:Em; [discriminate|].
  remember (np.first_true (b :: bs)) as ft eqn:Eft. clear Eft.
  injection H as <-.
  destruct ft as [[|i]|]; reflexivity.
Qed.

Lemma correction_spec (o2 o' : self.t) :
  correction o2 = (OK tt, o') ->
  exists E,
    E <> [] /\
    (if self.benzecri o2
     then rmap (benzecri_entry (self.K o2)) (squares (self.s o2)) = OK E
     else E = squares (self.s o2)) /\
    o' = o2{{ self.E := if self.benzecri o2 then Some E else None;
              self.inertia := np.sum E;
              self.rank := settled_rank (self.tol o2) E;
              self.L := firstn (settled_rank (self.tol o2) E) E }}.
Proof.
  unfold correction. intros H.
  run_pure H. run_pure H.
  apply bind_OK in H. destruct H as (E & o3 & HE & H).
  exists E.
  match type of HE with (if ?b then _ else _) _ = _ =>
    change b with (self.benzecri o2) in HE end.
  assert (Ho3 : (if self.benzecri o2
                 then rmap (benzecri_entry (self.K o2)) (squares (self.s o2)) = OK E
                 else E = squares (self.s o2)) /\
                o3 = o2{{ self.E := if self.benzecri o2 then Some E else None }}).
  { destruct (self.benzecri o2).
    - unfold _apply_benzecri_correction in HE.
      run_pure HE. cbv beta iota in HE. simpl in HE.
      run_pure HE. run_pure HE. run_lift HE E' HE'. run_pure HE.
      apply ret_run in HE. destruct HE as [HE ->]. inversion HE; subst E'.
      split; [exact HE' | reflexivity].
    - run_pure HE. apply ret_run in HE. destruct HE as [HE ->].
      inversion HE. split; reflexivity. }
  destruct Ho3 as [HEdef ->].
  run_pure H. run_pure H. run_lift H rank Hrank. run_pure H. run_pure H.
  apply bind_OK in H. destruct H as ([] & o4 & Hif & H).
  run_pure H. apply assign_run in H. destruct H as [_ ->].
  assert (HEne : E <> []) by (intros ->; discriminate Hrank).
  assert (Hr : (if rank =? 0 then List.length E else rank) =
               settled_rank (self.tol o2) E)
    by exact (settled_rank_argmax _ _ _ Hrank).
  split; [exact HEne|]. split; [exact HEdef|].
  rewrite <- Hr.
  match type of Hif with (if ?b then _ else _) _ = _ =>
    change b with (rank =? 0) in Hif end.
  destruct (rank =? 0).
  - apply assign_run in Hif. destruct Hif as [_ ->]. reflexivity.
  - apply ret_run in Hif. destruct Hif as [_ ->]. reflexivity.
Qed.

Lemma decomposed_config (o : self.t) X K J product P s Q :
  let o2 := decomposed o X K J product P s Q in
  self.benzecri o2 = self.benzecri o /\ self.tol o2 = self.tol o /\
  self.sparse o2 = self.sparse o /\ self.n_cols o2 = self.n_cols o /\
  self.cols o2 = self.cols o /\ self.K o2 = K /\ self.J o2 = J.
Proof.
  unfold decomposed. destruct (self.sparse o) eqn:Es; repeat split; try exact Es.
Qed.

Lemma decomposed_triplets (o : self.t) X K J product P s Q :
  let o2 := decomposed o X K J product P s Q in
  if self.sparse o then
    self.s o2 = rev s /\ self.P o2 = np.T (np.flipud (np.T P)) /\
    self.Q o2 = np.flipud Q /\
    self._numitems o2 = (Z.of_nat (min_shape product) - 1)%Z
  else
    self.s o2 = s /\ self.P o2 = P /\ self.Q o2 = Q /\
    self._numitems o2 = Z.of_nat (index X).
Proof.
  unfold decomposed. destruct (self.sparse o); repeat split.
Qed.

Lemma squares_nonneg (s : list float) : Forall (fun x => 0 <= x)%Q (squares s).
Proof.
  unfold squares. apply Forall_forall. intros x Hx.
  apply in_map_iff in Hx. destruct Hx as (y & <- & _). apply Qsquare_nonneg.
Qed.

Lemma settled_rank_bounds (tol : float) (E : list float) :
  E <> [] -> 1 <= settled_rank tol E <= List.length E.
Proof.
  intros HE. unfold settled_rank, first_below.
  assert (Hlen : 1 <= List.length E) by (destruct E; [contradiction | simpl; lia]).
  destruct (np.first_true _) as [[|i]|] eqn:Ef; try lia.
  apply first_true_Some in Ef. destruct Ef as (Hi & _).
  rewrite length_map in Hi. lia.
Qed.

(** What [_fit] leaves in the attributes the later methods read. *)
Lemma fit_facts (X : DataFrame) (o o' : self.t) :
  _fit X o = (OK tt, o') ->
  eigenvalues o' <> [] /\
  List.length (eigenvalues o') = List.length (self.s o') /\
  Forall (fun x => 0 <= x)%Q (eigenvalues o') /\
  self.rank o' = settled_rank (self.tol o') (eigenvalues o') /\
  self.L o' = firstn (self.rank o') (eigenvalues o') /\
  self.tol o' = self.tol o /\ self.benzecri o' = self.benzecri o.
Proof.
  intros H. apply fit_decomposition in H.
  destruct H as (X' & K & J & product & P & s & Q & _ & _ & _ & H).
  apply correction_spec in H. destruct H as (E & HEne & HE & ->).
  destruct (decomposed_config o X' K J product P s Q) as (Hb & Ht & _).
  set (o2 := decomposed o X' K J product P s Q) in *.
  assert (Hev : eigenvalues
                  o2{{ self.E := if self.benzecri o2 then Some E else None;
                       self.inertia := np.sum E;
                       self.rank := settled_rank (self.tol o2) E;
                       self.L := firstn (settled_rank (self.tol o2) E) E }} = E).
  { unfold eigenvalues.
    change (self.benzecri (_ {{ self.E := _; self.inertia := _; self.rank := _;
                                 self.L := _ }})) with (self.benzecri o2).
    destruct (self.benzecri o2); [reflexivity | symmetry; exact HE]. }
  rewrite Hev.
  repeat split; try assumption.
  - destruct (self.benzecri o2).
    + apply benzecri_entries_nonneg in HE. destruct HE as [Hl _].
      rewrite Hl. unfold squares. apply length_map.
    + rewrite HE. unfold squares. apply length_map.
  - destruct (self.benzecri o2).
    + apply benzecri_entries_nonneg in HE. apply HE.
    + rewrite HE. apply squares_nonneg.
Qed.

Lemma fit_result (X : DataFrame) (o : self.t) :
  fst (_fit X o) = OK tt -> _fit X o = (OK tt, snd (_fit X o)).
Proof. destruct (_fit X o) as [r o']. simpl. intros ->. reflexivity. Qed.

(** The rank after a successful fit, by the position of the first
    eigenvalue below the tolerance: that position when it is at least 1,
    the number of eigenvalues when there is none and also when it is 0. *)
Lemma rank_by_cases (X : DataFrame) (o o' : self.t) :
  _fit X o = (OK tt, o') ->
  match first_below (self.tol o) (eigenvalues o') with
  | Some (S i) => self.rank o' = S i
  | Some 0 => self.rank o' = List.length (eigenvalues o')
  | None => self.rank o' = List.length (eigenvalues o')
  end.
Proof.
  intros H. destruct (fit_facts X o o' H) as (_ & _ & _ & Hr & _ & Ht & _).
  rewrite Hr, Ht. unfold settled_rank.
  destruct (first_below (self.tol o) (eigenvalues o')) as [[|i]|]; reflexivity.
Qed.

(** C10.  After a successful fit the eigenvalue vector is not empty, the
    rank is at least 1 and at most the number of eigenvalues, and [L],
    the eigenvalues cut at the rank, has exactly [rank] entries, so it
    is never empty. *)
Theorem rank_between_one_and_count (X : DataFrame) (o o' : self.t) :
  _fit X o = (OK tt, o') ->
  eigenvalues o' <> [] /\
  1 <= self.rank o' <= List.length (eigenvalues o') /\
  self.L o' = firstn (self.rank o') (eigenvalues o') /\
  List.length (self.L o') = self.rank o' /\
  self.L o' <> [].
Proof.
  intros H. destruct (fit_facts X o o' H) as (HEne & _ & _ & Hr & HL & _).
  pose proof (settled_rank_bounds (self.tol o') _ HEne) as Hb.
  rewrite <- Hr in Hb.
  assert (Hlen : List.length (self.L o') = self.rank o').
  { rewrite HL. apply firstn_length_le. lia. }
  repeat split; try assumption; try lia.
  intros HLe. rewrite HLe in Hlen. simpl in Hlen. lia.
Qed.

(** *** The retained-dimension count *)

Lemma nth_threshold (L : list float) (thr : float) (i : nat) :
  i < List.length L ->
  nth i (map (fun x => Qle_bool thr x) (np.cumsum L)) false =
  Qle_bool thr (np.sum (firstn (S i) L)).
Proof.
  intros Hi.
  rewrite (nth_indep _ false (Qle_bool thr 0%Q))
    by (rewrite length_map; unfold np.cumsum; rewrite length_cumsum_from; exact Hi).
  rewrite (map_nth (fun x => Qle_bool thr x)). rewrite nth_cumsum by exact Hi.
  reflexivity.
Qed.

Lemma Forall_firstn {A} (P : A -> Prop) (n : nat) (l : list A) :
  Forall P l -> Forall P (firstn n l).
Proof.
  intros H. revert n. induction H as [|x l Hx _ IH]; intros [|n]; simpl;
    constructor; [exact Hx | apply IH].
Qed.

Lemma retained_spec (L : list float) (percent : float) :
  L <> [] ->
  Forall (fun x => 0 <= x)%Q L ->
  (0 <= percent)%Q -> (percent <= 1)%Q ->
  exists k,
    retained L percent = OK k /\
    1 <= k <= List.length L /\
    reaches L percent k /\
    (forall j, 1 <= j < k -> ~ reaches L percent j) /\
    ((percent == 0)%Q -> k = 1).
Proof.
  intros HL Hnn Hp0 Hp1.
  set (thr := (np.sum L * percent)%Q).
  set (bs := map (fun x => Qle_bool thr x) (np.cumsum L)).
  assert (Hlen : 1 <= List.length L) by (destruct L; [contradiction | simpl; lia]).
  assert (Hsum : (0 <= np.sum L)%Q) by (apply sum_nonneg; exact Hnn).
  assert (Hlast : nth (List.length L - 1) bs false = true).
  { unfold bs. rewrite nth_threshold by lia.
    replace (S (List.length L - 1)) with (List.length L) by lia.
    rewrite firstn_all. apply Qle_bool_iff. unfold thr.
    rewrite <- (Qmult_1_r (np.sum L)) at 2.
    rewrite !(Qmult_comm (np.sum L)).
    apply Qmult_le_compat_r; assumption. }
  destruct (first_true_exists _ _ Hlast) as (j & Hj & Hjle).
  exists (1 + j).
  destruct (first_true_Some _ _ Hj) as (_ & Htrue & Hfalse).
  assert (Hret : retained L percent = OK (1 + j)).
  { unfold retained. fold thr. fold bs.
    pose proof (flatnonzero_from_first bs 0) as Hhd. rewrite Hj in Hhd.
    unfold np.flatnonzero. simpl in Hhd.
    destruct (np.flatnonzero_from 0 bs) as [|i l]; [discriminate|].
    simpl in Hhd. inversion Hhd. reflexivity. }
  split; [exact Hret|]. split; [lia|]. split; [|split].
  - unfold reaches. unfold bs in Htrue. rewrite nth_threshold in Htrue by lia.
    apply Qle_bool_iff in Htrue. unfold thr in Htrue.
    rewrite Qmult_comm. exact Htrue.
  - intros j' Hj' Hreach. unfold reaches in Hreach.
    destruct j' as [|j']; [lia|].
    assert (Hf := Hfalse j' ltac:(lia)).
    unfold bs in Hf. rewrite nth_threshold in Hf by lia.
    assert (Ht : Qle_bool thr (np.sum (firstn (S j') L)) = true).
    { apply Qle_bool_iff. unfold thr. rewrite Qmult_comm. exact Hreach. }
    congruence.
  - intros Hz.
    assert (H0 : nth 0 bs false = true).
    { unfold bs. rewrite nth_threshold by lia.
      apply Qle_bool_iff. unfold thr. rewrite Hz, Qmult_0_r.
      apply sum_nonneg. apply Forall_firstn. exact Hnn. }
    destruct (first_true_exists _ _ H0) as (j0 & Hj0 & Hj0le).
    rewrite Hj in Hj0. inversion Hj0. lia.
Qed.

(** *** The score calculators *)

Ltac run_cases :=
  repeat match goal with
         | |- context [if ?b then _ else _] => destruct b eqn:?
         | |- context [match ?x with OK _ => _ | Raise _ => _ end] => destruct x eqn:?
         | |- context [let (_, _) := ?x in _] => destruct x eqn:?
         end.

Lemma scaling_frame (percent : float) (N : pyobj) (o : self.t) :
  snd (scaling percent N o) = o \/
  exists k, retained (self.L o) percent = OK k /\
            snd (scaling percent N o) = o{{ self.k := Some k }}.
Proof.
  unfold scaling, check_N, bind, raise, ret, attr, assign, lift.
  run_cases; simpl; try (left; reflexivity); right; eexists; split; eauto.
Qed.

Lemma check_N_accepted (N : pyobj) (o : self.t) :
  truthy N = false \/ positive_integer N ->
  check_N N o = (OK (checked N (self.rank o)), o).
Proof.
  unfold check_N, checked. intros [Hf | (z & [-> | ->] & Hz)].
  - rewrite Hf. reflexivity.
  - simpl. destruct (Z.eqb_spec z 0) as [E|_]; [lia|]. simpl.
    destruct (Z.leb_spec z 0) as [E|_]; [lia|]. reflexivity.
  - simpl. destruct (Z.eqb_spec z 0) as [E|_]; [lia|]. simpl.
    destruct (Z.leb_spec z 0) as [E|_]; [lia|]. reflexivity.
Qed.

Lemma check_N_rejected (N : pyobj) (o : self.t) :
  ~ (truthy N = false \/ positive_integer N) ->
  check_N N o = (Raise (ValueError "N should be a positive integer."), o).
Proof.
  unfold check_N. intros Hn.
  destruct (truthy N) eqn:Et; [|exfalso; apply Hn; left; reflexivity].
  destruct N as [|z|z|q]; simpl; try reflexivity.
  - destruct (Z.leb_spec z 0) as [_|Hz]; [reflexivity|].
    exfalso. apply Hn. right. exists z. split; [left; reflexivity | exact Hz].
  - destruct (Z.leb_spec z 0) as [_|Hz]; [reflexivity|].
    exfalso. apply Hn. right. exists z. split; [right; reflexivity | exact Hz].
Qed.

Lemma percent_in_range (percent : float) :
  negb (Qle_bool 0 percent && Qle_bool percent 1) = false <->
  (0 <= percent)%Q /\ (percent <= 1)%Q.
Proof.
  rewrite negb_false_iff, andb_true_iff, !Qle_bool_iff. reflexivity.
Qed.

Lemma scaling_accepted (percent : float) (N : pyobj) (o : self.t) :
  accepted percent N ->
  self.L o <> [] ->
  Forall (fun x => 0 <= x)%Q (self.L o) ->
  exists k,
    retained (self.L o) percent = OK k /\
    scaling percent N o =
      (OK (np.upto (num2ret N (self.rank o) k)
             (if self.benzecri o then map (fun x => - sqrt x)%Q (self.L o)
              else self.s o),
           num2ret N (self.rank o) k),
       o{{ self.k := Some k }}).
Proof.
  intros (Hp0 & Hp1 & HN) HL Hnn.
  destruct (retained_spec (self.L o) percent HL Hnn Hp0 Hp1) as (k & Hk & _).
  exists k. split; [exact Hk|].
  unfold scaling. unfold bind at 1.
  rewrite (proj2 (percent_in_range percent) (conj Hp0 Hp1)).
  unfold ret at 1. unfold bind at 1. rewrite (check_N_accepted N o HN).
  unfold bind, attr, lift, assign, ret. rewrite Hk. reflexivity.
Qed.

Lemma scaling_rejected (percent : float) (N : pyobj) (o : self.t) :
  ~ accepted percent N ->
  exists e, invalid_argument e /\ scaling percent N o = (Raise e, o).
Proof.
  intros Hn. unfold scaling. unfold bind at 1.
  destruct (negb (Qle_bool 0 percent && Qle_bool percent 1)) eqn:Ep.
  - eexists. split; [left; reflexivity | reflexivity].
  - apply percent_in_range in Ep. destruct Ep as [Hp0 Hp1].
    unfold ret at 1. unfold bind at 1.
    rewrite check_N_rejected
      by (intros HN; apply Hn; repeat split; assumption).
    eexists. split; [right; reflexivity | reflexivity].
Qed.

Lemma stable_refl (o : self.t) : stable o o.
Proof. repeat split. Qed.

Lemma stable_trans (o1 o2 o3 : self.t) : stable o1 o2 -> stable o2 o3 -> stable o1 o3.
Proof.
  unfold stable. intros H1 H2.
  repeat match goal with H : _ /\ _ |- _ => destruct H end.
  repeat split; congruence.
Qed.

Lemma scaling_stable (percent : float) (N : pyobj) (o : self.t) :
  stable o (snd (scaling percent N o)).
Proof.
  destruct (scaling_frame percent N o) as [-> | (k & _ & ->)].
  - apply stable_refl.
  - repeat split.
Qed.

Lemma rows_stable (percent : float) (N : pyobj) (o : self.t) :
  stable o (snd (_calc_row_factor_scores percent N o)).
Proof.
  pose proof (scaling_stable percent N o) as Hs.
  unfold _calc_row_factor_scores. unfold bind at 1.
  destruct (scaling percent N o) as [[[sv n]|e] o1]; simpl in Hs; [|exact Hs].
  apply (stable_trans _ o1); [exact Hs|].
  unfold bind, attr, lift, assign, ret.
  run_cases; simpl; repeat split.
Qed.

Lemma cols_stable (percent : float) (N : pyobj) (o : self.t) :
  stable o (snd (_calc_col_factor_scores percent N o)).
Proof.
  pose proof (scaling_stable percent N o) as Hs.
  unfold _calc_col_factor_scores. unfold bind at 1.
  destruct (scaling percent N o) as [[[sv n]|e] o1]; simpl in Hs; [|exact Hs].
  apply (stable_trans _ o1); [exact Hs|].
  unfold bind, attr, lift, assign, ret.
  run_cases; simpl; repeat split.
Qed.

Lemma stable_corrected (o o' : self.t) : stable o o' -> corrected o -> corrected o'.
Proof.
  unfold stable, corrected, eigenvalues.
  intros (Hb & Ht & HE & Hs & Hr & HL & _) H.
  rewrite Hb, Ht, HE, Hs, Hr, HL. exact H.
Qed.

Lemma fitted_corrected (o : self.t) : fitted o -> corrected o.
Proof.
  induction 1 as [X o o' H | percent N o _ IH | percent N o _ IH].
  - destruct (fit_facts X o o' H) as (H1 & H2 & H3 & H4 & H5 & _).
    repeat split; assumption.
  - exact (stable_corrected _ _ (rows_stable percent N o) IH).
  - exact (stable_corrected _ _ (cols_stable percent N o) IH).
Qed.

Lemma corrected_L (o : self.t) :
  corrected o ->
  self.L o <> [] /\ Forall (fun x => 0 <= x)%Q (self.L o) /\
  List.length (self.L o) = self.rank o /\
  1 <= self.rank o <= List.length (self.s o).
Proof.
  intros (HEne & Hlen & Hnn & Hr & HL).
  pose proof (settled_rank_bounds (self.tol o) _ HEne) as Hb.
  rewrite <- Hr in Hb.
  assert (HlenL : List.length (self.L o) = self.rank o).
  { rewrite HL. apply firstn_length_le. lia. }
  repeat split; try lia.
  - intros HLe. rewrite HLe in HlenL. simpl in HlenL. lia.
  - rewrite HL. apply Forall_firstn. exact Hnn.
Qed.

Lemma rows_keep_k (percent : float) (N : pyobj) (o o1 : self.t) x :
  scaling percent N o = (OK x, o1) ->
  self.k (snd (_calc_row_factor_scores percent N o)) = self.k o1.
Proof.
  intros Hs. unfold _calc_row_factor_scores. unfold bind at 1. rewrite Hs.
  destruct x as [sv n]. unfold bind, attr, lift, assign, ret.
  run_cases; reflexivity.
Qed.

Lemma cols_keep_k (percent : float) (N : pyobj) (o o1 : self.t) x :
  scaling percent N o = (OK x, o1) ->
  self.k (snd (_calc_col_factor_scores percent N o)) = self.k o1.
Proof.
  intros Hs. unfold _calc_col_factor_scores. unfold bind at 1. rewrite Hs.
  destruct x as [sv n]. unfold bind, attr, lift, assign, ret.
  run_cases; reflexivity.
Qed.

(** C4.  On a fitted instance, for a [percent] between 0 and 1 (and an
    [N] the calculators accept), the count [k] that the row and the
    column score calculators store is the smallest [k >= 1] such that
    the sum of the first [k] entries of [L] is at least [percent] times
    the sum of [L]; for [percent = 0] it is 1. *)
Theorem retained_count_is_smallest (percent : float) (N : pyobj) (o : self.t) :
  fitted o ->
  accepted percent N ->
  exists k,
    self.k (snd (_calc_row_factor_scores percent N o)) = Some k /\
    self.k (snd (_calc_col_factor_scores percent N o)) = Some k /\
    1 <= k <= List.length (self.L o) /\
    reaches (self.L o) percent k /\
    (forall j, 1 <= j < k -> ~ reaches (self.L o) percent j) /\
    ((percent == 0)%Q -> k = 1).
Proof.
  intros Hfit Hacc.
  destruct (corrected_L o (fitted_corrected o Hfit)) as (HL & Hnn & _).
  destruct (scaling_accepted percent N o Hacc HL Hnn) as (k & Hk & Hs).
  destruct Hacc as (Hp0 & Hp1 & _).
  destruct (retained_spec (self.L o) percent HL Hnn Hp0 Hp1)
    as (k' & Hk' & Hb & Hreach & Hmin & Hzero).
  assert (k' = k) by congruence. subst k'.
  exists k. repeat split; try assumption; try lia.
  - rewrite (rows_keep_k _ _ _ _ _ Hs). reflexivity.
  - rewrite (cols_keep_k _ _ _ _ _ Hs). reflexivity.
Qed.

(** *** Which errors the calculators raise *)

Lemma diagsvd_Raise (s : list float) (m n : Z) (e : exception) :
  diagsvd s m n = Raise e -> ~ invalid_argument e.
Proof.
  unfold diagsvd. intros H [Hi | Hi]; subst e;
    repeat match type of H with
           | context [if ?b then _ else _] => destruct b
           end; discriminate.
Qed.

Lemma dot_Raise (A B : ndarray) (e : exception) :
  np.dot A B = Raise e -> ~ invalid_argument e.
Proof.
  unfold np.dot. intros H [Hi | Hi]; subst e;
    destruct (_ =? _); discriminate.
Qed.

Lemma rows_after_scaling (percent : float) (N : pyobj) (o o1 : self.t) x e :
  scaling percent N o = (OK x, o1) ->
  fst (_calc_row_factor_scores percent N o) = Raise e -> ~ invalid_argument e.
Proof.
  intros Hs. unfold _calc_row_factor_scores. unfold bind at 1. rewrite Hs.
  destruct x as [sv n]. unfold bind, attr, lift, assign, ret.
  destruct (diagsvd _ _ _) as [S|e1] eqn:Ed.
  - destruct (np.dot (self.D_r o1) (self.P o1)) as [DP|e2] eqn:E1.
    + destruct (np.dot DP S) as [F|e3] eqn:E2; simpl; intros H.
      * discriminate.
      * inversion H; subst. exact (dot_Raise _ _ _ E2).
    + simpl. intros H. inversion H; subst. exact (dot_Raise _ _ _ E1).
  - simpl. intros H. inversion H; subst. exact (diagsvd_Raise _ _ _ _ Ed).
Qed.

Lemma cols_after_scaling (percent : float) (N : pyobj) (o o1 : self.t) x e :
  scaling percent N o = (OK x, o1) ->
  fst (_calc_col_factor_scores percent N o) = Raise e -> ~ invalid_argument e.
Proof.
  intros Hs. unfold _calc_col_factor_scores. unfold bind at 1. rewrite Hs.
  destruct x as [sv n]. unfold bind, attr, lift, assign, ret.
  destruct (diagsvd _ _ _) as [S|e1] eqn:Ed.
  - unfold _multiply_matrices. simpl.
    destruct (np.dot (self.D_c o1) (np.T (self.Q o1))) as [DQ|e2] eqn:E1; simpl.
    + destruct (np.dot DQ S) as [G|e3] eqn:E2; simpl; intros H.
      * discriminate.
      * inversion H; subst. exact (dot_Raise _ _ _ E2).
    + intros H. inversion H; subst. exact (dot_Raise _ _ _ E1).
  - simpl. intros H. inversion H; subst. exact (diagsvd_Raise _ _ _ _ Ed).
Qed.

(** On a fitted instance a calculator raises one of its two errors
    exactly when its arguments are not [accepted]. *)
Lemma invalid_argument_iff (percent : float) (N : pyobj) (o : self.t) :
  fitted o ->
  ((exists e, invalid_argument e /\
              fst (_calc_row_factor_scores percent N o) = Raise e) <->
   ~ accepted percent N) /\
  ((exists e, invalid_argument e /\
              fst (_calc_col_factor_scores percent N o) = Raise e) <->
   ~ accepted percent N).
Proof.
  intros Hfit.
  destruct (corrected_L o (fitted_corrected o Hfit)) as (HL & Hnn & _).
  split; split.
  - intros (e & Hi & Hr) Hacc.
    destruct (scaling_accepted percent N o Hacc HL Hnn) as (k & _ & Hs).
    exact (rows_after_scaling _ _ _ _ _ _ Hs Hr Hi).
  - intros Hn. destruct (scaling_rejected percent N o Hn) as (e & Hi & Hs).
    exists e. split; [exact Hi|].
    unfold _calc_row_factor_scores. unfold bind at 1. rewrite Hs. reflexivity.
  - intros (e & Hi & Hr) Hacc.
    destruct (scaling_accepted percent N o Hacc HL Hnn) as (k & _ & Hs).
    exact (cols_after_scaling _ _ _ _ _ _ Hs Hr Hi).
  - intros Hn. destruct (scaling_rejected percent N o Hn) as (e & Hi & Hs).
    exists e. split; [exact Hi|].
    unfold _calc_col_factor_scores. unfold bind at 1. rewrite Hs. reflexivity.
Qed.

(** C5.  The calculators do not reject [N = 0]: on a fitted instance and
    for a [percent] between 0 and 1, neither of them raises an
    invalid-argument error when [N] is [0], and each behaves as it does
    for [N = None].  [if N:] skips the check [N <= 0] for the one
    integer that is not truthy. *)
Theorem zero_factors_not_rejected (percent : float) (o : self.t) :
  fitted o ->
  (0 <= percent)%Q -> (percent <= 1)%Q ->
  (forall e, fst (_calc_row_factor_scores percent (PyInt 0) o) = Raise e ->
             ~ invalid_argument e) /\
  (forall e, fst (_calc_col_factor_scores percent (PyInt 0) o) = Raise e ->
             ~ invalid_argument e) /\
  _calc_row_factor_scores percent (PyInt 0) o =
    _calc_row_factor_scores percent PyNone o /\
  _calc_col_factor_scores percent (PyInt 0) o =
    _calc_col_factor_scores percent PyNone o.
Proof.
  intros Hfit Hp0 Hp1.
  assert (Hacc : accepted percent (PyInt 0)).
  { repeat split; try assumption. left. reflexivity. }
  destruct (invalid_argument_iff percent (PyInt 0) o Hfit) as [Hrow Hcol].
  repeat split.
  - intros e Hr Hi. apply (proj1 Hrow); [|exact Hacc]. exists e. split; assumption.
  - intros e Hr Hi. apply (proj1 Hcol); [|exact Hacc]. exists e. split; assumption.
Qed.

(** *** Order of the singular values *)

Lemma rev_ascending (s : list float) : ascending s -> descending (rev s).
Proof.
  unfold ascending, descending. intros H i j Hij Hj.
  rewrite length_rev in Hj.
  rewrite !rev_nth by lia. apply H; lia.
Qed.

Lemma descending_firstn (n : nat) (s : list float) :
  descending s -> descending (firstn n s).
Proof.
  unfold descending. intros H i j Hij Hj.
  rewrite length_firstn in Hj. rewrite !nth_firstn.
  destruct (Nat.ltb_spec j n) as [Hjn|Hjn]; [|lia].
  destruct (Nat.ltb_spec i n) as [Hin|Hin]; [|lia].
  apply H; lia.
Qed.

Lemma rev_descending (s : list float) : descending s -> ascending (rev s).
Proof.
  unfold ascending, descending. intros H i j Hij Hj.
  rewrite length_rev in Hj.
  rewrite !rev_nth by lia. apply H; lia.
Qed.

Lemma fit_triplets (X : DataFrame) (o o' : self.t) :
  _fit X o = (OK tt, o') ->
  exists product P s Q,
    (if self.sparse o
     then svds product
            (match self.n_cols o with
             | PyNone => PyInt (Z.of_nat (min_shape product) - 1)
             | _ => self.n_cols o
             end)
     else svd product) = Some (P, s, Q) /\
    if self.sparse o then
      self.s o' = rev s /\ self.P o' = np.T (np.flipud (np.T P)) /\
      self.Q o' = np.flipud Q /\
      self._numitems o' = (Z.of_nat (min_shape product) - 1)%Z
    else
      self.s o' = s /\ self.P o' = P /\ self.Q o' = Q.
Proof.
  intros H. apply fit_decomposition in H.
  destruct H as (X' & K & J & product & P & s & Q & _ & _ & Hsolve & H).
  apply correction_spec in H. destruct H as (E & _ & _ & ->).
  exists product, P, s, Q. split; [exact Hsolve|].
  pose proof (decomposed_triplets o X' K J product P s Q) as Ht. simpl in Ht.
  destruct (self.sparse o).
  - destruct Ht as (H1 & H2 & H3 & H4). repeat split; assumption.
  - destruct Ht as (H1 & H2 & H3 & _). repeat split; assumption.
Qed.

(** C8.  Take solvers that answer as numpy and scipy do, the dense one
    with the singular values largest first and the truncated one with
    them smallest first.  Then after every successful fit the stored
    [s] is in descending order.  On the truncated path the stored
    triplets are the solver's in reverse: entry [i] of [s], column [i]
    of [P] and row [i] of [Q] are entry, column and row [count - 1 - i]
    of what the solver answered. *)
Theorem singular_values_descending (X : DataFrame) (o o' : self.t) :
  (forall A P s Q, svd A = Some (P, s, Q) -> descending s) ->
  (forall A k P s Q, svds A k = Some (P, s, Q) -> ascending s) ->
  _fit X o = (OK tt, o') ->
  descending (self.s o') /\
  (self.sparse o = true ->
   exists product k P s Q,
     svds product k = Some (P, s, Q) /\
     shape (self.P o') = shape P /\ shape (self.Q o') = shape Q /\
     List.length (self.s o') = List.length s /\
     (forall i, i < List.length s ->
        nth i (self.s o') 0%Q = nth (List.length s - 1 - i) s 0%Q) /\
     (forall i r, item (self.P o') r i = item P r (snd (shape P) - 1 - i)) /\
     (forall i c, item (self.Q o') i c = item Q (fst (shape Q) - 1 - i) c)).
Proof.
  intros Hdense Hsparse H.
  destruct (fit_triplets X o o' H) as (product & P & s & Q & Hsolve & Hst).
  destruct (self.sparse o) eqn:Esp.
  - destruct Hst as (Hs & HP & HQ & _). split.
    + rewrite Hs. apply rev_ascending. exact (Hsparse _ _ _ _ _ Hsolve).
    + intros _. eexists product, _, P, s, Q. split; [exact Hsolve|].
      rewrite Hs, HP, HQ. repeat split.
      * simpl. destruct (shape P); reflexivity.
      * apply length_rev.
      * intros i Hi. rewrite rev_nth by exact Hi. f_equal. lia.
  - destruct Hst as (Hs & _). split; [|discriminate].
    rewrite Hs. exact (Hdense _ _ _ _ Hsolve).
Qed.

(** *** Invalid configurations *)

Lemma quiet_bind {A B} (m : M A) (f : A -> M B) :
  quiet m -> (forall a, quiet (f a)) -> quiet (bind m f).
Proof.
  intros Hm Hf o e o' H. apply bind_Raise in H.
  destruct H as [H | (a & o1 & _ & H)]; [exact (Hm _ _ _ H) | exact (Hf _ _ _ _ H)].
Qed.

Lemma quiet_attr {A} (f : self.t -> A) : quiet (attr f).
Proof. intros o e o' H. discriminate. Qed.

Lemma quiet_assign u : quiet (assign u).
Proof. intros o e o' H. discriminate. Qed.

Lemma quiet_ret {A} (a : A) : quiet (ret a).
Proof. intros o e o' H. discriminate. Qed.

Lemma quiet_lift {A} (x : result A) : rquiet x -> quiet (lift x).
Proof. intros Hx o e o' H. inversion H; subst. apply Hx. reflexivity. Qed.

Lemma rquiet_call {A} (name : string) (x : option A) : rquiet (call name x).
Proof.
  intros e H [Hi | Hi]; subst e; destruct x; discriminate.
Qed.

Lemma rquiet_dot (A B : ndarray) : rquiet (np.dot A B).
Proof.
  unfold np.dot. intros e H [Hi | Hi]; subst e; destruct (_ =? _); discriminate.
Qed.

Lemma rquiet_argmax (b : list bool) : rquiet (np.argmax b).
Proof.
  intros e H [Hi | Hi]; subst e; destruct b; discriminate.
Qed.

Lemma rquiet_benzecri_entry (K : Z) (x : float) : rquiet (benzecri_entry K x).
Proof.
  unfold benzecri_entry. intros e H [Hi | Hi]; subst e;
    repeat match type of H with
           | context [if ?b then _ else _] => destruct b
           end; discriminate.
Qed.

Lemma rquiet_rmap {A B} (f : A -> result B) (l : list A) :
  (forall a, rquiet (f a)) -> rquiet (rmap f l).
Proof.
  intros Hf. induction l as [|a l IH]; intros e H; simpl in H.
  - discriminate.
  - destruct (f a) as [b|e1] eqn:Ea; simpl in H.
    + destruct (rmap f l) as [bs|e2]; simpl in H; [discriminate|].
      inversion H; subst. apply IH. reflexivity.
    + inversion H; subst. exact (Hf a e Ea).
Qed.

Lemma quiet_correction_entries : quiet _apply_benzecri_correction.
Proof.
  unfold _apply_benzecri_correction.
  apply quiet_bind; [apply quiet_attr|]. intros [E|]; [apply quiet_ret|].
  apply quiet_bind; [apply quiet_attr|]. intros K.
  apply quiet_bind; [apply quiet_attr|]. intros s.
  apply quiet_bind.
  - apply quiet_lift. apply rquiet_rmap. intros x. apply rquiet_benzecri_entry.
  - intros E. apply quiet_bind; [apply quiet_assign | intros _; apply quiet_ret].
Qed.

Ltac quiet_steps :=
  repeat first
    [ apply quiet_attr | apply quiet_assign | apply quiet_ret
    | apply quiet_correction_entries
    | apply quiet_lift; first [ apply rquiet_call | apply rquiet_dot | apply rquiet_argmax ]
    | apply quiet_bind; [| intros ? ]
    | match goal with
      | |- quiet (if ?b then _ else _) => destruct b
      | |- quiet (match ?x with (_, _) => _ end) => destruct x
      end ].

Lemma fit_after_process_df (X : DataFrame) (o : self.t) :
  match process_df X (self.cols o) (self.n_cols o) with
  | Raise e => _fit X o = (Raise e, o)
  | OK _ => forall e o', _fit X o = (Raise e, o') -> ~ invalid_configuration e
  end.
Proof.
  destruct (process_df X (self.cols o) (self.n_cols o)) as [[[X' K] J]|e] eqn:Hdf.
  - intros e o' H. unfold _fit in H.
    apply bind_Raise in H. destruct H as [H | (a & o1 & H1 & H)]; [discriminate H|].
    apply attr_run in H1. destruct H1 as [H1 ->]. inversion H1; subst a; clear H1.
    apply bind_Raise in H. destruct H as [H | (a & o1 & H1 & H)]; [discriminate H|].
    apply attr_run in H1. destruct H1 as [H1 ->]. inversion H1; subst a; clear H1.
    apply bind_Raise in H. destruct H as [H | (a & o1 & H1 & H)].
    + apply lift_run in H. destruct H as [H _]. congruence.
    + apply lift_run in H1. destruct H1 as [H1 ->].
      rewrite Hdf in H1. inversion H1; subst a; clear H1.
      revert H.
      match goal with |- ?m _ = _ -> _ => assert (Hq : quiet m) end.
      { quiet_steps. }
      apply Hq.
  - unfold _fit. cbv beta iota delta [bind attr lift]. rewrite Hdf. reflexivity.
Qed.

Lemma rquiet_dummy (DF : DataFrame) (cols : option (list string)) :
  rquiet (dummy DF cols).
Proof.
  unfold dummy. intros e H.
  destruct (rmap _ _) as [ds|e1] eqn:Er; simpl in H.
  - exact (rquiet_call _ _ e H).
  - inversion H; subst.
    exact (rquiet_rmap _ _ (fun col => rquiet_call _ _) e Er).
Qed.

Lemma ncols_is_none (ncols : pyobj) : ncols = PyNone \/ ncols <> PyNone.
Proof. destruct ncols; [left; reflexivity | right; discriminate ..]. Qed.

Lemma valid_count_test (ncols : pyobj) (DF : DataFrame) :
  ncols <> PyNone ->
  negb (isinstance_int ncols) || (int_of ncols <=? 0)%Z
    || (int_of ncols >? Z.of_nat (List.length (columns DF)))%Z = false <->
  valid_count ncols DF.
Proof.
  intros Hn. unfold valid_count.
  rewrite !orb_false_iff, negb_false_iff, Z.leb_gt, Z.gtb_ltb, Z.ltb_ge.
  split.
  - intros [[Hi Hp] Hle]. destruct ncols as [|z|z|q]; try discriminate.
    exists z. simpl in *. split; [reflexivity | lia].
  - intros (z & -> & Hz). simpl. repeat split; lia.
Qed.

Lemma process_df_unspecified (DF : DataFrame) (cols : option (list string))
    (ncols : pyobj) :
  unspecified cols ->
  (claimed_invalid cols ncols DF ->
   exists e, invalid_configuration e /\ process_df DF cols ncols = Raise e) /\
  (~ claimed_invalid cols ncols DF ->
   exists K, process_df DF cols ncols = OK (DF, K, List.length (columns DF))).
Proof.
  intros Hu.
  assert (Hbranch : process_df DF cols ncols =
    rbind
      (match ncols with
       | PyNone =>
           if List.length (columns DF) =? 0
           then Raise (ValueError "Your DataFrame has no columns.")
           else OK (DF, Z.of_nat (List.length (columns DF)))
       | _ =>
           if negb (isinstance_int ncols) || (int_of ncols <=? 0)%Z
              || (int_of ncols >? Z.of_nat (List.length (columns DF)))%Z
           then Raise (ValueError "You must pass a valid number of columns.")
           else OK (DF, int_of ncols)
       end)
      (fun '(X, K) => OK (X, K, snd (pd.shape_of X)))).
  { destruct Hu as [-> | ->]; reflexivity. }
  rewrite Hbranch. clear Hbranch.
  destruct (ncols_is_none ncols) as [-> | Hn].
  - destruct (Nat.eqb_spec (List.length (columns DF)) 0) as [E0 | E0]; split.
    + intros _. eexists. split; [left; reflexivity | reflexivity].
    + intros Hnc. exfalso. apply Hnc. left. split; [exact Hu|].
      destruct (columns DF); [reflexivity | discriminate].
    + intros [[_ Hc] | [Hc _]]; [rewrite Hc in E0; contradiction | contradiction].
    + intros _. eexists. reflexivity.
  - assert (Htest := valid_count_test ncols DF Hn).
    destruct (negb (isinstance_int ncols) || (int_of ncols <=? 0)%Z
              || (int_of ncols >? Z.of_nat (List.length (columns DF)))%Z) eqn:Et.
    + assert (Hnv : ~ valid_count ncols DF).
      { intros Hv. apply Htest in Hv. discriminate. }
      assert (Hr : rbind
                (match ncols with
                 | PyNone =>
                     if List.length (columns DF) =? 0
                     then Raise (ValueError "Your DataFrame has no columns.")
                     else OK (DF, Z.of_nat (List.length (columns DF)))
                 | _ => Raise (ValueError "You must pass a valid number of columns.")
                 end)
                (fun '(X, K) => OK (X, K, snd (pd.shape_of X))) =
              Raise (ValueError "You must pass a valid number of columns."))
        by (destruct ncols; [contradiction | reflexivity ..]).
      rewrite Hr. split.
      * intros _. eexists. split; [right; reflexivity | reflexivity].
      * intros Hnc. exfalso. apply Hnc. right. split; assumption.
    + assert (Hv : valid_count ncols DF) by (apply Htest; reflexivity).
      assert (Hr : rbind
                (match ncols with
                 | PyNone =>
                     if List.length (columns DF) =? 0
                     then Raise (ValueError "Your DataFrame has no columns.")
                     else OK (DF, Z.of_nat (List.length (columns DF)))
                 | _ => OK (DF, int_of ncols)
                 end)
                (fun '(X, K) => OK (X, K, snd (pd.shape_of X))) =
              OK (DF, int_of ncols, List.length (columns DF)))
        by (destruct ncols; [contradiction | reflexivity ..]).
      rewrite Hr. split.
      * intros [[_ Hc] | [_ Hnv]]; [|contradiction].
        destruct Hv as (z0 & _ & Hz). rewrite Hc in Hz. simpl in Hz. lia.
      * intros _. eexists. reflexivity.
Qed.

Lemma unspecified_dec (cols : option (list string)) :
  unspecified cols \/ exists c cs, cols = Some (c :: cs).
Proof.
  destruct cols as [[|c cs]|].
  - left. right. reflexivity.
  - right. exists c, cs. reflexivity.
  - left. left. reflexivity.
Qed.

Lemma claimed_invalid_dec (cols : option (list string)) (ncols : pyobj)
    (DF : DataFrame) :
  claimed_invalid cols ncols DF \/ ~ claimed_invalid cols ncols DF.
Proof.
  unfold claimed_invalid.
  assert (Hsecond : (ncols <> PyNone /\ ~ valid_count ncols DF) \/
                    ~ (ncols <> PyNone /\ ~ valid_count ncols DF)).
  { destruct (ncols_is_none ncols) as [-> | Hn].
    - right. intros [Hn _]. contradiction.
    - pose proof (valid_count_test ncols DF Hn) as Ht.
      destruct (negb (isinstance_int ncols) || (int_of ncols <=? 0)%Z
                || (int_of ncols >? Z.of_nat (List.length (columns DF)))%Z).
      + left. split; [exact Hn|]. intros Hv. apply Ht in Hv. discriminate.
      + right. intros [_ Hnv]. apply Hnv. apply Ht. reflexivity. }
  destruct Hsecond as [Hs | Hs]; [left; right; exact Hs|].
  destruct (unspecified_dec cols) as [Hu | (c & cs & ->)].
  - destruct (columns DF) as [|l ls] eqn:Ec.
    + left. left. split; [exact Hu | reflexivity].
    + right. intros [[_ Hc] | H]; [discriminate | contradiction].
  - right. intros [[[Hu | Hu] _] | H]; [discriminate | discriminate | contradiction].
Qed.

Lemma process_df_specified (DF : DataFrame) (c : string) (cs : list string)
    (ncols : pyobj) :
  rquiet (process_df DF (Some (c :: cs)) ncols).
Proof.
  unfold process_df. intros e H.
  destruct (dummy DF (Some (c :: cs))) as [X|e1] eqn:Ed; simpl in H.
  - discriminate.
  - inversion H; subst. exact (rquiet_dummy _ _ e Ed).
Qed.

(** C9, as the code has it.  [fit] raises an invalid-configuration error
    exactly when no columns are specified and, in addition, the
    condition of the specification holds: the table has zero columns,
    or a coded-column count is supplied that is not a positive [int] or
    exceeds the table's column count.  When columns are specified the
    count is not looked at.  The error leaves the object as it was:
    nothing has been assigned and no solver has been called. *)
Theorem invalid_configuration_iff (X : DataFrame) (o : self.t) :
  ((exists e, invalid_configuration e /\ fst (fit X o) = Raise e) <->
   unspecified (self.cols o) /\ claimed_invalid (self.cols o) (self.n_cols o) X) /\
  (forall e, invalid_configuration e -> fst (fit X o) = Raise e ->
             snd (fit X o) = o).
Proof.
  unfold fit. pose proof (fit_after_process_df X o) as Hfit.
  assert (Hmain : forall e, invalid_configuration e -> fst (_fit X o) = Raise e ->
            process_df X (self.cols o) (self.n_cols o) = Raise e /\
            _fit X o = (Raise e, o)).
  { intros e Hi Hr.
    destruct (process_df X (self.cols o) (self.n_cols o)) as [a|e1].
    - exfalso. destruct (_fit X o) as [r o'] eqn:Ef. simpl in Hr. subst r.
      exact (Hfit e o' eq_refl Hi).
    - rewrite Hfit in Hr. simpl in Hr. inversion Hr; subst. split; [reflexivity | exact Hfit]. }
  split; [split|].
  - intros (e & Hi & Hr). destruct (Hmain e Hi Hr) as [Hdf _].
    destruct (unspecified_dec (self.cols o)) as [Hu | (c & cs & Hc)].
    + split; [exact Hu|].
      destruct (claimed_invalid_dec (self.cols o) (self.n_cols o) X) as [Hc | Hnc];
        [exact Hc|].
      destruct (proj2 (process_df_unspecified X _ (self.n_cols o) Hu) Hnc) as (K & HK).
      congruence.
    + exfalso. rewrite Hc in Hdf.
      exact (process_df_specified _ _ _ _ e Hdf Hi).
  - intros (Hu & Hc).
    destruct (proj1 (process_df_unspecified X _ (self.n_cols o) Hu) Hc) as (e & Hi & Hdf).
    exists e. split; [exact Hi|]. rewrite Hdf in Hfit. rewrite Hfit. reflexivity.
  - intros e Hi Hr. destruct (Hmain e Hi Hr) as [_ Hf]. rewrite Hf. reflexivity.
Qed.

(** *** Requests for more factors than the rank *)

Lemma diagsvd_OK (s : list float) (m n : Z) :
  Z.of_nat (List.length s) = n -> (n <= m)%Z ->
  exists S, diagsvd s m n = OK S /\ shape S = (Z.to_nat m, Z.to_nat n).
Proof.
  intros Hlen Hle. unfold diagsvd. eexists.
  destruct (Z.eqb_spec (Z.of_nat (List.length s)) m) as [E1|E1].
  - destruct (Z.ltb_spec (n - m) 0) as [E2|E2]; [lia|]. split; reflexivity.
  - destruct (Z.eqb_spec (Z.of_nat (List.length s)) n) as [E3|E3]; [|lia].
    destruct (Z.ltb_spec (m - n) 0) as [E2|E2]; [lia|]. split; reflexivity.
Qed.

Lemma dot_OK (A B : ndarray) :
  snd (shape A) = fst (shape B) ->
  exists C, np.dot A B = OK C /\ shape C = (fst (shape A), snd (shape B)).
Proof.
  intros H. unfold np.dot. rewrite H, Nat.eqb_refl. eexists. split; reflexivity.
Qed.

Lemma num2ret_clamped (N : pyobj) (rank k : nat) :
  positive_integer N -> (Z.of_nat rank < int_of N)%Z -> 1 <= rank ->
  num2ret N rank k = Z.of_nat rank.
Proof.
  intros (z & [-> | ->] & Hz) Hgt Hr; unfold num2ret, checked; simpl in *;
    destruct (Z.eqb_spec z 0) as [E|_]; try lia; simpl;
    rewrite Z.min_r by lia;
    destruct (Z.eqb_spec (Z.of_nat rank) 0) as [E|_]; try lia; reflexivity.
Qed.

Lemma scaling_vector_length (o : self.t) :
  corrected o ->
  self.rank o <=
  List.length (if self.benzecri o then map (fun x => - sqrt x)%Q (self.L o)
               else self.s o).
Proof.
  intros Hc. destruct (corrected_L o Hc) as (_ & _ & Hlen & Hr).
  destruct (self.benzecri o); [rewrite length_map|]; lia.
Qed.

(** On a well dimensioned instance a request for more factors than the
    rank is clamped: both calculators return, with [rank] columns. *)
Lemma clamped_when_dimensioned (percent : float) (N : pyobj) (o : self.t) :
  corrected o -> well_dimensioned o ->
  (0 <= percent)%Q -> (percent <= 1)%Q ->
  positive_integer N -> (Z.of_nat (self.rank o) < int_of N)%Z ->
  (exists F, fst (_calc_row_factor_scores percent N o) = OK F /\
             snd (shape F) = self.rank o) /\
  (exists G, fst (_calc_col_factor_scores percent N o) = OK G /\
             snd (shape G) = self.rank o).
Proof.
  intros Hc (Hd1 & Hd2 & Hd3 & Hd4 & Hd5) Hp0 Hp1 HN Hgt.
  destruct (corrected_L o Hc) as (HL & Hnn & HlenL & Hr).
  assert (Hacc : accepted percent N) by (repeat split; try assumption; right; exact HN).
  destruct (scaling_accepted percent N o Hacc HL Hnn) as (k & _ & Hs).
  rewrite (num2ret_clamped N _ k HN Hgt (proj1 Hr)) in Hs.
  pose proof (scaling_vector_length o Hc) as Hsv.
  set (sv := if self.benzecri o then map (fun x => - sqrt x)%Q (self.L o)
             else self.s o) in *.
  assert (Hup : Z.of_nat (List.length (np.upto (Z.of_nat (self.rank o)) sv)) =
                Z.of_nat (self.rank o)).
  { unfold np.upto. destruct (Z.ltb_spec (Z.of_nat (self.rank o)) 0); [lia|].
    rewrite Nat2Z.id, firstn_length_le by exact Hsv. reflexivity. }
  split.
  - destruct (diagsvd_OK _ (self._numitems o) _ Hup ltac:(lia)) as (S & HS & HshS).
    destruct (dot_OK (self.D_r o) (self.P o) Hd1) as (DP & HDP & HshDP).
    assert (Hin : snd (shape DP) = fst (shape S)).
    { rewrite HshDP, HshS, Hd2. simpl. rewrite Nat2Z.id. reflexivity. }
    destruct (dot_OK DP S Hin) as (F & HF & HshF).
    exists F. split.
    + unfold _calc_row_factor_scores. unfold bind at 1. rewrite Hs.
      unfold bind, attr, lift, assign, ret. 
      change (self._numitems _) with (self._numitems o).
      rewrite HS.
      change (self.D_r _) with (self.D_r o). change (self.P _) with (self.P o).
      rewrite HDP, HF. reflexivity.
    + rewrite HshF, HshS. simpl. apply Nat2Z.id.
  - destruct (diagsvd_OK _ (Z.of_nat (len2 (self.Q o))) _ Hup
                ltac:(unfold len2; lia)) as (S & HS & HshS).
    assert (Hin1 : snd (shape (self.D_c o)) = fst (shape (np.T (self.Q o))))
      by exact Hd4.
    destruct (dot_OK (self.D_c o) (np.T (self.Q o)) Hin1) as (DQ & HDQ & HshDQ).
    assert (Hin : snd (shape DQ) = fst (shape S)).
    { rewrite HshDQ, HshS. simpl. rewrite Nat2Z.id. reflexivity. }
    destruct (dot_OK DQ S Hin) as (G & HG & HshG).
    exists G. split.
    + unfold _calc_col_factor_scores. unfold bind at 1. rewrite Hs.
      unfold bind, attr, lift, assign, ret.
      change (self.Q _) with (self.Q o).
      rewrite HS. cbv beta iota delta [_multiply_matrices fold_left rbind].
      change (self.D_c _) with (self.D_c o).
      rewrite HDQ, HG. reflexivity.
    + rewrite HshG, HshS. simpl. apply Nat2Z.id.
Qed.




(** *** Masses *)

Lemma fold_left_Qplus_acc (l : list float) (a : float) :
  (fold_left Qplus l a == a + fold_left Qplus l 0)%Q.
Proof.
  revert a. induction l as [|x l IH]; intros a; simpl.
  - ring.
  - rewrite (IH (a + x)%Q), (IH (0 + x)%Q). ring.
Qed.

Lemma sum_cons (x : float) (l : list float) :
  (np.sum (x :: l) == x + np.sum l)%Q.
Proof.
  unfold np.sum. simpl. rewrite fold_left_Qplus_acc. ring.
Qed.

Lemma sum_map_ext {A} (f g : A -> float) (l : list A) :
  (forall x, In x l -> (f x == g x)%Q) ->
  (np.sum (map f l) == np.sum (map g l))%Q.
Proof.
  induction l as [|a l IH]; intros H; simpl.
  - reflexivity.
  - rewrite !sum_cons, (H a (or_introl eq_refl)), IH; [reflexivity|].
    intros x Hx. apply H. right. exact Hx.
Qed.

Lemma sum_map_add {A} (f g : A -> float) (l : list A) :
  (np.sum (map (fun x => f x + g x) l) == np.sum (map f l) + np.sum (map g l))%Q.
Proof.
  induction l as [|a l IH]; simpl.
  - unfold np.sum. simpl. ring.
  - rewrite !sum_cons, IH. ring.
Qed.

Lemma sum_map_div {A} (f : A -> float) (S : float) (l : list A) :
  (np.sum (map (fun x => f x / S) l) == np.sum (map f l) / S)%Q.
Proof.
  induction l as [|a l IH]; simpl.
  - unfold np.sum. simpl. unfold Qdiv. ring.
  - rewrite !sum_cons, IH. unfold Qdiv. ring.
Qed.

Lemma sum_map_zero {A} (l : list A) : (np.sum (map (fun _ => 0) l) == 0)%Q.
Proof.
  induction l as [|a l IH]; simpl.
  - reflexivity.
  - rewrite sum_cons, IH. ring.
Qed.

Lemma sum_interchange {A B} (f : A -> B -> float) (l : list A) (l' : list B) :
  (np.sum (map (fun i => np.sum (map (f i) l')) l) ==
   np.sum (map (fun j => np.sum (map (fun i => f i j) l)) l'))%Q.
Proof.
  induction l as [|a l IH]; simpl.
  - rewrite sum_map_zero. reflexivity.
  - rewrite sum_cons, IH.
    rewrite (sum_map_ext (fun j => np.sum (f a j :: map (fun i => f i j) l))
                         (fun j => f a j + np.sum (map (fun i => f i j) l))%Q)
      by (intros j _; apply sum_cons).
    rewrite sum_map_add. reflexivity.
Qed.

Lemma total_by_rows (X : DataFrame) :
  (np.sum (pd.sum_axis1 X) == np.sum (pd.sum X))%Q.
Proof.
  unfold pd.sum_axis1, pd.sum, np.sumn.
  apply (sum_interchange (fun i j => values X i j)).
Qed.

Lemma sum_div_total (X : DataFrame) (S : float) :
  (np.sum (pd.sum (pd.div X S)) == np.sum (pd.sum X) / S)%Q.
Proof.
  unfold pd.sum, pd.div, np.sumn. simpl.
  rewrite <- sum_map_div. apply sum_map_ext. intros j _.
  apply (sum_map_div (fun i => values X i j)).
Qed.

Lemma process_df_J (DF : DataFrame) (cols : option (list string)) (ncols : pyobj)
    (X : DataFrame) (K : Z) (J : nat) :
  process_df DF cols ncols = OK (X, K, J) -> J = List.length (columns X).
Proof.
  unfold process_df. intros H.
  match type of H with rbind ?x _ = _ => destruct x as [[X' K']|e] end;
    simpl in H; [|discriminate].
  inversion H; subst. reflexivity.
Qed.

(** X1.  After a successful fit there is one row mass per row and one column
    mass per coded column of the processed table, and when the total count
    of the table is not zero the row masses sum to 1 and so do the column
    masses. *)
Theorem masses_sum_to_one (X : DataFrame) (o o' : self.t) :
  _fit X o = (OK tt, o') ->
  exists X' K J,
    process_df X (self.cols o) (self.n_cols o) = OK (X', K, J) /\
    List.length (self.r o') = index X' /\
    List.length (self.c o') = J /\
    (~ (np.sum (pd.sum X') == 0)%Q ->
     (np.sum (self.r o') == 1)%Q /\ (np.sum (self.c o') == 1)%Q).
Proof.
  intros H. apply fit_decomposition in H.
  destruct H as (X' & K & J & product & P & s & Q & Hdf & _ & _ & H).
  apply correction_spec in H. destruct H as (E & _ & _ & ->).
  exists X', K, J. split; [exact Hdf|].
  pose proof (process_df_J _ _ _ _ _ _ Hdf) as HJ.
  assert (Hr : self.r (decomposed o X' K J product P s Q) =
               pd.sum_axis1 (pd.div X' (np.sum (pd.sum X'))))
    by (unfold decomposed; destruct (self.sparse o); reflexivity).
  assert (Hc : self.c (decomposed o X' K J product P s Q) =
               pd.sum (pd.div X' (np.sum (pd.sum X'))))
    by (unfold decomposed; destruct (self.sparse o); reflexivity).
  change (self.r _) with (self.r (decomposed o X' K J product P s Q)).
  change (self.c _) with (self.c (decomposed o X' K J product P s Q)).
  rewrite Hr, Hc. split; [|split].
  - unfold pd.sum_axis1. rewrite length_map, length_seq. reflexivity.
  - unfold pd.sum. rewrite length_map, length_seq. simpl. symmetry. exact HJ.
  - intros HS. split.
    + rewrite total_by_rows, sum_div_total. field. exact HS.
    + rewrite sum_div_total. field. exact HS.
Qed.

(** *** What a fit and the calculators leave in the object *)

(** X2.  A fit does not clear the cached scores: [F], [G] and [k] are after the
    fit what they were before it, also when the fit is of another table.
    The cache [E] is not kept: it holds the correction of the new singular
    values when the Benzecri correction is on, and nothing when it is
    off. *)
Theorem fit_keeps_cached_scores (X : DataFrame) (o o' : self.t) :
  _fit X o = (OK tt, o') ->
  self.F o' = self.F o /\ self.G o' = self.G o /\ self.k o' = self.k o /\
  if self.benzecri o
  then exists E, self.E o' = Some E /\
                 rmap (benzecri_entry (self.K o')) (squares (self.s o')) = OK E
  else self.E o' = None.
Proof.
  intros H. apply fit_decomposition in H.
  destruct H as (X' & K & J & product & P & s & Q & _ & _ & _ & H).
  apply correction_spec in H. destruct H as (E & _ & HE & ->).
  destruct (decomposed_config o X' K J product P s Q) as (Hb & _).
  rewrite Hb in HE.
  assert (HF : self.F (decomposed o X' K J product P s Q) = self.F o /\
               self.G (decomposed o X' K J product P s Q) = self.G o /\
               self.k (decomposed o X' K J product P s Q) = self.k o)
    by (unfold decomposed; destruct (self.sparse o); repeat split).
  destruct HF as (HF & HG & Hk).
  split; [exact HF|]. split; [exact HG|]. split; [exact Hk|].
  change (self.E _) with
    (if self.benzecri (decomposed o X' K J product P s Q) then Some E else None).
  change (self.K _) with (self.K (decomposed o X' K J product P s Q)).
  change (self.s _) with (self.s (decomposed o X' K J product P s Q)).
  rewrite Hb. destruct (self.benzecri o).
  - exists E. split; [reflexivity | exact HE].
  - reflexivity.
Qed.

(** X3.  The score calculators assign nothing but [k] and their own matrix:
    whatever the arguments, and whether it returns or raises, the row
    calculator leaves every attribute other than [k] and [F] as it was,
    and the column calculator every attribute other than [k] and [G]. *)
Theorem calculators_assign_only_scores (percent : float) (N : pyobj) (o : self.t) :
  (exists k F, snd (_calc_row_factor_scores percent N o) =
               o{{ self.k := k; self.F := F }}) /\
  (exists k G, snd (_calc_col_factor_scores percent N o) =
               o{{ self.k := k; self.G := G }}).
Proof.
  assert (Hs : exists k, snd (scaling percent N o) = o{{ self.k := k }}).
  { destruct (scaling_frame percent N o) as [-> | (k & _ & ->)].
    - exists (self.k o). destruct o; reflexivity.
    - exists (Some k). reflexivity. }
  destruct Hs as (k & Hs). split.
  - unfold _calc_row_factor_scores. unfold bind at 1.
    destruct (scaling percent N o) as [[[sv n]|e] o1]; simpl in Hs; subst o1.
    + unfold bind, attr, lift, assign, ret.
      run_cases; simpl;
        first [ exists k, (self.F o); destruct o; reflexivity
              | eexists k, _; reflexivity ].
    + exists k, (self.F o). destruct o; reflexivity.
  - unfold _calc_col_factor_scores. unfold bind at 1.
    destruct (scaling percent N o) as [[[sv n]|e] o1]; simpl in Hs; subst o1.
    + unfold bind, attr, lift, assign, ret.
      run_cases; simpl;
        first [ exists k, (self.G o); destruct o; reflexivity
              | eexists k, _; reflexivity ].
    + exists k, (self.G o). destruct o; reflexivity.
Qed.

(** *** Arguments of the calculators *)

Lemma rows_stop_with_scaling (percent : float) (N : pyobj) (o o1 : self.t) e :
  scaling percent N o = (Raise e, o1) ->
  _calc_row_factor_scores percent N o = (Raise e, o1).
Proof.
  intros Hs. unfold _calc_row_factor_scores. unfold bind at 1. rewrite Hs. reflexivity.
Qed.

Lemma cols_stop_with_scaling (percent : float) (N : pyobj) (o o1 : self.t) e :
  scaling percent N o = (Raise e, o1) ->
  _calc_col_factor_scores percent N o = (Raise e, o1).
Proof.
  intros Hs. unfold _calc_col_factor_scores. unfold bind at 1. rewrite Hs. reflexivity.
Qed.

(** X4.  On a fitted instance each calculator raises one of its two errors
    exactly when [percent] is outside [0, 1] or [N] is truthy and is not a
    positive [int] or [int64].  [percent] is checked first, and a
    rejected call leaves the object as it was: nothing is assigned before
    the checks. *)
Theorem calculators_reject_exactly (percent : float) (N : pyobj) (o : self.t) :
  fitted o ->
  ((exists e, invalid_argument e /\
              fst (_calc_row_factor_scores percent N o) = Raise e) <->
   ~ accepted percent N) /\
  ((exists e, invalid_argument e /\
              fst (_calc_col_factor_scores percent N o) = Raise e) <->
   ~ accepted percent N) /\
  (~ ((0 <= percent)%Q /\ (percent <= 1)%Q) ->
   _calc_row_factor_scores percent N o =
     (Raise (ValueError "Percent should be a real number between 0 and 1."), o) /\
   _calc_col_factor_scores percent N o =
     (Raise (ValueError "Percent should be a real number between 0 and 1."), o)) /\
  (~ accepted percent N ->
   snd (_calc_row_factor_scores percent N o) = o /\
   snd (_calc_col_factor_scores percent N o) = o).
Proof.
  intros Hfit. destruct (invalid_argument_iff percent N o Hfit) as [Hrow Hcol].
  split; [exact Hrow|]. split; [exact Hcol|]. split.
  - intros Hp.
    assert (Ht : negb (Qle_bool 0 percent && Qle_bool percent 1) = true).
    { destruct (negb (Qle_bool 0 percent && Qle_bool percent 1)) eqn:E; [reflexivity|].
      apply percent_in_range in E. contradiction. }
    assert (Hs : scaling percent N o =
              (Raise (ValueError "Percent should be a real number between 0 and 1."), o)).
    { unfold scaling. unfold bind at 1. rewrite Ht. reflexivity. }
    split; [apply rows_stop_with_scaling | apply cols_stop_with_scaling]; exact Hs.
  - intros Hn. destruct (scaling_rejected percent N o Hn) as (e & _ & Hs).
    rewrite (rows_stop_with_scaling _ _ _ _ _ Hs), (cols_stop_with_scaling _ _ _ _ _ Hs).
    split; reflexivity.
Qed.

(** X5.  [fit_transform] checks [percent] and [N] only after the fit: on a
    table that fits, a rejected argument raises its error from an object
    that has been fitted. *)
Theorem fit_transform_checks_after_fitting (X : DataFrame) (percent : float)
    (N : pyobj) (col_factor_scores : bool) (o o' : self.t) :
  _fit X o = (OK tt, o') ->
  ~ accepted percent N ->
  exists e, invalid_argument e /\
            fit_transform X percent N col_factor_scores o = (Raise e, o').
Proof.
  intros Hfit Hn. destruct (scaling_rejected percent N o' Hn) as (e & Hi & Hs).
  exists e. split; [exact Hi|].
  unfold fit_transform. unfold bind at 1. rewrite Hfit.
  destruct col_factor_scores.
  - apply cols_stop_with_scaling. exact Hs.
  - apply rows_stop_with_scaling. exact Hs.
Qed.

(** *** What the rank cuts off *)

Lemma Forall_firstn_nth {A} (P : A -> Prop) (d : A) (n : nat) (l : list A) :
  n <= List.length l ->
  (forall j, j < n -> P (nth j l d)) -> Forall P (firstn n l).
Proof.
  revert n. induction l as [|x l IH]; intros n Hn H.
  - destruct n; constructor.
  - destruct n as [|n]; [constructor|]. simpl. constructor.
    + exact (H 0 ltac:(lia)).
    + apply IH; [simpl in Hn; lia|]. intros j Hj. exact (H (S j) ltac:(lia)).
Qed.

Lemma nth_below (tol : float) (E : list float) (j : nat) :
  j < List.length E ->
  nth j (map (fun e => Qlt_bool e tol) E) false = Qlt_bool (nth j E 0%Q) tol.
Proof.
  intros Hj.
  rewrite (nth_indep _ false (Qlt_bool 0%Q tol)) by (rewrite length_map; exact Hj).
  apply (map_nth (fun e => Qlt_bool e tol)).
Qed.

Lemma Qlt_bool_false (x y : float) : Qlt_bool x y = false -> (y <= x)%Q.
Proof.
  unfold Qlt_bool. rewrite negb_false_iff. apply Qle_bool_iff.
Qed.

(** X6.  Unless the very first eigenvalue is below the tolerance, [L] holds the
    eigenvalues that come before the first one below the tolerance: every
    entry of [L] is at least [tol], and if eigenvalues were cut off, the
    first one cut off is below [tol]. *)
Theorem kept_eigenvalues_reach_tolerance (X : DataFrame) (o o' : self.t) :
  _fit X o = (OK tt, o') ->
  first_below (self.tol o') (eigenvalues o') <> Some 0 ->
  Forall (fun x => self.tol o' <= x)%Q (self.L o') /\
  (self.rank o' < List.length (eigenvalues o') ->
   (nth (self.rank o') (eigenvalues o') 0 < self.tol o')%Q).
Proof.
  intros H Hfirst.
  destruct (fit_facts X o o' H) as (_ & _ & _ & Hr & HL & _).
  unfold settled_rank in Hr. unfold first_below in *.
  set (E := eigenvalues o') in *. set (tol := self.tol o') in *.
  rewrite HL.
  destruct (np.first_true (map (fun e => Qlt_bool e tol) E)) as [[|i]|] eqn:Ef.
  - contradiction.
  - destruct (first_true_Some _ _ Ef) as (Hi & Ht & Hf).
    rewrite length_map in Hi. rewrite Hr. split.
    + apply (Forall_firstn_nth _ 0%Q); [lia|]. intros j Hj.
      apply Qlt_bool_false. rewrite <- nth_below by lia. apply Hf. exact Hj.
    + intros _. apply Qlt_bool_iff. rewrite <- nth_below by lia. exact Ht.
  - rewrite Hr. split; [|lia].
    apply (Forall_firstn_nth _ 0%Q); [lia|]. intros j Hj.
    apply Qlt_bool_false. rewrite <- nth_below by lia.
    exact (first_true_None _ Ef j).
Qed.

Lemma sum_firstn_le (n : nat) (l : list float) :
  Forall (fun x => 0 <= x)%Q l -> (np.sum (firstn n l) <= np.sum l)%Q.
Proof.
  intros H. revert n. induction H as [|x l Hx Hnn IH]; intros [|n]; simpl.
  - apply Qle_refl.
  - apply Qle_refl.
  - change (np.sum [] <= np.sum (x :: l))%Q. rewrite sum_cons.
    assert (Hl : (0 <= np.sum l)%Q) by (apply sum_nonneg; exact Hnn).
    change (np.sum []) with 0%Q.
    rewrite <- (Qplus_0_r 0). apply Qplus_le_compat; assumption.
  - rewrite !sum_cons. apply Qplus_le_compat; [apply Qle_refl | apply IH].
Qed.

(** X7.  After a successful fit the inertia is the sum of all the eigenvalues;
    it is not negative, and the part of it carried by [L] is between 0 and
    the whole. *)
Theorem inertia_bounds (X : DataFrame) (o o' : self.t) :
  _fit X o = (OK tt, o') ->
  self.inertia o' = np.sum (eigenvalues o') /\
  (0 <= np.sum (self.L o'))%Q /\
  (np.sum (self.L o') <= self.inertia o')%Q.
Proof.
  intros H.
  destruct (fit_facts X o o' H) as (_ & _ & Hnn & _ & HL & _).
  assert (Hin : self.inertia o' = np.sum (eigenvalues o')).
  { apply fit_decomposition in H.
    destruct H as (X' & K & J & product & P & s & Q & _ & _ & _ & H).
    apply correction_spec in H. destruct H as (E & _ & HE & ->).
    unfold eigenvalues.
    change (self.inertia _) with (np.sum E).
    change (self.benzecri (_ {{ self.E := _; self.inertia := _; self.rank := _;
                                 self.L := _ }}))
      with (self.benzecri (decomposed o X' K J product P s Q)).
    destruct (self.benzecri (decomposed o X' K J product P s Q));
      [reflexivity | rewrite HE; reflexivity]. }
  split; [exact Hin|]. rewrite Hin, HL. split.
  - apply sum_nonneg. apply Forall_firstn. exact Hnn.
  - apply sum_firstn_le. exact Hnn.
Qed.

(** *** The category count *)

(** X8.  What [process_df] returns when it returns: a category count [K] of at
    least 1 and the number [J] of columns of the table it hands on.  When
    no columns are specified that table is the given one, and [K] is the
    coded-column count, which is at most [J], or [J] itself when no count
    is given.  When columns are specified [K] is their number. *)
Theorem process_df_returns (DF : DataFrame) (cols : option (list string))
    (ncols : pyobj) (X : DataFrame) (K : Z) (J : nat) :
  process_df DF cols ncols = OK (X, K, J) ->
  (1 <= K)%Z /\
  J = List.length (columns X) /\
  (unspecified cols ->
   X = DF /\
   (ncols = PyNone -> K = Z.of_nat J) /\
   (forall z, ncols = PyInt z -> K = z /\ (z <= Z.of_nat J)%Z)) /\
  (forall c cs, cols = Some (c :: cs) -> K = Z.of_nat (List.length (c :: cs))).
Proof.
  intros H. pose proof (process_df_J _ _ _ _ _ _ H) as HJ.
  assert (Hcount : forall cols', unspecified cols' -> cols = cols' ->
            X = DF /\ (1 <= K)%Z /\
            (ncols = PyNone -> K = Z.of_nat (List.length (columns DF))) /\
            (forall z, ncols = PyInt z ->
                       K = z /\ (z <= Z.of_nat (List.length (columns DF)))%Z)).
  { intros cols' Hu ->.
    assert (Hb : process_df DF cols' ncols =
                 rbind
                   (match ncols with
                    | PyNone =>
                        if List.length (columns DF) =? 0
                        then Raise (ValueError "Your DataFrame has no columns.")
                        else OK (DF, Z.of_nat (List.length (columns DF)))
                    | _ =>
                        if negb (isinstance_int ncols) || (int_of ncols <=? 0)%Z
                           || (int_of ncols >? Z.of_nat (List.length (columns DF)))%Z
                        then Raise (ValueError "You must pass a valid number of columns.")
                        else OK (DF, int_of ncols)
                    end)
                   (fun '(X, K) => OK (X, K, snd (pd.shape_of X))))
      by (destruct Hu as [-> | ->]; reflexivity).
    rewrite Hb in H. clear Hb.
    destruct ncols as [|z|z|q]; simpl in H; try discriminate.
    - destruct (Nat.eqb_spec (List.length (columns DF)) 0) as [E0|E0];
        simpl in H; [discriminate|].
      inversion H; subst.
      split; [reflexivity|]. split; [lia|]. split; [reflexivity|].
      intros z Hz. discriminate.
    - destruct (z <=? 0)%Z eqn:E1; simpl in H; [discriminate|].
      destruct (z >? Z.of_nat (List.length (columns DF)))%Z eqn:E2;
        simpl in H; [discriminate|].
      apply Z.leb_gt in E1. rewrite Z.gtb_ltb in E2. apply Z.ltb_ge in E2.
      inversion H; subst.
      split; [reflexivity|]. split; [lia|]. split; [discriminate|].
      intros z0 Hz0. inversion Hz0; subst. split; [reflexivity | exact E2]. }
  split; [|split; [exact HJ|split]].
  - destruct (unspecified_dec cols) as [Hu | (c & cs & ->)].
    + apply (Hcount cols Hu eq_refl).
    + unfold process_df in H.
      destruct (dummy DF (Some (c :: cs))) as [X'|e]; simpl in H; [|discriminate].
      inversion H; subst. simpl List.length. lia.
  - intros Hu. destruct (Hcount cols Hu eq_refl) as (HX & _ & Hn & Hz).
    subst X. split; [reflexivity|]. rewrite HJ. split; assumption.
  - intros c cs ->. unfold process_df in H.
    destruct (dummy DF (Some (c :: cs))) as [X'|e]; simpl in H; [|discriminate].
    inversion H; subst. reflexivity.
Qed.

Lemma rmap_Raise {A B} (f : A -> result B) (g : A -> B) (e : exception) (l : list A) :
  (forall a, In a l -> f a = OK (g a) \/ f a = Raise e) ->
  (exists a, In a l /\ f a = Raise e) ->
  rmap f l = Raise e.
Proof.
  induction l as [|a l IH]; intros Hall (a0 & Hin & Ha0).
  - destruct Hin.
  - simpl. destruct (Hall a (or_introl eq_refl)) as [Ha | Ha]; rewrite Ha; simpl.
    + destruct Hin as [<- | Hin]; [congruence|].
      rewrite IH; [reflexivity | | exists a0; split; assumption].
      intros a' Ha'. apply Hall. right. exact Ha'.
    + reflexivity.
Qed.

Lemma benzecri_entry_single (x : float) :
  ((x <= 1)%Q -> benzecri_entry 1 x = OK 0%Q) /\
  ((1 < x)%Q -> benzecri_entry 1 x = Raise (ZeroDivisionError "float division by zero")).
Proof.
  unfold benzecri_entry. simpl (1 =? 0)%Z. cbv iota.
  assert (H1 : (1 / inject_Z 1 == 1)%Q) by reflexivity.
  split; intros Hx.
  - destruct (Qlt_bool (1 / inject_Z 1) x) eqn:E; [|reflexivity].
    apply Qlt_bool_iff in E. rewrite H1 in E. exfalso. exact (Qlt_not_le _ _ E Hx).
  - assert (E : Qlt_bool (1 / inject_Z 1) x = true)
      by (apply Qlt_bool_iff; rewrite H1; exact Hx).
    rewrite E. reflexivity.
Qed.

(** X9.  With a single category ([K = 1]) the correction divides by [K - 1]
    only for a squared singular value above [1/K = 1]: when no squared
    singular value exceeds 1 every corrected eigenvalue is 0, and as soon
    as one does the method raises [ZeroDivisionError] and stores
    nothing. *)
Theorem benzecri_single_category (o : self.t) :
  self.K o = 1%Z ->
  self.E o = None ->
  ((forall sigma, In sigma (self.s o) -> (sigma ^ 2 <= 1)%Q) ->
   _apply_benzecri_correction o =
     (OK (map (fun _ => 0%Q) (self.s o)),
      o{{ self.E := Some (map (fun _ => 0%Q) (self.s o)) }})) /\
  ((exists sigma, In sigma (self.s o) /\ (1 < sigma ^ 2)%Q) ->
   _apply_benzecri_correction o =
     (Raise (ZeroDivisionError "float division by zero"), o)).
Proof.
  intros HK HE. unfold _apply_benzecri_correction, bind, attr, assign, lift, ret.
  rewrite HE, HK. unfold squares. rewrite rmap_map. split.
  - intros Hall.
    rewrite (rmap_total _ (fun _ => 0%Q)); [reflexivity|].
    intros sigma Hin. apply benzecri_entry_single. apply Hall. exact Hin.
  - intros (sigma & Hin & Hgt).
    rewrite (rmap_Raise _ (fun _ => 0%Q)
               (ZeroDivisionError "float division by zero")); [reflexivity | |].
    + intros a _. destruct (Qlt_le_dec 1 (a ^ 2)) as [Hlt | Hle].
      * right. apply benzecri_entry_single. exact Hlt.
      * left. apply benzecri_entry_single. exact Hle.
    + exists sigma. split; [exact Hin|]. apply benzecri_entry_single. exact Hgt.
Qed.

(** *** The factor scores *)

Lemma sum_single {A} (f : A -> float) (l : list A) (x : A) :
  NoDup l -> In x l ->
  (forall y, In y l -> y <> x -> (f y == 0)%Q) ->
  (np.sum (map f l) == f x)%Q.
Proof.
  induction l as [|a l IH]; intros Hnd Hin Hz.
  - destruct Hin.
  - inversion Hnd as [|a' l' Hna Hnd']; subst. simpl. rewrite sum_cons.
    destruct Hin as [-> | Hin].
    + rewrite (sum_map_ext f (fun _ => 0%Q)), sum_map_zero; [ring|].
      intros y Hy. apply Hz; [right; exact Hy|].
      intros ->. contradiction.
    + rewrite (Hz a (or_introl eq_refl)), IH; [ring | exact Hnd' | exact Hin | |].
      * intros y Hy. apply Hz. right. exact Hy.
      * intros ->. contradiction.
Qed.

Lemma sumn_single (n i : nat) (f : nat -> float) :
  i < n ->
  (forall l, l < n -> l <> i -> (f l == 0)%Q) ->
  (np.sumn n f == f i)%Q.
Proof.
  intros Hi Hz. unfold np.sumn. apply sum_single.
  - apply seq_NoDup.
  - apply in_seq. lia.
  - intros l Hl. apply in_seq in Hl. apply Hz. lia.
Qed.

Lemma dot_item (A B C : ndarray) :
  np.dot A B = OK C ->
  forall i j,
    item C i j = np.sumn (snd (shape A)) (fun l => (item A i l * item B l j)%Q).
Proof.
  unfold np.dot. destruct (_ =? _); intros H; inversion H. reflexivity.
Qed.

Lemma diagsvd_item (v : list float) (m n : Z) (S : ndarray) :
  diagsvd v m n = OK S ->
  forall i j, item S i j = if i =? j then nth i v 0%Q else 0%Q.
Proof.
  unfold diagsvd. intros H.
  repeat match type of H with
         | (if ?b then _ else _) = _ => destruct b
         end; inversion H; reflexivity.
Qed.

Lemma nth_firstn_lt {A} (a n : nat) (l : list A) (d : A) :
  a < n -> nth a (firstn n l) d = nth a l d.
Proof.
  revert a l. induction n as [|n IH]; intros a l Ha; [lia|].
  destruct l as [|x l]; [reflexivity|].
  destruct a as [|a]; [reflexivity|]. simpl. apply IH. lia.
Qed.

Lemma nth_map_below {A B} (f : A -> B) (l : list A) (i : nat) (d : A) (d' : B) :
  i < List.length l -> nth i (map f l) d' = f (nth i l d).
Proof.
  intros Hi. rewrite (nth_indep _ d' (f d)) by (rewrite length_map; exact Hi).
  apply map_nth.
Qed.

(** Left multiplication by a diagonal matrix scales the rows, and right
    multiplication by the matrix of [diagsvd] scales the columns. *)
Lemma dot_diag_left (d : list float) (B C : ndarray) :
  np.dot (np.diag d) B = OK C ->
  forall i j, i < List.length d -> (item C i j == nth i d 0 * item B i j)%Q.
Proof.
  intros H i j Hi. rewrite (dot_item _ _ _ H).
  change (snd (shape (np.diag d))) with (List.length d).
  etransitivity; [apply (sumn_single _ i); [exact Hi|]|].
  - intros l _ Hl. simpl. destruct (Nat.eqb_spec i l); [congruence | ring].
  - simpl. rewrite Nat.eqb_refl. reflexivity.
Qed.

Lemma dot_diagsvd_right (A S C : ndarray) (v : list float) (m n : Z) :
  diagsvd v m n = OK S -> np.dot A S = OK C ->
  forall i j, j < snd (shape A) -> (item C i j == item A i j * nth j v 0)%Q.
Proof.
  intros HS H i j Hj. rewrite (dot_item _ _ _ H).
  etransitivity; [apply (sumn_single _ j); [exact Hj|]|].
  - intros l _ Hl. cbv beta. rewrite (diagsvd_item _ _ _ _ HS).
    destruct (Nat.eqb_spec l j); [congruence | ring].
  - cbv beta. rewrite (diagsvd_item _ _ _ _ HS), Nat.eqb_refl. reflexivity.
Qed.

Lemma rows_frame (percent : float) (N : pyobj) (o : self.t) :
  exists k F, snd (_calc_row_factor_scores percent N o) =
              o{{ self.k := k; self.F := F }}.
Proof.
  assert (Hs : exists k, snd (scaling percent N o) = o{{ self.k := k }}).
  { destruct (scaling_frame percent N o) as [-> | (k & _ & ->)].
    - exists (self.k o). destruct o; reflexivity.
    - exists (Some k). reflexivity. }
  destruct Hs as (k & Hs).
  unfold _calc_row_factor_scores. unfold bind at 1.
  destruct (scaling percent N o) as [[[sv n]|e] o1]; simpl in Hs; subst o1.
  - unfold bind, attr, lift, assign, ret.
    run_cases; simpl;
      first [ exists k, (self.F o); destruct o; reflexivity
            | eexists k, _; reflexivity ].
  - exists k, (self.F o). destruct o; reflexivity.
Qed.

Lemma cols_frame (percent : float) (N : pyobj) (o : self.t) :
  exists k G, snd (_calc_col_factor_scores percent N o) =
              o{{ self.k := k; self.G := G }}.
Proof.
  assert (Hs : exists k, snd (scaling percent N o) = o{{ self.k := k }}).
  { destruct (scaling_frame percent N o) as [-> | (k & _ & ->)].
    - exists (self.k o). destruct o; reflexivity.
    - exists (Some k). reflexivity. }
  destruct Hs as (k & Hs).
  unfold _calc_col_factor_scores. unfold bind at 1.
  destruct (scaling percent N o) as [[[sv n]|e] o1]; simpl in Hs; subst o1.
  - unfold bind, attr, lift, assign, ret.
    run_cases; simpl;
      first [ exists k, (self.G o); destruct o; reflexivity
            | eexists k, _; reflexivity ].
  - exists k, (self.G o). destruct o; reflexivity.
Qed.

Lemma rows_keep_masses (percent : float) (N : pyobj) (o : self.t) :
  self.r (snd (_calc_row_factor_scores percent N o)) = self.r o /\
  self.c (snd (_calc_row_factor_scores percent N o)) = self.c o.
Proof.
  destruct (rows_frame percent N o) as (k & F & ->). split; reflexivity.
Qed.

Lemma cols_keep_masses (percent : float) (N : pyobj) (o : self.t) :
  self.r (snd (_calc_col_factor_scores percent N o)) = self.r o /\
  self.c (snd (_calc_col_factor_scores percent N o)) = self.c o.
Proof.
  destruct (cols_frame percent N o) as (k & G & ->). split; reflexivity.
Qed.

(** On a fitted instance [D_r] and [D_c] are the diagonal matrices of the
    weights [1/(eps + sqrt(mass))]. *)
Lemma fitted_weights (o : self.t) :
  fitted o ->
  self.D_r o = np.diag (map (fun x => 1 / (np.eps + sqrt x))%Q (self.r o)) /\
  self.D_c o = np.diag (map (fun x => 1 / (np.eps + sqrt x))%Q (self.c o)).
Proof.
  induction 1 as [X o o' H | percent N o Hf IH | percent N o Hf IH].
  - apply fit_decomposition in H.
    destruct H as (X' & K & J & product & P & s & Q & _ & _ & _ & H).
    apply correction_spec in H. destruct H as (E & _ & _ & ->).
    change (self.D_r _) with (self.D_r (decomposed o X' K J product P s Q)).
    change (self.D_c _) with (self.D_c (decomposed o X' K J product P s Q)).
    change (self.r _) with (self.r (decomposed o X' K J product P s Q)).
    change (self.c _) with (self.c (decomposed o X' K J product P s Q)).
    unfold decomposed. destruct (self.sparse o); split; reflexivity.
  - destruct (rows_keep_masses percent N o) as (Hr & Hc).
    destruct (rows_stable percent N o) as (_ & _ & _ & _ & _ & _ & _ & _ & _ & _ & HDr & HDc).
    rewrite Hr, Hc, HDr, HDc. exact IH.
  - destruct (cols_keep_masses percent N o) as (Hr & Hc).
    destruct (cols_stable percent N o) as (_ & _ & _ & _ & _ & _ & _ & _ & _ & _ & HDr & HDc).
    rewrite Hr, Hc, HDr, HDc. exact IH.
Qed.

Lemma num2ret_bounds (N : pyobj) (rank k : nat) :
  truthy N = false \/ positive_integer N ->
  1 <= k <= rank ->
  (1 <= num2ret N rank k <= Z.of_nat rank)%Z.
Proof.
  intros [Ht | (z & Hz & Hpos)] Hk; unfold num2ret, checked.
  - rewrite Ht, Ht. lia.
  - assert (Ht : truthy N = true).
    { destruct Hz as [-> | ->]; simpl; apply negb_true_iff, Z.eqb_neq; lia. }
    assert (Hi : int_of N = z) by (destruct Hz as [-> | ->]; reflexivity).
    rewrite Ht, Hi. simpl.
    destruct (Z.eqb_spec (Z.min z (Z.of_nat rank)) 0) as [E0|E0]; simpl; lia.
Qed.

Lemma upto_length (n : Z) (v : list float) :
  (0 <= n <= Z.of_nat (List.length v))%Z ->
  Z.of_nat (List.length (np.upto n v)) = n.
Proof.
  intros Hn. unfold np.upto. destruct (Z.ltb_spec n 0) as [Hlt|_]; [lia|].
  rewrite firstn_length_le by lia. lia.
Qed.

Lemma nth_upto (n : Z) (v : list float) (a : nat) :
  a < Z.to_nat n -> nth a (np.upto n v) 0%Q = nth a v 0%Q.
Proof.
  intros Ha. unfold np.upto. destruct (Z.ltb_spec n 0) as [Hlt|_]; [lia|].
  apply nth_firstn_lt. exact Ha.
Qed.

Lemma scaling_on_fitted (percent : float) (N : pyobj) (o : self.t) :
  fitted o -> accepted percent N ->
  exists k,
    retained (self.L o) percent = OK k /\
    (1 <= num2ret N (self.rank o) k <= Z.of_nat (self.rank o))%Z /\
    Z.of_nat (List.length
                (np.upto (num2ret N (self.rank o) k)
                   (if self.benzecri o then map (fun x => - sqrt x)%Q (self.L o)
                    else self.s o))) = num2ret N (self.rank o) k /\
    scaling percent N o =
      (OK (np.upto (num2ret N (self.rank o) k)
             (if self.benzecri o then map (fun x => - sqrt x)%Q (self.L o)
              else self.s o),
           num2ret N (self.rank o) k),
       o{{ self.k := Some k }}).
Proof.
  intros Hf Hacc. pose proof (fitted_corrected o Hf) as Hc.
  destruct (corrected_L o Hc) as (HL & Hnn & HlenL & Hr).
  destruct (scaling_accepted percent N o Hacc HL Hnn) as (k & Hk & Hs).
  destruct Hacc as (Hp0 & Hp1 & HN).
  destruct (retained_spec (self.L o) percent HL Hnn Hp0 Hp1) as (k' & Hk' & Hb & _).
  assert (k' = k) by congruence. subst k'.
  assert (Hn : (1 <= num2ret N (self.rank o) k <= Z.of_nat (self.rank o))%Z)
    by (apply num2ret_bounds; [exact HN | lia]).
  exists k. split; [exact Hk|]. split; [exact Hn|]. split; [|exact Hs].
  apply upto_length. pose proof (scaling_vector_length o Hc). lia.
Qed.

Lemma rows_return (percent : float) (N : pyobj) (o : self.t) :
  fitted o -> well_dimensioned o -> accepted percent N ->
  exists k F,
    retained (self.L o) percent = OK k /\
    _calc_row_factor_scores percent N o =
      (OK F, o{{ self.k := Some k; self.F := Some F }}) /\
    (1 <= num2ret N (self.rank o) k <= Z.of_nat (self.rank o))%Z /\
    shape F = (List.length (self.r o), Z.to_nat (num2ret N (self.rank o) k)) /\
    forall i a,
      i < List.length (self.r o) -> a < Z.to_nat (num2ret N (self.rank o) k) ->
      (item F i a ==
       1 / (np.eps + sqrt (nth i (self.r o) 0)) * item (self.P o) i a *
       nth a (if self.benzecri o then map (fun x => - sqrt x) (self.L o)
              else self.s o) 0)%Q.
Proof.
  intros Hf (Hd1 & Hd2 & Hd3 & Hd4 & Hd5) Hacc.
  destruct (scaling_on_fitted percent N o Hf Hacc) as (k & Hk & Hn & Hup & Hs).
  destruct (fitted_weights o Hf) as (HDr & _).
  set (sv := if self.benzecri o then map (fun x => - sqrt x)%Q (self.L o)
             else self.s o) in *.
  set (n := num2ret N (self.rank o) k) in *.
  destruct (diagsvd_OK _ (self._numitems o) _ Hup ltac:(lia)) as (S & HS & HshS).
  destruct (dot_OK (self.D_r o) (self.P o) Hd1) as (DP & HDP & HshDP).
  assert (Hin : snd (shape DP) = fst (shape S)).
  { rewrite HshDP, HshS, Hd2. simpl. rewrite Nat2Z.id. reflexivity. }
  destruct (dot_OK DP S Hin) as (F & HF & HshF).
  exists k, F. split; [exact Hk|]. split; [|split; [exact Hn|split]].
  - unfold _calc_row_factor_scores. unfold bind at 1. rewrite Hs.
    unfold bind, attr, lift, assign, ret.
    change (self._numitems _) with (self._numitems o).
    rewrite HS.
    change (self.D_r _) with (self.D_r o). change (self.P _) with (self.P o).
    rewrite HDP, HF. reflexivity.
  - rewrite HshF, HshDP, HshS, HDr. simpl. rewrite length_map. reflexivity.
  - intros i a Hi Ha.
    rewrite (dot_diagsvd_right _ _ _ _ _ _ HS HF) by (rewrite HshDP; simpl; lia).
    rewrite HDr in HDP.
    rewrite (dot_diag_left _ _ _ HDP) by (rewrite length_map; exact Hi).
    rewrite (nth_map_below _ _ _ 0%Q) by exact Hi.
    rewrite nth_upto by exact Ha. reflexivity.
Qed.

(** X10.  On a fitted, well dimensioned instance and with accepted arguments
    the row calculator returns: it stores the number [k] of factors that
    reach [percent] and the matrix [F] it returns; [F] has one row per row
    mass and [num2ret] columns, [num2ret] being [min(N, rank)] for a
    positive [N] and [k] otherwise, between 1 and the rank; and the entry
    of row [i] on axis [a] is the entry of [P] weighted by
    [1/(eps + sqrt(r_i))] and scaled by the singular value of the axis, or
    by minus the square root of its corrected eigenvalue when the Benzecri
    correction is on. *)
Theorem row_scores_formula (percent : float) (N : pyobj) (o : self.t) :
  fitted o -> well_dimensioned o -> accepted percent N ->
  exists k F,
    retained (self.L o) percent = OK k /\
    _calc_row_factor_scores percent N o =
      (OK F, o{{ self.k := Some k; self.F := Some F }}) /\
    (1 <= num2ret N (self.rank o) k <= Z.of_nat (self.rank o))%Z /\
    shape F = (List.length (self.r o), Z.to_nat (num2ret N (self.rank o) k)) /\
    forall i a,
      i < List.length (self.r o) -> a < Z.to_nat (num2ret N (self.rank o) k) ->
      (item F i a ==
       1 / (np.eps + sqrt (nth i (self.r o) 0)) * item (self.P o) i a *
       nth a (if self.benzecri o then map (fun x => - sqrt x) (self.L o)
              else self.s o) 0)%Q.
Proof. exact (rows_return percent N o). Qed.

Lemma cols_return (percent : float) (N : pyobj) (o : self.t) :
  fitted o -> well_dimensioned o -> accepted percent N ->
  exists k G,
    retained (self.L o) percent = OK k /\
    _calc_col_factor_scores percent N o =
      (OK G, o{{ self.k := Some k; self.G := Some G }}) /\
    (1 <= num2ret N (self.rank o) k <= Z.of_nat (self.rank o))%Z /\
    shape G = (List.length (self.c o), Z.to_nat (num2ret N (self.rank o) k)) /\
    forall j a,
      j < List.length (self.c o) -> a < Z.to_nat (num2ret N (self.rank o) k) ->
      (item G j a ==
       1 / (np.eps + sqrt (nth j (self.c o) 0)) * item (self.Q o) a j *
       nth a (if self.benzecri o then map (fun x => - sqrt x) (self.L o)
              else self.s o) 0)%Q.
Proof.
  intros Hf (Hd1 & Hd2 & Hd3 & Hd4 & Hd5) Hacc.
  destruct (scaling_on_fitted percent N o Hf Hacc) as (k & Hk & Hn & Hup & Hs).
  destruct (fitted_weights o Hf) as (_ & HDc).
  set (sv := if self.benzecri o then map (fun x => - sqrt x)%Q (self.L o)
             else self.s o) in *.
  set (n := num2ret N (self.rank o) k) in *.
  destruct (diagsvd_OK _ (Z.of_nat (len2 (self.Q o))) _ Hup
              ltac:(unfold len2; lia)) as (S & HS & HshS).
  assert (Hin1 : snd (shape (self.D_c o)) = fst (shape (np.T (self.Q o))))
    by exact Hd4.
  destruct (dot_OK (self.D_c o) (np.T (self.Q o)) Hin1) as (DQ & HDQ & HshDQ).
  assert (Hin : snd (shape DQ) = fst (shape S)).
  { rewrite HshDQ, HshS. simpl. rewrite Nat2Z.id. reflexivity. }
  destruct (dot_OK DQ S Hin) as (G & HG & HshG).
  exists k, G. split; [exact Hk|]. split; [|split; [exact Hn|split]].
  - unfold _calc_col_factor_scores. unfold bind at 1. rewrite Hs.
    unfold bind, attr, lift, assign, ret.
    change (self.Q _) with (self.Q o).
    rewrite HS. cbv beta iota delta [_multiply_matrices fold_left rbind].
    change (self.D_c _) with (self.D_c o).
    rewrite HDQ, HG. reflexivity.
  - rewrite HshG, HshDQ, HshS, HDc. simpl. rewrite length_map. reflexivity.
  - intros j a Hj Ha.
    rewrite (dot_diagsvd_right _ _ _ _ _ _ HS HG) by (rewrite HshDQ; simpl; lia).
    rewrite HDc in HDQ.
    rewrite (dot_diag_left _ _ _ HDQ) by (rewrite length_map; exact Hj).
    rewrite (nth_map_below _ _ _ 0%Q) by exact Hj.
    rewrite nth_upto by exact Ha. reflexivity.
Qed.

(** X11.  On a fitted, well dimensioned instance and with accepted arguments
    the column calculator returns: it stores [k] and the matrix [G] it
    returns, [G] has one row per column mass and [num2ret] columns, and
    the entry of column [j] on axis [a] is the entry of row [a] and column
    [j] of [Q] (the transpose) weighted by [1/(eps + sqrt(c_j))] and scaled
    as the row scores are. *)
Theorem column_scores_formula (percent : float) (N : pyobj) (o : self.t) :
  fitted o -> well_dimensioned o -> accepted percent N ->
  exists k G,
    retained (self.L o) percent = OK k /\
    _calc_col_factor_scores percent N o =
      (OK G, o{{ self.k := Some k; self.G := Some G }}) /\
    (1 <= num2ret N (self.rank o) k <= Z.of_nat (self.rank o))%Z /\
    shape G = (List.length (self.c o), Z.to_nat (num2ret N (self.rank o) k)) /\
    forall j a,
      j < List.length (self.c o) -> a < Z.to_nat (num2ret N (self.rank o) k) ->
      (item G j a ==
       1 / (np.eps + sqrt (nth j (self.c o) 0)) * item (self.Q o) a j *
       nth a (if self.benzecri o then map (fun x => - sqrt x) (self.L o)
              else self.s o) 0)%Q.
Proof. exact (cols_return percent N o). Qed.

(** *** Explained variance *)

Lemma set_cached_E (o : self.t) (E : list float) :
  self.E o = Some E -> o{{ self.E := Some E }} = o.
Proof. destruct o; simpl. intros ->. reflexivity. Qed.

(** The cache [E] of a fitted instance: the correction of its singular
    values when the Benzecri correction is on, nothing otherwise. *)
Lemma fitted_cache (o : self.t) :
  fitted o ->
  if self.benzecri o
  then exists E, self.E o = Some E /\ eigenvalues o = E /\
                 rmap (benzecri_entry (self.K o)) (squares (self.s o)) = OK E
  else self.E o = None.
Proof.
  induction 1 as [X o o' H | percent N o Hf IH | percent N o Hf IH].
  - apply fit_decomposition in H.
    destruct H as (X' & K & J & product & P & s & Q & _ & _ & _ & H).
    apply correction_spec in H. destruct H as (E & _ & HE & ->).
    unfold eigenvalues.
    change (self.benzecri _) with (self.benzecri (decomposed o X' K J product P s Q)).
    change (self.E _) with
      (if self.benzecri (decomposed o X' K J product P s Q) then Some E else None).
    change (self.K _) with (self.K (decomposed o X' K J product P s Q)).
    change (self.s _) with (self.s (decomposed o X' K J product P s Q)).
    destruct (self.benzecri (decomposed o X' K J product P s Q)).
    + exists E. repeat split. exact HE.
    + reflexivity.
  - destruct (rows_stable percent N o) as (Hb & _ & HE & Hs & _ & _ & HK & _).
    unfold eigenvalues. rewrite Hb, HE, Hs, HK. exact IH.
  - destruct (cols_stable percent N o) as (Hb & _ & HE & Hs & _ & _ & HK & _).
    unfold eigenvalues. rewrite Hb, HE, Hs, HK. exact IH.
Qed.

Lemma fitted_eigenvalues_run (o : self.t) :
  fitted o ->
  (if self.benzecri o then _apply_benzecri_correction
   else s <- attr self.s ;; ret (squares s)) o = (OK (eigenvalues o), o).
Proof.
  intros Hf. pose proof (fitted_cache o Hf) as Hc. unfold eigenvalues in *.
  destruct (self.benzecri o).
  - destruct Hc as (E & HE & _ & _).
    unfold _apply_benzecri_correction, bind, attr, ret. rewrite HE. reflexivity.
  - reflexivity.
Qed.

Lemma le_sum (l : list float) (x : float) :
  Forall (fun y => 0 <= y)%Q l -> In x l -> (x <= np.sum l)%Q.
Proof.
  induction 1 as [|y l Hy Hl IH]; intros Hin; [destruct Hin|].
  rewrite sum_cons. pose proof (sum_nonneg l Hl) as Hs.
  destruct Hin as [-> | Hin].
  - rewrite <- (Qplus_0_r x) at 1. apply Qplus_le_compat; [apply Qle_refl | exact Hs].
  - rewrite <- (Qplus_0_l x). apply Qplus_le_compat; [exact Hy | apply IH; exact Hin].
Qed.

(** X12.  Without the Greenacre correction, [expl_var] on a fitted instance
    returns each eigenvalue divided by their sum, cut to [N] entries, and
    leaves the object as it is.  There is one share per singular value,
    and when the eigenvalues do not sum to zero the shares lie between 0
    and 1 and sum to 1. *)
Theorem explained_variance_shares (N : option Z) (o : self.t) :
  fitted o ->
  let shares := map (fun e => e / np.sum (eigenvalues o))%Q (eigenvalues o) in
  expl_var false N o = (OK (slice_to N shares), o) /\
  List.length shares = List.length (self.s o) /\
  (~ (np.sum (eigenvalues o) == 0)%Q ->
   (np.sum shares == 1)%Q /\ Forall (fun x => 0 <= x /\ x <= 1)%Q shares).
Proof.
  intros Hf shares. subst shares.
  destruct (fitted_corrected o Hf) as (_ & Hlen & Hnn & _).
  split; [|split].
  - unfold expl_var. unfold bind at 1. unfold attr at 1.
    unfold bind at 1. rewrite (fitted_eigenvalues_run o Hf). reflexivity.
  - rewrite length_map. exact Hlen.
  - intros Hs. pose proof (sum_nonneg _ Hnn) as Hge.
    assert (Hpos : (0 < np.sum (eigenvalues o))%Q).
    { apply Qle_lt_or_eq in Hge. destruct Hge as [Hlt | Heq]; [exact Hlt|].
      exfalso. apply Hs. symmetry. exact Heq. }
    split.
    + rewrite (sum_map_div (fun e => e)), map_id. field. exact Hs.
    + apply Forall_forall. intros x Hx. apply in_map_iff in Hx.
      destruct Hx as (e & <- & He). split.
      * apply Qle_shift_div_l; [exact Hpos|]. rewrite Qmult_0_l.
        rewrite Forall_forall in Hnn. apply Hnn. exact He.
      * apply Qle_shift_div_r; [exact Hpos|]. rewrite Qmult_1_l.
        apply le_sum; assumption.
Qed.

(** X13.  With the Greenacre correction, which is the default, [expl_var]
    divides [K] by [K - 1.] before anything else: on an object with a
    single category it raises [ZeroDivisionError] and leaves the object as
    it is, whatever the singular values and whatever [N]. *)
Theorem greenacre_single_category (N : option Z) (o : self.t) :
  self.K o = 1%Z ->
  expl_var true N o = (Raise (ZeroDivisionError "float division by zero"), o).
Proof.
  intros HK. unfold expl_var, bind, attr, lift. rewrite HK. reflexivity.
Qed.

(** X14.  With the Greenacre correction and at least two categories, [expl_var]
    on a fitted instance returns the corrected eigenvalues divided by
    [K/(K-1) * (sum(s**4) - (J-K)/K**2)], cut to [N] entries.  It corrects
    the singular values whether or not the Benzecri correction is on, and
    leaves the corrected eigenvalues in [E]. *)
Theorem greenacre_explained_variance (N : option Z) (o : self.t) :
  fitted o -> (2 <= self.K o)%Z ->
  let K := inject_Z (self.K o) in
  let E := map (benzecri_spec (self.K o)) (self.s o) in
  let greenacre_inertia :=
    (K / (K - 1) *
     (np.sum (map (fun x => x ^ 4) (self.s o)) -
      inject_Z (Z.of_nat (self.J o) - self.K o) / K ^ 2))%Q in
  expl_var true N o =
    (OK (slice_to N (map (fun e => e / greenacre_inertia)%Q E)),
     o{{ self.E := Some E }}).
Proof.
  intros Hf HK K E gi. subst K E gi.
  assert (Hrmap : rmap (benzecri_entry (self.K o)) (squares (self.s o)) =
                  OK (map (benzecri_spec (self.K o)) (self.s o))).
  { unfold squares. rewrite rmap_map. apply rmap_total.
    intros sigma _. apply benzecri_entry_spec. exact HK. }
  assert (H1 : truediv (inject_Z (self.K o)) (inject_Z (self.K o) - 1) =
               OK (inject_Z (self.K o) / (inject_Z (self.K o) - 1))%Q).
  { unfold truediv. destruct (Qeq_bool _ 0) eqn:E0; [|reflexivity].
    apply Qeq_bool_eq in E0. exfalso.
    unfold Qeq, Qminus, Qplus, inject_Z in E0. simpl in E0. lia. }
  assert (H2 : truediv (inject_Z (Z.of_nat (self.J o) - self.K o))
                       (inject_Z (self.K o) ^ 2) =
               OK (inject_Z (Z.of_nat (self.J o) - self.K o) /
                   inject_Z (self.K o) ^ 2)%Q).
  { unfold truediv. destruct (Qeq_bool _ 0) eqn:E0; [|reflexivity].
    apply Qeq_bool_eq in E0. exfalso.
    unfold Qeq, Qpower, Qpower_positive, pow_pos, Qmult, inject_Z in E0.
    simpl in E0. nia. }
  assert (Hrun : _apply_benzecri_correction o =
                 (OK (map (benzecri_spec (self.K o)) (self.s o)),
                  o{{ self.E := Some (map (benzecri_spec (self.K o)) (self.s o)) }})).
  { pose proof (fitted_cache o Hf) as Hc.
    unfold _apply_benzecri_correction, bind, attr, assign, lift, ret.
    destruct (self.benzecri o).
    - destruct Hc as (E & HE & _ & HE'). rewrite HE.
      assert (E = map (benzecri_spec (self.K o)) (self.s o)) by congruence.
      subst E. rewrite (set_cached_E o _ HE). reflexivity.
    - rewrite Hc, Hrmap. reflexivity. }
  unfold expl_var.
  unfold bind at 1. unfold attr at 1.
  unfold bind at 1. unfold attr at 1.
  unfold bind at 1. unfold attr at 1.
  unfold bind at 1. unfold lift at 1. rewrite H1.
  unfold bind at 1. unfold lift at 1. rewrite H2.
  unfold bind at 1. rewrite Hrun. reflexivity.
Qed.

(** *** Supplementary scores *)

Lemma bind_step {A B} (m : M A) (f : A -> M B) (o o1 : self.t) (a : A) :
  m o = (OK a, o1) -> bind m f o = f a o1.
Proof. unfold bind. intros ->. reflexivity. Qed.

Lemma bind_stop {A B} (m : M A) (f : A -> M B) (o o1 : self.t) (e : exception) :
  m o = (Raise e, o1) -> bind m f o = (Raise e, o1).
Proof. unfold bind. intros ->. reflexivity. Qed.

Lemma diagsvd_negative (v : list float) (m n : Z) :
  Z.of_nat (List.length v) = n -> (m < n)%Z ->
  diagsvd v m n = Raise (ValueError "negative dimensions are not allowed").
Proof.
  intros Hv Hm. unfold diagsvd.
  destruct (Z.eqb_spec (Z.of_nat (List.length v)) m) as [E|_]; [lia|].
  destruct (Z.eqb_spec (Z.of_nat (List.length v)) n) as [_|E]; [|contradiction].
  destruct (Z.ltb_spec (m - n) 0) as [_|E]; [reflexivity | lia].
Qed.

(** The scaling vector the supplementary scores divide by, on a fitted
    instance: it has one entry per singular value. *)
Lemma inverse_scale_run (o : self.t) :
  fitted o ->
  inverse_scale o =
    (OK (if self.benzecri o then map (fun x => - sqrt x)%Q (eigenvalues o)
         else self.s o), o) /\
  List.length (if self.benzecri o then map (fun x => - sqrt x)%Q (eigenvalues o)
               else self.s o) = List.length (self.s o).
Proof.
  intros Hf. pose proof (fitted_cache o Hf) as Hc.
  destruct (fitted_corrected o Hf) as (_ & Hlen & _).
  unfold inverse_scale, bind, attr, ret. destruct (self.benzecri o).
  - destruct Hc as (E & HE & Heq & _). rewrite HE, Heq in *.
    split; [reflexivity|]. rewrite length_map. exact Hlen.
  - split; reflexivity.
Qed.

(** The test [N and (not isinstance(N, int) or N <= 0)] lets through an
    [N] that is not truthy and a positive [int], and nothing else. *)
Lemma sup_check_passes (N : pyobj) :
  truthy N && (negb (isinstance_int N) || (int_of N <=? 0)%Z) = false <->
  truthy N = false \/ exists z, N = PyInt z /\ (0 < z)%Z.
Proof.
  split.
  - intros H. destruct (truthy N) eqn:Et; [|left; reflexivity]. right.
    simpl in H. apply orb_false_iff in H. destruct H as [Hi Hz].
    destruct N as [|z|z|q]; try discriminate.
    exists z. split; [reflexivity|]. simpl in Hz. apply Z.leb_gt in Hz. exact Hz.
  - intros [-> | (z & -> & Hz)]; [reflexivity|]. simpl.
    destruct (Z.leb_spec z 0); [lia|]. apply andb_false_r.
Qed.

Lemma sup_count_bounds (N : pyobj) (rank : nat) :
  truthy N = false \/ (exists z, N = PyInt z /\ (0 < z)%Z) ->
  1 <= rank ->
  (1 <= (if truthy N then Z.min (int_of N) (Z.of_nat rank) else Z.of_nat rank)
     <= Z.of_nat rank)%Z.
Proof.
  intros [-> | (z & -> & Hz)] Hr; [lia|]. simpl.
  destruct (Z.eqb_spec z 0); simpl; lia.
Qed.

Lemma columns_upto_shape (n : Z) (A : ndarray) :
  snd (shape A) = Z.to_nat n -> (0 <= n)%Z ->
  shape (columns_upto n A) = (fst (shape A), Z.to_nat n).
Proof.
  intros HA Hn. unfold columns_upto, np.upto. simpl.
  destruct (Z.ltb_spec n 0) as [E|_]; [lia|].
  rewrite length_firstn, length_seq, HA, Nat.min_id. reflexivity.
Qed.

(** The product of a matrix [A] of profiles, a matrix [B] of scores and
    the diagonal matrix of [n] inverse scalings. *)
Lemma sup_product (A B : ndarray) (sc : list float) (n : Z) :
  (1 <= n <= Z.of_nat (List.length sc))%Z ->
  let v := map (fun x => -1 / x)%Q (np.upto n sc) in
  ((Z.of_nat (snd (shape B)) < n)%Z ->
   diagsvd v (Z.of_nat (len2 (np.T B))) n =
     Raise (ValueError "negative dimensions are not allowed")) /\
  ((n <= Z.of_nat (snd (shape B)))%Z -> snd (shape A) = fst (shape B) ->
   exists S R,
     diagsvd v (Z.of_nat (len2 (np.T B))) n = OK S /\
     _multiply_matrices A [B; S] = OK R /\
     shape (columns_upto n R) = (fst (shape A), Z.to_nat n) /\
     forall i a, a < Z.to_nat n ->
       (item (columns_upto n R) i a ==
        np.sumn (snd (shape A)) (fun l => item A i l * item B l a) *
        (-1 / nth a sc 0))%Q).
Proof.
  intros Hn v.
  assert (Hv : Z.of_nat (List.length v) = n).
  { subst v. rewrite length_map. apply upto_length. lia. }
  change (len2 (np.T B)) with (snd (shape B)).
  split.
  - intros Hlt. apply diagsvd_negative; assumption.
  - intros Hle HAB.
    destruct (diagsvd_OK v (Z.of_nat (snd (shape B))) n Hv Hle) as (S & HS & HshS).
    destruct (dot_OK A B HAB) as (AB & HAB' & HshAB).
    assert (Hin : snd (shape AB) = fst (shape S)).
    { rewrite HshAB, HshS. simpl. rewrite Nat2Z.id. reflexivity. }
    destruct (dot_OK AB S Hin) as (R & HR & HshR).
    exists S, R. split; [exact HS|]. split; [|split].
    + cbv beta iota delta [_multiply_matrices fold_left rbind].
      rewrite HAB', HR. reflexivity.
    + rewrite columns_upto_shape; [rewrite HshR, HshAB; reflexivity | | lia].
      rewrite HshR, HshS. reflexivity.
    + intros i a Ha.
      change (item (columns_upto n R) i a) with (item R i a).
      rewrite (dot_diagsvd_right _ _ _ _ _ _ HS HR) by (rewrite HshAB; simpl; lia).
      rewrite (dot_item _ _ _ HAB').
      subst v.
      rewrite (nth_map_below _ _ _ 0%Q)
        by (apply Nat2Z.inj_lt; rewrite upto_length by lia; lia).
      rewrite nth_upto by exact Ha. reflexivity.
Qed.

Lemma fs_r_sup_cached (DF : DataFrame) (N : pyobj) (o : self.t) (G : ndarray) :
  fitted o -> self.G o = Some G ->
  truthy N = false \/ (exists z, N = PyInt z /\ (0 < z)%Z) ->
  let n := if truthy N then Z.min (int_of N) (Z.of_nat (self.rank o))
           else Z.of_nat (self.rank o) in
  let scale := if self.benzecri o then map (fun x => - sqrt x)%Q (eigenvalues o)
               else self.s o in
  (1 <= n <= Z.of_nat (List.length scale))%Z /\
  fs_r_sup DF N o =
    (rbind (diagsvd (map (fun x => -1 / x)%Q (np.upto n scale))
                    (Z.of_nat (len2 (np.T G))) n)
       (fun S_inv =>
          rbind (_multiply_matrices (row_profiles DF) [G; S_inv])
                (fun product => OK (columns_upto n product))), o).
Proof.
  intros Hf HG HN n scale.
  destruct (inverse_scale_run o Hf) as (Hsc & Hlen).
  destruct (corrected_L o (fitted_corrected o Hf)) as (_ & _ & _ & Hr).
  pose proof (sup_count_bounds N (self.rank o) HN (proj1 Hr)) as Hn.
  split; [subst n scale; rewrite Hlen; lia|].
  unfold fs_r_sup.
  rewrite (bind_step (attr self.G) _ o o (Some G))
    by (unfold attr; rewrite HG; reflexivity).
  rewrite (bind_step (ret G) _ o o G) by reflexivity.
  rewrite (proj2 (sup_check_passes N) HN).
  rewrite (bind_step (ret tt) _ o o tt) by reflexivity.
  rewrite (bind_step inverse_scale _ o o _ Hsc).
  rewrite (bind_step (attr self.rank) _ o o (self.rank o)) by reflexivity.
  fold n. fold scale. unfold bind, lift, ret.
  destruct (diagsvd _ _ n) as [S|e]; [|reflexivity]. simpl.
  destruct (_multiply_matrices _ _) as [R|e]; reflexivity.
Qed.

Lemma fs_r_sup_refused (DF : DataFrame) (N : pyobj) (o : self.t) (G : ndarray) :
  self.G o = Some G ->
  truthy N = true -> (forall z, N = PyInt z -> (z <= 0)%Z) ->
  fs_r_sup DF N o =
    (Raise (ValueError "ncols should be a positive integer."), o).
Proof.
  intros HG Ht Hz. unfold fs_r_sup.
  rewrite (bind_step (attr self.G) _ o o (Some G))
    by (unfold attr; rewrite HG; reflexivity).
  rewrite (bind_step (ret G) _ o o G) by reflexivity.
  assert (Hc : truthy N && (negb (isinstance_int N) || (int_of N <=? 0)%Z) = true).
  { rewrite Ht. simpl. destruct N as [|z|z|q]; try reflexivity.
    simpl. apply Z.leb_le. apply Hz. reflexivity. }
  rewrite Hc. reflexivity.
Qed.

Lemma fs_r_sup_absent (DF : DataFrame) (N : pyobj) (o o1 : self.t) (G : ndarray) :
  self.G o = None ->
  _calc_col_factor_scores (9 # 10) (PyInt (Z.of_nat (self.rank o))) o = (OK G, o1) ->
  self.G o1 = Some G ->
  fs_r_sup DF N o = fs_r_sup DF N o1.
Proof.
  intros HG Hcalc HG1. unfold fs_r_sup.
  rewrite (bind_step (attr self.G) _ o o None)
    by (unfold attr; rewrite HG; reflexivity).
  rewrite (bind_step (attr self.G) _ o1 o1 (Some G))
    by (unfold attr; rewrite HG1; reflexivity).
  rewrite (bind_step _ _ o o1 G) by (unfold bind, attr; exact Hcalc).
  rewrite (bind_step (ret G) _ o1 o1 G) by reflexivity.
  reflexivity.
Qed.

(** X15.  Supplementary row scores from the column scores the object holds, for
    an [N] that is not truthy or a positive [int]: with [n = min(N, rank)],
    or the rank when [N] is not given, no more than the columns of [G],
    and a table with as many columns as [G] has rows, [fs_r_sup] returns
    one row per row of the table and [n] columns and leaves the object as
    it is; the entry of row [i] on axis [a] is the average of the column
    scores of the axis weighted by the profile of the row, times
    [-1/s_a], [s_a] being the singular value of the axis or minus the
    square root of its corrected eigenvalue. *)
Theorem supplementary_rows_formula (DF : DataFrame) (N : pyobj) (o : self.t)
    (G : ndarray) :
  fitted o -> self.G o = Some G ->
  truthy N = false \/ (exists z, N = PyInt z /\ (0 < z)%Z) ->
  let n := if truthy N then Z.min (int_of N) (Z.of_nat (self.rank o))
           else Z.of_nat (self.rank o) in
  let scale := if self.benzecri o then map (fun x => - sqrt x)%Q (eigenvalues o)
               else self.s o in
  (n <= Z.of_nat (snd (shape G)))%Z ->
  List.length (columns DF) = fst (shape G) ->
  exists R,
    fs_r_sup DF N o = (OK R, o) /\
    shape R = (index DF, Z.to_nat n) /\
    forall i a, a < Z.to_nat n ->
      (item R i a ==
       np.sumn (List.length (columns DF))
         (fun j => values DF i j / nth i (pd.sum_axis1 DF) 0 * item G j a) *
       (-1 / nth a scale 0))%Q.
Proof.
  intros Hf HG HN n scale Hle Hal.
  destruct (fs_r_sup_cached DF N o G Hf HG HN) as (Hn & Hrun).
  fold n scale in Hn, Hrun.
  destruct (proj2 (sup_product (row_profiles DF) G scale n Hn) Hle Hal)
    as (S & R & HS & HR & Hsh & Hit).
  exists (columns_upto n R). split; [|split].
  - rewrite Hrun, HS. simpl. rewrite HR. reflexivity.
  - exact Hsh.
  - exact Hit.
Qed.

(** X16.  Column scores the object holds with fewer columns than [n] are not
    generated again: [fs_r_sup] raises the [ValueError] of [diagsvd],
    whatever the table, and leaves the object as it is. *)
Theorem supplementary_rows_stale_scores (DF : DataFrame) (N : pyobj) (o : self.t)
    (G : ndarray) :
  fitted o -> self.G o = Some G ->
  truthy N = false \/ (exists z, N = PyInt z /\ (0 < z)%Z) ->
  (Z.of_nat (snd (shape G)) <
   (if truthy N then Z.min (int_of N) (Z.of_nat (self.rank o))
    else Z.of_nat (self.rank o)))%Z ->
  fs_r_sup DF N o =
    (Raise (ValueError "negative dimensions are not allowed"), o).
Proof.
  intros Hf HG HN Hlt.
  destruct (fs_r_sup_cached DF N o G Hf HG HN) as (Hn & Hrun).
  rewrite Hrun, (proj1 (sup_product (row_profiles DF) G _ _ Hn) Hlt). reflexivity.
Qed.

(** X17.  [fs_r_sup] on an object that holds column scores refuses an [N]
    that is truthy and not a positive [int] with a [ValueError] and leaves
    the object as it is; that includes a positive [int64], which the score
    calculators accept. *)
Theorem supplementary_rows_refuse_count (DF : DataFrame) (N : pyobj) (o : self.t)
    (G : ndarray) :
  self.G o = Some G ->
  truthy N = true -> (forall z, N = PyInt z -> (z <= 0)%Z) ->
  fs_r_sup DF N o =
    (Raise (ValueError "ncols should be a positive integer."), o).
Proof. exact (fs_r_sup_refused DF N o G). Qed.

(** X18.  On a fitted, well dimensioned instance that holds no column scores,
    [fs_r_sup] first generates them for [N = rank] and stores them with
    [k]: [G] has one row per column mass and [rank] columns.  Only then is
    [N] looked at: an [N] that is truthy and not a positive [int] is
    refused with the scores already stored, and otherwise, for a table
    with one column per column mass, the method returns one row per row of
    the table and [n] columns. *)
Theorem supplementary_rows_generate_scores (DF : DataFrame) (N : pyobj) (o : self.t) :
  fitted o -> well_dimensioned o -> self.G o = None ->
  exists k G,
    let o1 := o{{ self.k := Some k; self.G := Some G }} in
    _calc_col_factor_scores (9 # 10) (PyInt (Z.of_nat (self.rank o))) o = (OK G, o1) /\
    shape G = (List.length (self.c o), self.rank o) /\
    (truthy N = true -> (forall z, N = PyInt z -> (z <= 0)%Z) ->
     fs_r_sup DF N o =
       (Raise (ValueError "ncols should be a positive integer."), o1)) /\
    (truthy N = false \/ (exists z, N = PyInt z /\ (0 < z)%Z) ->
     List.length (columns DF) = List.length (self.c o) ->
     exists R,
       fs_r_sup DF N o = (OK R, o1) /\
       shape R = (index DF,
                  Z.to_nat (if truthy N then Z.min (int_of N) (Z.of_nat (self.rank o))
                            else Z.of_nat (self.rank o)))).
Proof.
  intros Hf Hwd HG.
  destruct (corrected_L o (fitted_corrected o Hf)) as (_ & _ & _ & Hr).
  assert (Hacc : accepted (9 # 10) (PyInt (Z.of_nat (self.rank o)))).
  { split; [unfold Qle; simpl; lia|]. split; [unfold Qle; simpl; lia|].
    right. exists (Z.of_nat (self.rank o)). split; [left; reflexivity | lia]. }
  destruct (cols_return _ _ o Hf Hwd Hacc) as (k & G & _ & Hcalc & _ & Hsh & _).
  assert (Hnum : num2ret (PyInt (Z.of_nat (self.rank o))) (self.rank o) k =
                 Z.of_nat (self.rank o)).
  { unfold num2ret, checked. simpl.
    destruct (Z.eqb_spec (Z.of_nat (self.rank o)) 0) as [E|_]; [lia|]. simpl.
    rewrite Z.min_id.
    destruct (Z.eqb_spec (Z.of_nat (self.rank o)) 0) as [E|_]; [lia|]. reflexivity. }
  rewrite Hnum, Nat2Z.id in Hsh.
  exists k, G. intros o1.
  assert (Hf1 : fitted o1).
  { pose proof (fitted_cols (9 # 10) (PyInt (Z.of_nat (self.rank o))) o Hf) as H1.
    rewrite Hcalc in H1. exact H1. }
  assert (HG1 : self.G o1 = Some G) by reflexivity.
  pose proof (fs_r_sup_absent DF N o o1 G HG Hcalc HG1) as Hsame.
  split; [exact Hcalc|]. split; [exact Hsh|]. split.
  - intros Ht Hz. rewrite Hsame. apply (fs_r_sup_refused DF N o1 G HG1 Ht Hz).
  - intros HN Hal.
    destruct (fs_r_sup_cached DF N o1 G Hf1 HG1 HN) as (Hn & Hrun).
    change (self.rank o1) with (self.rank o) in Hn, Hrun.
    pose proof (sup_count_bounds N (self.rank o) HN (proj1 Hr)) as Hb.
    assert (Hle : ((if truthy N then Z.min (int_of N) (Z.of_nat (self.rank o))
                    else Z.of_nat (self.rank o)) <= Z.of_nat (snd (shape G)))%Z)
      by (rewrite Hsh; simpl; lia).
    assert (Hal' : snd (shape (row_profiles DF)) = fst (shape G))
      by (rewrite Hsh; exact Hal).
    destruct (proj2 (sup_product (row_profiles DF) G _ _ Hn) Hle Hal')
      as (S & R & HS & HR & HshR & _).
    exists (columns_upto
              (if truthy N then Z.min (int_of N) (Z.of_nat (self.rank o))
               else Z.of_nat (self.rank o)) R).
    split; [|exact HshR].
    rewrite Hsame, Hrun, HS. simpl. rewrite HR. reflexivity.
Qed.

Lemma fs_c_sup_cached (DF : DataFrame) (N : pyobj) (o : self.t) (F : ndarray) :
  fitted o -> self.F o = Some F ->
  truthy N = false \/ (exists z, N = PyInt z /\ (0 < z)%Z) ->
  let n := if truthy N then Z.min (int_of N) (Z.of_nat (self.rank o))
           else Z.of_nat (self.rank o) in
  let scale := if self.benzecri o then map (fun x => - sqrt x)%Q (eigenvalues o)
               else self.s o in
  (1 <= n <= Z.of_nat (List.length scale))%Z /\
  fs_c_sup DF N o =
    (rbind (diagsvd (map (fun x => -1 / x)%Q (np.upto n scale))
                    (Z.of_nat (len2 (np.T F))) n)
       (fun S_inv =>
          rbind (_multiply_matrices (column_profiles DF) [F; S_inv])
                (fun product => OK (columns_upto n product))), o).
Proof.
  intros Hf HF0 HN n scale.
  destruct (inverse_scale_run o Hf) as (Hsc & Hlen).
  destruct (corrected_L o (fitted_corrected o Hf)) as (_ & _ & _ & Hr).
  pose proof (sup_count_bounds N (self.rank o) HN (proj1 Hr)) as Hn.
  split; [subst n scale; rewrite Hlen; lia|].
  unfold fs_c_sup.
  rewrite (bind_step (attr self.F) _ o o (Some F))
    by (unfold attr; rewrite HF0; reflexivity).
  rewrite (bind_step (ret F) _ o o F) by reflexivity.
  rewrite (proj2 (sup_check_passes N) HN).
  rewrite (bind_step (ret tt) _ o o tt) by reflexivity.
  rewrite (bind_step inverse_scale _ o o _ Hsc).
  rewrite (bind_step (attr self.rank) _ o o (self.rank o)) by reflexivity.
  fold n. fold scale. unfold bind, lift, ret.
  destruct (diagsvd _ _ n) as [S|e]; [|reflexivity]. simpl.
  destruct (_multiply_matrices _ _) as [R|e]; reflexivity.
Qed.

Lemma fs_c_sup_refused (DF : DataFrame) (N : pyobj) (o : self.t) (F : ndarray) :
  self.F o = Some F ->
  truthy N = true -> (forall z, N = PyInt z -> (z <= 0)%Z) ->
  fs_c_sup DF N o =
    (Raise (ValueError "ncols should be a positive integer."), o).
Proof.
  intros HF0 Ht Hz. unfold fs_c_sup.
  rewrite (bind_step (attr self.F) _ o o (Some F))
    by (unfold attr; rewrite HF0; reflexivity).
  rewrite (bind_step (ret F) _ o o F) by reflexivity.
  assert (Hc : truthy N && (negb (isinstance_int N) || (int_of N <=? 0)%Z) = true).
  { rewrite Ht. simpl. destruct N as [|z|z|q]; try reflexivity.
    simpl. apply Z.leb_le. apply Hz. reflexivity. }
  rewrite Hc. reflexivity.
Qed.

Lemma fs_c_sup_absent (DF : DataFrame) (N : pyobj) (o o1 : self.t) (F : ndarray) :
  self.F o = None ->
  _calc_row_factor_scores (9 # 10) (PyInt (Z.of_nat (self.rank o))) o = (OK F, o1) ->
  self.F o1 = Some F ->
  fs_c_sup DF N o = fs_c_sup DF N o1.
Proof.
  intros HF0 Hcalc HF01. unfold fs_c_sup.
  rewrite (bind_step (attr self.F) _ o o None)
    by (unfold attr; rewrite HF0; reflexivity).
  rewrite (bind_step (attr self.F) _ o1 o1 (Some F))
    by (unfold attr; rewrite HF01; reflexivity).
  rewrite (bind_step _ _ o o1 F) by (unfold bind, attr; exact Hcalc).
  rewrite (bind_step (ret F) _ o1 o1 F) by reflexivity.
  reflexivity.
Qed.

(** X19.  Supplementary column scores from the row scores the object holds,
    for an [N] that is not truthy or a positive [int]: with
    [n = min(N, rank)], or the rank when [N] is not given, no more than
    the columns of [F], and a table with as many rows as [F], [fs_c_sup]
    returns one row per column of the table and [n] columns and leaves the
    object as it is; the entry of column [i] on axis [a] is the average of
    the row scores of the axis weighted by the profile of the column,
    times [-1/s_a]. *)
Theorem supplementary_columns_formula (DF : DataFrame) (N : pyobj) (o : self.t)
    (F : ndarray) :
  fitted o -> self.F o = Some F ->
  truthy N = false \/ (exists z, N = PyInt z /\ (0 < z)%Z) ->
  let n := if truthy N then Z.min (int_of N) (Z.of_nat (self.rank o))
           else Z.of_nat (self.rank o) in
  let scale := if self.benzecri o then map (fun x => - sqrt x)%Q (eigenvalues o)
               else self.s o in
  (n <= Z.of_nat (snd (shape F)))%Z ->
  index DF = fst (shape F) ->
  exists R,
    fs_c_sup DF N o = (OK R, o) /\
    shape R = (List.length (columns DF), Z.to_nat n) /\
    forall i a, a < Z.to_nat n ->
      (item R i a ==
       np.sumn (index DF)
         (fun l => values DF l i / nth i (pd.sum DF) 0 * item F l a) *
       (-1 / nth a scale 0))%Q.
Proof.
  intros Hf HF0 HN n scale Hle Hal.
  destruct (fs_c_sup_cached DF N o F Hf HF0 HN) as (Hn & Hrun).
  fold n scale in Hn, Hrun.
  destruct (proj2 (sup_product (column_profiles DF) F scale n Hn) Hle Hal)
    as (S & R & HS & HR & Hsh & Hit).
  exists (columns_upto n R). split; [|split].
  - rewrite Hrun, HS. simpl. rewrite HR. reflexivity.
  - exact Hsh.
  - exact Hit.
Qed.

(** X20.  Row scores the object holds with fewer columns than [n] are not
    generated again: [fs_c_sup] raises the [ValueError] of [diagsvd],
    whatever the table, and leaves the object as it is. *)
Theorem supplementary_columns_stale_scores (DF : DataFrame) (N : pyobj) (o : self.t)
    (F : ndarray) :
  fitted o -> self.F o = Some F ->
  truthy N = false \/ (exists z, N = PyInt z /\ (0 < z)%Z) ->
  (Z.of_nat (snd (shape F)) <
   (if truthy N then Z.min (int_of N) (Z.of_nat (self.rank o))
    else Z.of_nat (self.rank o)))%Z ->
  fs_c_sup DF N o =
    (Raise (ValueError "negative dimensions are not allowed"), o).
Proof.
  intros Hf HF0 HN Hlt.
  destruct (fs_c_sup_cached DF N o F Hf HF0 HN) as (Hn & Hrun).
  rewrite Hrun, (proj1 (sup_product (column_profiles DF) F _ _ Hn) Hlt). reflexivity.
Qed.

(** X21.  [fs_c_sup] on an object that holds row scores refuses an [N]
    that is truthy and not a positive [int], a positive [int64] included,
    with a [ValueError] and leaves the object as it is. *)
Theorem supplementary_columns_refuse_count (DF : DataFrame) (N : pyobj) (o : self.t)
    (F : ndarray) :
  self.F o = Some F ->
  truthy N = true -> (forall z, N = PyInt z -> (z <= 0)%Z) ->
  fs_c_sup DF N o =
    (Raise (ValueError "ncols should be a positive integer."), o).
Proof. exact (fs_c_sup_refused DF N o F). Qed.

(** X22.  On a fitted, well dimensioned instance that holds no row scores,
    [fs_c_sup] first generates them for [N = rank] and stores them with
    [k]: [F] has one row per row mass and [rank] columns.  Only then is
    [N] looked at: an [N] that is truthy and not a positive [int] is
    refused with the scores already stored, and otherwise, for a table
    with one row per row mass, the method returns one row per column of
    the table and [n] columns. *)
Theorem supplementary_columns_generate_scores (DF : DataFrame) (N : pyobj) (o : self.t) :
  fitted o -> well_dimensioned o -> self.F o = None ->
  exists k F,
    let o1 := o{{ self.k := Some k; self.F := Some F }} in
    _calc_row_factor_scores (9 # 10) (PyInt (Z.of_nat (self.rank o))) o = (OK F, o1) /\
    shape F = (List.length (self.r o), self.rank o) /\
    (truthy N = true -> (forall z, N = PyInt z -> (z <= 0)%Z) ->
     fs_c_sup DF N o =
       (Raise (ValueError "ncols should be a positive integer."), o1)) /\
    (truthy N = false \/ (exists z, N = PyInt z /\ (0 < z)%Z) ->
     index DF = List.length (self.r o) ->
     exists R,
       fs_c_sup DF N o = (OK R, o1) /\
       shape R = (List.length (columns DF),
                  Z.to_nat (if truthy N then Z.min (int_of N) (Z.of_nat (self.rank o))
                            else Z.of_nat (self.rank o)))).
Proof.
  intros Hf Hwd HF0.
  destruct (corrected_L o (fitted_corrected o Hf)) as (_ & _ & _ & Hr).
  assert (Hacc : accepted (9 # 10) (PyInt (Z.of_nat (self.rank o)))).
  { split; [unfold Qle; simpl; lia|]. split; [unfold Qle; simpl; lia|].
    right. exists (Z.of_nat (self.rank o)). split; [left; reflexivity | lia]. }
  destruct (rows_return _ _ o Hf Hwd Hacc) as (k & F & _ & Hcalc & _ & Hsh & _).
  assert (Hnum : num2ret (PyInt (Z.of_nat (self.rank o))) (self.rank o) k =
                 Z.of_nat (self.rank o)).
  { unfold num2ret, checked. simpl.
    destruct (Z.eqb_spec (Z.of_nat (self.rank o)) 0) as [E|_]; [lia|]. simpl.
    rewrite Z.min_id.
    destruct (Z.eqb_spec (Z.of_nat (self.rank o)) 0) as [E|_]; [lia|]. reflexivity. }
  rewrite Hnum, Nat2Z.id in Hsh.
  exists k, F. intros o1.
  assert (Hf1 : fitted o1).
  { pose proof (fitted_rows (9 # 10) (PyInt (Z.of_nat (self.rank o))) o Hf) as H1.
    rewrite Hcalc in H1. exact H1. }
  assert (HF01 : self.F o1 = Some F) by reflexivity.
  pose proof (fs_c_sup_absent DF N o o1 F HF0 Hcalc HF01) as Hsame.
  split; [exact Hcalc|]. split; [exact Hsh|]. split.
  - intros Ht Hz. rewrite Hsame. apply (fs_c_sup_refused DF N o1 F HF01 Ht Hz).
  - intros HN Hal.
    destruct (fs_c_sup_cached DF N o1 F Hf1 HF01 HN) as (Hn & Hrun).
    change (self.rank o1) with (self.rank o) in Hn, Hrun.
    pose proof (sup_count_bounds N (self.rank o) HN (proj1 Hr)) as Hb.
    assert (Hle : ((if truthy N then Z.min (int_of N) (Z.of_nat (self.rank o))
                    else Z.of_nat (self.rank o)) <= Z.of_nat (snd (shape F)))%Z)
      by (rewrite Hsh; simpl; lia).
    assert (Hal' : snd (shape (column_profiles DF)) = fst (shape F))
      by (rewrite Hsh; exact Hal).
    destruct (proj2 (sup_product (column_profiles DF) F _ _ Hn) Hle Hal')
      as (S & R & HS & HR & HshR & _).
    exists (columns_upto
              (if truthy N then Z.min (int_of N) (Z.of_nat (self.rank o))
               else Z.of_nat (self.rank o)) R).
    split; [|exact HshR].
    rewrite Hsame, Hrun, HS. simpl. rewrite HR. reflexivity.
Qed.

(** *** A fit followed by the scores *)


(** *** Products of matrices and integer counts *)



(** X25.  The score calculators take an [int64] for the [int] of the same
    value: the result and the object they leave are the same. *)
Theorem calculators_accept_int64 (percent : float) (z : Z) (o : self.t) :
  _calc_row_factor_scores percent (PyInt64 z) o =
    _calc_row_factor_scores percent (PyInt z) o /\
  _calc_col_factor_scores percent (PyInt64 z) o =
    _calc_col_factor_scores percent (PyInt z) o.
Proof.
  unfold _calc_row_factor_scores, _calc_col_factor_scores, scaling, check_N.
  simpl truthy. simpl isinstance_int_int64. simpl int_of.
  split; destruct (negb (z =? 0)%Z); reflexivity.
Qed.

End Properties.

(** ** Runs of the model on the concrete tables *)

(** C1.  With two observations of two constant variables the residuals
    vanish and the solver answers two singular values equal to zero.  The
    first eigenvalue, at index 0, is below the tolerance, and the fit
    settles on rank 2, the number of eigenvalues, not on 0: [argmax]
    answers 0 both when no eigenvalue is below the tolerance and when the
    first one is, and [if not self.rank] cannot tell the two apart. *)
Theorem rank_when_first_eigenvalue_below_tol :
  let run := fit (collab := zero_solvers) constant_table MCA_default in
  fst run = OK tt /\
  eigenvalues (snd run) = [0; 0]%Q /\
  first_below (self.tol (snd run)) (eigenvalues (snd run)) = Some 0 /\
  self.rank (snd run) = 2 /\
  self.L (snd run) = [0; 0]%Q.
Proof.
  vm_compute. repeat split.
Qed.

(** C7.  A truncated fit of a table of four rows and five coded columns
    with an explicit coded-column count of 2: the solver is asked for 2
    triplets and answers 2, and the number of items is set to
    [min(shape) - 1 = 3]. *)
Theorem items_differ_from_triplets :
  let run := fit (collab := sample_solvers) survey_table (MCA_sparse (PyInt 2)) in
  fst run = OK tt /\
  List.length (self.s (snd run)) = 2 /\
  snd (shape (self.P (snd run))) = 2 /\
  fst (shape (self.Q (snd run))) = 2 /\
  self._numitems (snd run) = 3%Z.
Proof.
  vm_compute. repeat split.
Qed.

(** C6.  On the instance of the previous run, of rank 1, a request for
    [N = 7] row factor scores raises: the diagonal matrix has
    [_numitems = 3] rows and [P] has 2 columns.  The same request for
    column factor scores returns a matrix of one column. *)
Theorem rows_raise_after_truncated_fit :
  let o := snd (fit (collab := sample_solvers) survey_table (MCA_sparse (PyInt 2))) in
  self.rank o = 1 /\
  fst (_calc_row_factor_scores (collab := sample_solvers) (9 # 10)%Q (PyInt 7) o) =
    Raise (ValueError "shapes not aligned") /\
  match fst (_calc_col_factor_scores (collab := sample_solvers) (9 # 10)%Q (PyInt 7) o) with
  | OK G => shape G = (5, 1)
  | Raise _ => False
  end.
Proof.
  vm_compute. repeat split.
Qed.

Lemma exact_fit_returns :
  _fit (collab := exact_solvers) identity_table MCA_plain =
    (OK tt, snd (_fit (collab := exact_solvers) identity_table MCA_plain)).
Proof. apply fit_result. vm_compute. reflexivity. Qed.

Lemma exact_fit_dimensions :
  well_dimensioned (snd (_fit (collab := exact_solvers) identity_table MCA_plain)).
Proof. repeat split; vm_compute; try reflexivity; lia. Qed.

(** The scores of the identity table with the exact decomposition: the
    row scores [fit_transform] returns and the matrix [fs_r_sup] then
    returns for the same table, entry by entry. *)
Lemma exact_scores :
  let collab := exact_solvers in
  let o' := snd (_fit identity_table MCA_plain) in
  exists F R o1 o2,
    fit_transform identity_table (9 # 10)%Q PyNone false MCA_plain = (OK F, o1) /\
    fs_r_sup identity_table PyNone o1 = (OK R, o2) /\
    shape F = (4, 3) /\ shape R = (4, 3) /\
    forall i a, i < 4 -> a < 3 ->
      (item F i a == 1 / (np.eps + (1 # 2)) * item hadamard i a * sigma)%Q /\
      (item R i a == 1 / (np.eps + (1 # 2)) * item hadamard i a * sigma * (-1 / sigma))%Q.
Proof.
  intros collab o'.
  pose proof exact_fit_returns as Hfit. fold collab in Hfit. fold o' in Hfit.
  pose proof (fitted_fit _ _ _ Hfit) as Hf.
  pose proof exact_fit_dimensions as Hwd. fold collab in Hwd. fold o' in Hwd.
  assert (Hacc : accepted (9 # 10)%Q PyNone).
  { repeat split; [unfold Qle; simpl; lia | unfold Qle; simpl; lia | left; reflexivity]. }
  destruct (rows_return (9 # 10)%Q PyNone o' Hf Hwd Hacc)
    as (k & F & Hk & HrunF & _ & HshF & HF).
  assert (Hk3 : k = 3).
  { assert (H3 : retained (self.L o') (9 # 10)%Q = OK 3) by (vm_compute; reflexivity).
    congruence. }
  subst k.
  change (Z.to_nat (num2ret PyNone (self.rank o') 3)) with 3 in HF, HshF.
  assert (Hlenr : List.length (self.r o') = 4) by (vm_compute; reflexivity).
  assert (Hlenc : List.length (self.c o') = 4) by (vm_compute; reflexivity).
  assert (Hrank : self.rank o' = 3) by (vm_compute; reflexivity).
  assert (Hsr : forall i, i < 4 -> (sqrt (nth i (self.r o') 0) == 1 # 2)%Q).
  { intros i Hi. destruct i as [|[|[|[|i]]]]; try lia; vm_compute; reflexivity. }
  assert (Hsc : forall i, i < 4 -> (sqrt (nth i (self.c o') 0) == 1 # 2)%Q).
  { intros i Hi. destruct i as [|[|[|[|i]]]]; try lia; vm_compute; reflexivity. }
  assert (Hs : forall a, a < 3 -> nth a (self.s o') 0%Q = sigma).
  { intros a Ha. destruct a as [|[|[|a]]]; try lia; vm_compute; reflexivity. }
  assert (HP : forall i a, item (self.P o') i a = item hadamard i a).
  { intros i a. vm_compute. reflexivity. }
  assert (HQ : forall i a, item (self.Q o') a i = item hadamard i a).
  { intros i a. vm_compute. reflexivity. }
  set (o1 := o'{{ self.k := Some 3; self.F := Some F }}) in *.
  assert (Hft : fit_transform identity_table (9 # 10)%Q PyNone false MCA_plain =
                (OK F, o1)).
  { unfold fit_transform. rewrite (bind_step _ _ _ _ _ Hfit). exact HrunF. }
  assert (Hf1 : fitted o1).
  { pose proof (fitted_rows (9 # 10)%Q PyNone o' Hf) as H1.
    rewrite HrunF in H1. exact H1. }
  assert (Hwd1 : well_dimensioned o1) by exact Hwd.
  assert (HG1 : self.G o1 = None) by (vm_compute; reflexivity).
  assert (Hacc2 : accepted (9 # 10)%Q (PyInt (Z.of_nat (self.rank o1)))).
  { change (self.rank o1) with (self.rank o'). rewrite Hrank.
    split; [unfold Qle; simpl; lia|]. split; [unfold Qle; simpl; lia|].
    right. exists 3%Z. split; [left; reflexivity | lia]. }
  destruct (cols_return _ _ o1 Hf1 Hwd1 Hacc2)
    as (k2 & G & _ & HrunG & _ & HshG & HG).
  assert (HG' : forall l a, l < 4 -> a < 3 ->
            (item G l a ==
             1 / (np.eps + sqrt (nth l (self.c o') 0)) * item (self.Q o') a l *
             nth a (self.s o') 0)%Q).
  { intros l a Hl Ha.
    assert (Hl' : l < List.length (self.c o1)) by (change (self.c o1) with (self.c o'); lia).
    assert (Ha' : a < Z.to_nat (num2ret (PyInt (Z.of_nat (self.rank o1))) (self.rank o1) k2)).
    { change (self.rank o1) with (self.rank o'). rewrite Hrank.
      change (Z.to_nat (num2ret (PyInt (Z.of_nat 3)) 3 k2)) with 3. exact Ha. }
    exact (HG l a Hl' Ha'). }
  assert (HshG' : shape G = (4, 3)).
  { rewrite HshG. change (self.c o1) with (self.c o'). rewrite Hlenc.
    change (self.rank o1) with (self.rank o'). rewrite Hrank. reflexivity. }
  set (o2 := o1{{ self.k := Some k2; self.G := Some G }}) in *.
  assert (Hf2 : fitted o2).
  { pose proof (fitted_cols (9 # 10)%Q (PyInt (Z.of_nat (self.rank o1))) o1 Hf1) as H2. rewrite HrunG in H2. exact H2. }
  pose proof (fs_r_sup_absent identity_table PyNone o1 o2 G HG1 HrunG eq_refl) as Hsame.
  destruct (fs_r_sup_cached identity_table PyNone o2 G Hf2 eq_refl
              (or_introl eq_refl)) as (Hn & Hrun).
  set (n := if truthy PyNone then Z.min (int_of PyNone) (Z.of_nat (self.rank o2))
            else Z.of_nat (self.rank o2)) in *.
  set (scale := if self.benzecri o2 then map (fun x => - sqrt x)%Q (eigenvalues o2)
                else self.s o2) in *.
  assert (Hn3 : n = 3%Z).
  { subst n. change (self.rank o2) with (self.rank o'). rewrite Hrank. reflexivity. }
  assert (Hle : (n <= Z.of_nat (snd (shape G)))%Z) by (rewrite Hn3, HshG'; simpl; lia).
  assert (Hal : snd (shape (row_profiles identity_table)) = fst (shape G))
    by (rewrite HshG'; reflexivity).
  destruct (proj2 (sup_product (row_profiles identity_table) G scale n Hn) Hle Hal)
    as (S & R0 & HS & HR & HshR & HitR).
  assert (Hsup : fs_r_sup identity_table PyNone o1 = (OK (columns_upto n R0), o2)).
  { rewrite Hsame, Hrun, HS. simpl. rewrite HR. reflexivity. }
  assert (HA : forall i l, i < 4 -> l < 4 ->
            (item (row_profiles identity_table) i l == if i =? l then 1 else 0)%Q).
  { intros i l Hi Hl.
    destruct i as [|[|[|[|i]]]]; try lia;
      destruct l as [|[|[|[|l]]]]; try lia; vm_compute; reflexivity. }
  exists F, (columns_upto n R0), o1, o2.
  split; [exact Hft|]. split; [exact Hsup|].
  split; [rewrite HshF, Hlenr; reflexivity|].
  split; [rewrite HshR, Hn3; reflexivity|].
  intros i a Hi Ha. split.
  - rewrite (HF i a) by lia.
    rewrite (Hsr i Hi), HP.
    change (if self.benzecri o' then map (fun x => - sqrt x)%Q (self.L o') else self.s o')
      with (self.s o').
    rewrite (Hs a Ha). reflexivity.
  - rewrite (HitR i a) by (rewrite Hn3; exact Ha).
    change (snd (shape (row_profiles identity_table))) with 4.
    assert (Hsum : (np.sumn 4 (fun l => item (row_profiles identity_table) i l *
                                        item G l a) ==
                    item (row_profiles identity_table) i i * item G i a)%Q).
    { apply (sumn_single 4 i); [exact Hi|]. intros l Hl Hne. cbv beta.
      rewrite (HA i l Hi Hl). destruct (Nat.eqb_spec i l); [congruence | ring]. }
    rewrite Hsum.
    rewrite (HA i i Hi Hi), Nat.eqb_refl.
    rewrite (HG' i a Hi Ha), (Hsc i Hi), (HQ i a), (Hs a Ha).
    change (nth a scale 0%Q) with (nth a (self.s o') 0%Q).
    rewrite (Hs a Ha). ring.
Qed.

(** C3.  A dense fit without the Benzecri correction of the table whose
    indicator matrix is the 4 by 4 identity, with a solver that answers
    the exact singular value decomposition of the matrix the fit
    decomposes (orthonormal factors whose product with the singular values
    is that matrix, entry by entry).  [fit_transform] returns the row
    scores [F], 4 by 3, and [fs_r_sup] on the same table returns a 4 by 3
    matrix [R]; every row has mass 1/4.  [R] does not reproduce [F]: each
    entry of [R] is the entry of [F] with the opposite sign, divided by
    the singular value [sigma], and the two differ by at least 1 while
    both are about 1 in absolute value.  The diagonal matrix [S_inv] of
    [fs_r_sup] holds [-1/s], where the transition formula has [1/s]. *)
Theorem supplementary_rows_negate_scores :
  let run := fit_transform (collab := exact_solvers) identity_table
               (9 # 10)%Q PyNone false MCA_plain in
  let o := snd run in
  let sup := fs_r_sup (collab := exact_solvers) identity_table PyNone o in
  let F := match fst run with OK F => F | Raise _ => empty_array end in
  let R := match fst sup with OK R => R | Raise _ => empty_array end in
  let Zt := pd.div identity_table (np.sum (pd.sum identity_table)) in
  let product :=
    match rbind (np.dot (self.D_r o) (pd.sub Zt (np.outer (self.r o) (self.c o))))
                (fun A => np.dot A (self.D_c o)) with
    | OK A => A
    | Raise _ => empty_array
    end in
  (shape product = (4, 4) /\
   self.s o = [sigma; sigma; sigma; 0%Q] /\
   (forall i j, i < 4 -> j < 4 ->
      (item product i j ==
       np.sumn 4 (fun a => item (self.P o) i a * nth a (self.s o) 0 *
                           item (self.Q o) a j))%Q) /\
   (forall a b, a < 4 -> b < 4 ->
      (np.sumn 4 (fun i => item (self.P o) i a * item (self.P o) i b) ==
       if a =? b then 1 else 0)%Q) /\
   (forall a b, a < 4 -> b < 4 ->
      (np.sumn 4 (fun j => item (self.Q o) a j * item (self.Q o) b j) ==
       if a =? b then 1 else 0)%Q)) /\
  fst run = OK F /\ fst sup = OK R /\
  self.rank o = 3 /\ shape F = (4, 3) /\ shape R = (4, 3) /\
  forall i a, i < 4 -> a < 3 ->
    (nth i (self.r o) 0 == 1 # 4)%Q /\
    (item R i a == - item F i a / sigma)%Q /\
    ((1 <= item F i a - item R i a)%Q \/ (1 <= item R i a - item F i a)%Q) /\
    ((9 # 10 <= item F i a)%Q \/ (item F i a <= - (9 # 10))%Q).
Proof.
  intros run o sup F R Zt product.
  destruct exact_scores as (F0 & R0 & o1 & o2 & Hft & Hsup & HshF & HshR & Hit).
  assert (Hrun : run = (OK F0, o1)) by exact Hft.
  assert (Ho : o = o1) by (subst o; rewrite Hrun; reflexivity).
  assert (HF : F = F0) by (subst F; rewrite Hrun; reflexivity).
  assert (Hsup' : sup = (OK R0, o2)) by (subst sup; rewrite Ho; exact Hsup).
  assert (HR : R = R0) by (subst R; rewrite Hsup'; reflexivity).
  assert (Hsigma : ~ (sigma == 0)%Q) by (intros H; vm_compute in H; discriminate H).
  split; [|split; [|split; [|split; [|split; [|split]]]]].
  - split; [vm_compute; reflexivity|]. split; [vm_compute; reflexivity|].
    split; [|split]; intros a b Ha Hb;
      destruct a as [|[|[|[|a]]]]; try lia;
      destruct b as [|[|[|[|b]]]]; try lia;
      vm_compute; reflexivity.
  - rewrite Hrun, HF. reflexivity.
  - rewrite Hsup', HR. reflexivity.
  - vm_compute. reflexivity.
  - rewrite HF. exact HshF.
  - rewrite HR. exact HshR.
  - intros i a Hi Ha. rewrite HF, HR.
    destruct (Hit i a Hi Ha) as (HFe & HRe).
    split; [|split; [|split]].
    + destruct i as [|[|[|[|i]]]]; try lia; vm_compute; reflexivity.
    + rewrite HFe, HRe.
      generalize (1 / (np.eps + (1 # 2)))%Q (item hadamard i a). intros d h.
      field. exact Hsigma.
    + rewrite HFe, HRe.
      destruct i as [|[|[|[|i]]]]; try lia;
        destruct a as [|[|[|a]]]; try lia;
        first [left; apply Qle_bool_imp_le; vm_compute; reflexivity
              | right; apply Qle_bool_imp_le; vm_compute; reflexivity].
    + rewrite HFe.
      destruct i as [|[|[|[|i]]]]; try lia;
        destruct a as [|[|[|a]]]; try lia;
        first [left; apply Qle_bool_imp_le; vm_compute; reflexivity
              | right; apply Qle_bool_imp_le; vm_compute; reflexivity].
Qed.

(** ** The statements at concrete inputs *)

Lemma benzecri_correction_formula_witness :
  let o := before_correction in
  (2 <= self.K o)%Z /\
  self.E o = None /\
  exists E,
    _apply_benzecri_correction o = (OK E, o{{ self.E := Some E }}) /\
    List.length E = List.length (self.s o) /\
    forall i, i < List.length (self.s o) ->
      let sigma := nth i (self.s o) 0%Q in
      let K := inject_Z (self.K o) in
      ((1 / K < sigma ^ 2)%Q ->
         nth i E 0%Q = ((K / (K - 1) * (sigma ^ 2 - 1 / K)) ^ 2)%Q) /\
      (~ (1 / K < sigma ^ 2)%Q -> nth i E 0%Q = 0%Q) /\
      (0 <= nth i E 0%Q)%Q.
Proof.
  assert (HK : (2 <= self.K before_correction)%Z) by (vm_compute; discriminate).
  split; [exact HK|]. split; [reflexivity|].
  exact (benzecri_correction_formula before_correction HK eq_refl).
Defined.

Lemma rank_between_one_and_count_witness :
  let run := _fit (collab := sample_solvers) survey_table MCA_default in
  run = (OK tt, snd run) /\
  eigenvalues (snd run) <> [] /\
  1 <= self.rank (snd run) <= List.length (eigenvalues (snd run)) /\
  self.L (snd run) = firstn (self.rank (snd run)) (eigenvalues (snd run)) /\
  List.length (self.L (snd run)) = self.rank (snd run) /\
  self.L (snd run) <> [].
Proof.
  assert (H : _fit (collab := sample_solvers) survey_table MCA_default =
              (OK tt, snd (_fit (collab := sample_solvers) survey_table MCA_default)))
    by (apply fit_result; vm_compute; reflexivity).
  split; [exact H|].
  exact (rank_between_one_and_count (collab := sample_solvers) _ _ _ H).
Defined.

Lemma retained_count_is_smallest_witness :
  let o := snd (_fit (collab := sample_solvers) survey_table MCA_default) in
  fitted (collab := sample_solvers) o /\
  accepted (9 # 10)%Q PyNone /\
  exists k,
    self.k (snd (_calc_row_factor_scores (collab := sample_solvers) (9 # 10)%Q PyNone o)) = Some k /\
    self.k (snd (_calc_col_factor_scores (collab := sample_solvers) (9 # 10)%Q PyNone o)) = Some k /\
    1 <= k <= List.length (self.L o) /\
    reaches (self.L o) (9 # 10)%Q k /\
    (forall j, 1 <= j < k -> ~ reaches (self.L o) (9 # 10)%Q j) /\
    ((9 # 10 == 0)%Q -> k = 1).
Proof.
  assert (Hfit : fitted (collab := sample_solvers)
                   (snd (_fit (collab := sample_solvers) survey_table MCA_default))).
  { apply (fitted_fit survey_table MCA_default). apply fit_result.
    vm_compute. reflexivity. }
  assert (Hacc : accepted (9 # 10)%Q PyNone).
  { repeat split; [unfold Qle; simpl; lia | unfold Qle; simpl; lia | left; reflexivity]. }
  split; [exact Hfit|]. split; [exact Hacc|].
  exact (retained_count_is_smallest (collab := sample_solvers) _ _ _ Hfit Hacc).
Defined.

Lemma zero_factors_not_rejected_witness :
  let o := snd (_fit (collab := zero_solvers) constant_table MCA_default) in
  let percent := (9 # 10)%Q in
  fitted (collab := zero_solvers) o /\
  (0 <= percent)%Q /\ (percent <= 1)%Q /\
  (forall e, fst (_calc_row_factor_scores (collab := zero_solvers) percent (PyInt 0) o) = Raise e ->
             ~ invalid_argument e) /\
  (forall e, fst (_calc_col_factor_scores (collab := zero_solvers) percent (PyInt 0) o) = Raise e ->
             ~ invalid_argument e) /\
  _calc_row_factor_scores (collab := zero_solvers) percent (PyInt 0) o =
    _calc_row_factor_scores (collab := zero_solvers) percent PyNone o /\
  _calc_col_factor_scores (collab := zero_solvers) percent (PyInt 0) o =
    _calc_col_factor_scores (collab := zero_solvers) percent PyNone o.
Proof.
  assert (Hfit : fitted (collab := zero_solvers)
                   (snd (_fit (collab := zero_solvers) constant_table MCA_default))).
  { apply (fitted_fit constant_table MCA_default). apply fit_result.
    vm_compute. reflexivity. }
  assert (Hp0 : (0 <= 9 # 10)%Q) by (unfold Qle; simpl; lia).
  assert (Hp1 : (9 # 10 <= 1)%Q) by (unfold Qle; simpl; lia).
  split; [exact Hfit|]. split; [exact Hp0|]. split; [exact Hp1|].
  exact (zero_factors_not_rejected (collab := zero_solvers) _ _ Hfit Hp0 Hp1).
Defined.

(** C9, as the specification words it, fails when columns are specified:
    with [cols = ["a"; "b"]] the coded-column count [-1] is not looked at
    and the fit succeeds. *)
Lemma claimed_invalid_without_error :
  ~ ((exists e, invalid_configuration e /\
        fst (fit (collab := sample_solvers) raw_table
               (MCA_cols ["a"; "b"] (PyInt (-1)))) = Raise e) <->
     claimed_invalid (Some ["a"; "b"]) (PyInt (-1)) raw_table).
Proof.
  intros [_ H].
  assert (Hc : claimed_invalid (Some ["a"; "b"]) (PyInt (-1)) raw_table).
  { right. split; [discriminate|]. intros (z & Hz & Hr). inversion Hz; subst. lia. }
  destruct (H Hc) as (e & _ & He). vm_compute in He. discriminate He.
Qed.

Lemma sample_values_descending : descending [3 # 4; 1 # 2; 1 # 4; 0]%Q.
Proof.
  intros i j Hij Hj. simpl in Hj.
  destruct j as [|[|[|[|j]]]]; [| | | |lia];
    destruct i as [|[|[|[|i]]]]; try lia;
    simpl; unfold Qle; simpl; lia.
Qed.

Lemma singular_values_descending_witness :
  let run := _fit (collab := sample_solvers) survey_table (MCA_sparse PyNone) in
  (forall A P s Q, svd (Collaborators := sample_solvers) A = Some (P, s, Q) ->
                   descending s) /\
  (forall A k P s Q, svds (Collaborators := sample_solvers) A k = Some (P, s, Q) ->
                     ascending s) /\
  run = (OK tt, snd run) /\
  descending (self.s (snd run)) /\
  (self.sparse (MCA_sparse PyNone) = true ->
   exists product k P s Q,
     svds (Collaborators := sample_solvers) product k = Some (P, s, Q) /\
     shape (self.P (snd run)) = shape P /\ shape (self.Q (snd run)) = shape Q /\
     List.length (self.s (snd run)) = List.length s /\
     (forall i, i < List.length s ->
        nth i (self.s (snd run)) 0%Q = nth (List.length s - 1 - i) s 0%Q) /\
     (forall i r, item (self.P (snd run)) r i = item P r (snd (shape P) - 1 - i)) /\
     (forall i c, item (self.Q (snd run)) i c = item Q (fst (shape Q) - 1 - i) c)).
Proof.
  assert (Hdense : forall A P s Q,
            svd (Collaborators := sample_solvers) A = Some (P, s, Q) -> descending s).
  { intros A P s Q H. simpl in H. inversion H; subst.
    apply descending_firstn. exact sample_values_descending. }
  assert (Hsparse : forall A k P s Q,
            svds (Collaborators := sample_solvers) A k = Some (P, s, Q) -> ascending s).
  { intros A k P s Q H. simpl in H.
    destruct k as [|z|z|q]; try discriminate;
      destruct ((1 <=? z)%Z && (z <? Z.of_nat (min_shape A))%Z); try discriminate;
      inversion H; subst; apply rev_descending; apply descending_firstn;
      exact sample_values_descending. }
  assert (H : _fit (collab := sample_solvers) survey_table (MCA_sparse PyNone) =
              (OK tt, snd (_fit (collab := sample_solvers) survey_table (MCA_sparse PyNone))))
    by (apply fit_result; vm_compute; reflexivity).
  split; [exact Hdense|]. split; [exact Hsparse|]. split; [exact H|].
  exact (singular_values_descending (collab := sample_solvers) _ _ _ Hdense Hsparse H).
Defined.

Lemma masses_sum_to_one_witness :
  let collab := sample_solvers in
  let X := survey_table in
  let o := MCA_default in
  let o' := snd (_fit X o) in
  _fit X o = (OK tt, o') /\
  exists X' K J,
    process_df X (self.cols o) (self.n_cols o) = OK (X', K, J) /\
    List.length (self.r o') = index X' /\
    List.length (self.c o') = J /\
    (~ (np.sum (pd.sum X') == 0)%Q ->
     (np.sum (self.r o') == 1)%Q /\ (np.sum (self.c o') == 1)%Q).
Proof.
  intros collab X o o'.
  assert (H : _fit X o = (OK tt, o')) by (apply fit_result; vm_compute; reflexivity).
  split; [exact H|].
  exact (masses_sum_to_one X o o' H).
Defined.

Lemma sample_fit_returns :
  let collab := sample_solvers in
  _fit survey_table MCA_default = (OK tt, snd (_fit survey_table MCA_default)).
Proof. intros collab. apply fit_result. vm_compute. reflexivity. Qed.

Lemma sample_fit_fitted :
  fitted (collab := sample_solvers)
    (snd (_fit (collab := sample_solvers) survey_table MCA_default)).
Proof. exact (fitted_fit _ _ _ sample_fit_returns). Qed.

Lemma sample_fit_dimensions :
  well_dimensioned (snd (_fit (collab := sample_solvers) survey_table MCA_default)).
Proof. repeat split; vm_compute; try reflexivity; lia. Qed.

Lemma default_arguments_accepted : accepted (9 # 10)%Q PyNone.
Proof.
  repeat split; [unfold Qle; simpl; lia | unfold Qle; simpl; lia | left; reflexivity].
Qed.

Lemma negative_count_not_accepted : ~ accepted (9 # 10)%Q (PyInt (-1)).
Proof.
  intros (_ & _ & [Ht | (z & [Hz | Hz] & Hpos)]).
  - discriminate Ht.
  - inversion Hz; subst. lia.
  - discriminate Hz.
Qed.

Lemma fit_keeps_cached_scores_witness :
  let collab := sample_solvers in
  let X := survey_table in
  let o := MCA_default in
  let o' := snd (_fit X o) in
  _fit X o = (OK tt, o') /\
  self.F o' = self.F o /\ self.G o' = self.G o /\ self.k o' = self.k o /\
  if self.benzecri o
  then exists E, self.E o' = Some E /\
                 rmap (benzecri_entry (self.K o')) (squares (self.s o')) = OK E
  else self.E o' = None.
Proof.
  intros collab X o o'.
  split; [exact sample_fit_returns|].
  exact (fit_keeps_cached_scores X o o' sample_fit_returns).
Defined.

Lemma calculators_reject_exactly_witness :
  let collab := sample_solvers in
  let percent := (3 # 2)%Q in
  let N := PyNone in
  let o := snd (_fit survey_table MCA_default) in
  fitted o /\
  ((exists e, invalid_argument e /\
              fst (_calc_row_factor_scores percent N o) = Raise e) <->
   ~ accepted percent N) /\
  ((exists e, invalid_argument e /\
              fst (_calc_col_factor_scores percent N o) = Raise e) <->
   ~ accepted percent N) /\
  (~ ((0 <= percent)%Q /\ (percent <= 1)%Q) ->
   _calc_row_factor_scores percent N o =
     (Raise (ValueError "Percent should be a real number between 0 and 1."), o) /\
   _calc_col_factor_scores percent N o =
     (Raise (ValueError "Percent should be a real number between 0 and 1."), o)) /\
  (~ accepted percent N ->
   snd (_calc_row_factor_scores percent N o) = o /\
   snd (_calc_col_factor_scores percent N o) = o).
Proof.
  intros collab percent N o.
  split; [exact sample_fit_fitted|].
  exact (calculators_reject_exactly percent N o sample_fit_fitted).
Defined.

Lemma fit_transform_checks_after_fitting_witness :
  let collab := sample_solvers in
  let X := survey_table in
  let percent := (9 # 10)%Q in
  let N := PyInt (-1) in
  let o := MCA_default in
  let o' := snd (_fit X o) in
  _fit X o = (OK tt, o') /\
  ~ accepted percent N /\
  exists e, invalid_argument e /\
            fit_transform X percent N false o = (Raise e, o').
Proof.
  intros collab X percent N o o'.
  split; [exact sample_fit_returns|]. split; [exact negative_count_not_accepted|].
  exact (fit_transform_checks_after_fitting X percent N false o o'
           sample_fit_returns negative_count_not_accepted).
Defined.

Lemma kept_eigenvalues_reach_tolerance_witness :
  let collab := sample_solvers in
  let X := survey_table in
  let o := MCA_default in
  let o' := snd (_fit X o) in
  _fit X o = (OK tt, o') /\
  first_below (self.tol o') (eigenvalues o') <> Some 0 /\
  Forall (fun x => self.tol o' <= x)%Q (self.L o') /\
  (self.rank o' < List.length (eigenvalues o') ->
   (nth (self.rank o') (eigenvalues o') 0 < self.tol o')%Q).
Proof.
  intros collab X o o'.
  assert (Hb : first_below (self.tol o') (eigenvalues o') <> Some 0)
    by (vm_compute; discriminate).
  split; [exact sample_fit_returns|]. split; [exact Hb|].
  exact (kept_eigenvalues_reach_tolerance X o o' sample_fit_returns Hb).
Defined.

Lemma inertia_bounds_witness :
  let collab := sample_solvers in
  let X := survey_table in
  let o := MCA_default in
  let o' := snd (_fit X o) in
  _fit X o = (OK tt, o') /\
  self.inertia o' = np.sum (eigenvalues o') /\
  (0 <= np.sum (self.L o'))%Q /\
  (np.sum (self.L o') <= self.inertia o')%Q.
Proof.
  intros collab X o o'.
  split; [exact sample_fit_returns|].
  exact (inertia_bounds X o o' sample_fit_returns).
Defined.

Lemma process_df_returns_witness :
  let collab := sample_solvers in
  let DF := survey_table in
  let cols := @None (list string) in
  let ncols := PyInt 2 in
  let X := survey_table in
  let K := 2%Z in
  let J := 5 in
  process_df DF cols ncols = OK (X, K, J) /\
  (1 <= K)%Z /\
  J = List.length (columns X) /\
  (unspecified cols ->
   X = DF /\
   (ncols = PyNone -> K = Z.of_nat J) /\
   (forall z, ncols = PyInt z -> K = z /\ (z <= Z.of_nat J)%Z)) /\
  (forall c cs, cols = Some (c :: cs) -> K = Z.of_nat (List.length (c :: cs))).
Proof.
  intros collab DF cols ncols X K J.
  split; [reflexivity|].
  exact (process_df_returns DF cols ncols X K J eq_refl).
Defined.

Lemma benzecri_single_category_witness :
  let collab := sample_solvers in
  let o := MCA_default{{ self.K := 1%Z; self.s := [1 # 2; 3 # 2]%Q }} in
  self.K o = 1%Z /\
  self.E o = None /\
  ((forall sigma, In sigma (self.s o) -> (sigma ^ 2 <= 1)%Q) ->
   _apply_benzecri_correction o =
     (OK (map (fun _ => 0%Q) (self.s o)),
      o{{ self.E := Some (map (fun _ => 0%Q) (self.s o)) }})) /\
  ((exists sigma, In sigma (self.s o) /\ (1 < sigma ^ 2)%Q) ->
   _apply_benzecri_correction o =
     (Raise (ZeroDivisionError "float division by zero"), o)).
Proof.
  intros collab o.
  split; [reflexivity|]. split; [reflexivity|].
  exact (benzecri_single_category o eq_refl eq_refl).
Defined.

Lemma row_scores_formula_witness :
  let collab := sample_solvers in
  let percent := (9 # 10)%Q in
  let N := PyNone in
  let o := snd (_fit survey_table MCA_default) in
  fitted o /\ well_dimensioned o /\ accepted percent N /\
  exists k F,
    retained (self.L o) percent = OK k /\
    _calc_row_factor_scores percent N o =
      (OK F, o{{ self.k := Some k; self.F := Some F }}) /\
    (1 <= num2ret N (self.rank o) k <= Z.of_nat (self.rank o))%Z /\
    shape F = (List.length (self.r o), Z.to_nat (num2ret N (self.rank o) k)) /\
    forall i a,
      i < List.length (self.r o) -> a < Z.to_nat (num2ret N (self.rank o) k) ->
      (item F i a ==
       1 / (np.eps + sqrt (nth i (self.r o) 0)) * item (self.P o) i a *
       nth a (if self.benzecri o then map (fun x => - sqrt x) (self.L o)
              else self.s o) 0)%Q.
Proof.
  intros collab percent N o.
  split; [exact sample_fit_fitted|]. split; [exact sample_fit_dimensions|].
  split; [exact default_arguments_accepted|].
  exact (row_scores_formula percent N o sample_fit_fitted sample_fit_dimensions
           default_arguments_accepted).
Defined.

Lemma column_scores_formula_witness :
  let collab := sample_solvers in
  let percent := (9 # 10)%Q in
  let N := PyNone in
  let o := snd (_fit survey_table MCA_default) in
  fitted o /\ well_dimensioned o /\ accepted percent N /\
  exists k G,
    retained (self.L o) percent = OK k /\
    _calc_col_factor_scores percent N o =
      (OK G, o{{ self.k := Some k; self.G := Some G }}) /\
    (1 <= num2ret N (self.rank o) k <= Z.of_nat (self.rank o))%Z /\
    shape G = (List.length (self.c o), Z.to_nat (num2ret N (self.rank o) k)) /\
    forall j a,
      j < List.length (self.c o) -> a < Z.to_nat (num2ret N (self.rank o) k) ->
      (item G j a ==
       1 / (np.eps + sqrt (nth j (self.c o) 0)) * item (self.Q o) a j *
       nth a (if self.benzecri o then map (fun x => - sqrt x) (self.L o)
              else self.s o) 0)%Q.
Proof.
  intros collab percent N o.
  split; [exact sample_fit_fitted|]. split; [exact sample_fit_dimensions|].
  split; [exact default_arguments_accepted|].
  exact (column_scores_formula percent N o sample_fit_fitted sample_fit_dimensions
           default_arguments_accepted).
Defined.

Lemma explained_variance_shares_witness :
  let collab := sample_solvers in
  let N := Some 2%Z in
  let o := snd (_fit survey_table MCA_default) in
  fitted o /\
  let shares := map (fun e => e / np.sum (eigenvalues o))%Q (eigenvalues o) in
  expl_var false N o = (OK (slice_to N shares), o) /\
  List.length shares = List.length (self.s o) /\
  (~ (np.sum (eigenvalues o) == 0)%Q ->
   (np.sum shares == 1)%Q /\ Forall (fun x => 0 <= x /\ x <= 1)%Q shares).
Proof.
  intros collab N o.
  split; [exact sample_fit_fitted|].
  exact (explained_variance_shares N o sample_fit_fitted).
Defined.

Lemma greenacre_single_category_witness :
  let collab := sample_solvers in
  let N := @None Z in
  let o := MCA_default{{ self.K := 1%Z; self.s := [1 # 2; 1 # 4]%Q }} in
  self.K o = 1%Z /\
  expl_var true N o = (Raise (ZeroDivisionError "float division by zero"), o).
Proof.
  intros collab N o.
  split; [reflexivity|].
  exact (greenacre_single_category N o eq_refl).
Defined.

Lemma greenacre_explained_variance_witness :
  let collab := sample_solvers in
  let N := @None Z in
  let o := snd (_fit survey_table MCA_default) in
  fitted o /\ (2 <= self.K o)%Z /\
  let K := inject_Z (self.K o) in
  let E := map (benzecri_spec (self.K o)) (self.s o) in
  let greenacre_inertia :=
    (K / (K - 1) *
     (np.sum (map (fun x => x ^ 4) (self.s o)) -
      inject_Z (Z.of_nat (self.J o) - self.K o) / K ^ 2))%Q in
  expl_var true N o =
    (OK (slice_to N (map (fun e => e / greenacre_inertia)%Q E)),
     o{{ self.E := Some E }}).
Proof.
  intros collab N o.
  assert (HK : (2 <= self.K o)%Z) by (vm_compute; discriminate).
  split; [exact sample_fit_fitted|]. split; [exact HK|].
  exact (greenacre_explained_variance N o sample_fit_fitted HK).
Defined.

Lemma sample_column_scores_fitted :
  fitted (collab := sample_solvers)
    (snd (_calc_col_factor_scores (collab := sample_solvers) (9 # 10)%Q PyNone
            (snd (_fit (collab := sample_solvers) survey_table MCA_default)))).
Proof. apply fitted_cols. exact sample_fit_fitted. Qed.

Lemma sample_row_scores_fitted :
  fitted (collab := sample_solvers)
    (snd (_calc_row_factor_scores (collab := sample_solvers) (9 # 10)%Q PyNone
            (snd (_fit (collab := sample_solvers) survey_table MCA_default)))).
Proof. apply fitted_rows. exact sample_fit_fitted. Qed.

Lemma supplementary_rows_formula_witness :
  let collab := sample_solvers in
  let DF := survey_table in
  let N := PyInt 1 in
  let o := snd (_calc_col_factor_scores (9 # 10)%Q PyNone
                  (snd (_fit survey_table MCA_default))) in
  let G := match self.G o with Some G => G | None => empty_array end in
  fitted o /\ self.G o = Some G /\
  (truthy N = false \/ (exists z, N = PyInt z /\ (0 < z)%Z)) /\
  let n := if truthy N then Z.min (int_of N) (Z.of_nat (self.rank o))
           else Z.of_nat (self.rank o) in
  let scale := if self.benzecri o then map (fun x => - sqrt x)%Q (eigenvalues o)
               else self.s o in
  (n <= Z.of_nat (snd (shape G)))%Z /\
  List.length (columns DF) = fst (shape G) /\
  exists R,
    fs_r_sup DF N o = (OK R, o) /\
    shape R = (index DF, Z.to_nat n) /\
    forall i a, a < Z.to_nat n ->
      (item R i a ==
       np.sumn (List.length (columns DF))
         (fun j => values DF i j / nth i (pd.sum_axis1 DF) 0 * item G j a) *
       (-1 / nth a scale 0))%Q.
Proof.
  intros collab DF N o G.
  assert (Hsome : match self.G o with Some _ => true | None => false end = true)
    by (vm_compute; reflexivity).
  assert (HG : self.G o = Some G)
    by (subst G; destruct (self.G o); [reflexivity | discriminate Hsome]).
  assert (HN : truthy N = false \/ (exists z, N = PyInt z /\ (0 < z)%Z))
    by (right; exists 1%Z; split; [reflexivity | lia]).
  assert (Hle : ((if truthy N then Z.min (int_of N) (Z.of_nat (self.rank o))
                  else Z.of_nat (self.rank o)) <= Z.of_nat (snd (shape G)))%Z)
    by (vm_compute; discriminate).
  assert (Hal : List.length (columns DF) = fst (shape G)) by (vm_compute; reflexivity).
  split; [exact sample_column_scores_fitted|]. split; [exact HG|]. split; [exact HN|].
  intros n scale. split; [exact Hle|]. split; [exact Hal|].
  exact (supplementary_rows_formula DF N o G sample_column_scores_fitted HG HN Hle Hal).
Defined.

Lemma supplementary_rows_stale_scores_witness :
  let collab := sample_solvers in
  let DF := survey_table in
  let N := PyNone in
  let o := snd (_calc_col_factor_scores (9 # 10)%Q PyNone
                  (snd (_fit survey_table MCA_default))) in
  let G := match self.G o with Some G => G | None => empty_array end in
  fitted o /\ self.G o = Some G /\
  (truthy N = false \/ (exists z, N = PyInt z /\ (0 < z)%Z)) /\
  (Z.of_nat (snd (shape G)) <
   (if truthy N then Z.min (int_of N) (Z.of_nat (self.rank o))
    else Z.of_nat (self.rank o)))%Z /\
  fs_r_sup DF N o =
    (Raise (ValueError "negative dimensions are not allowed"), o).
Proof.
  intros collab DF N o G.
  assert (Hsome : match self.G o with Some _ => true | None => false end = true)
    by (vm_compute; reflexivity).
  assert (HG : self.G o = Some G)
    by (subst G; destruct (self.G o); [reflexivity | discriminate Hsome]).
  assert (HN : truthy N = false \/ (exists z, N = PyInt z /\ (0 < z)%Z))
    by (left; reflexivity).
  assert (Hlt : (Z.of_nat (snd (shape G)) <
                 (if truthy N then Z.min (int_of N) (Z.of_nat (self.rank o))
                  else Z.of_nat (self.rank o)))%Z)
    by (vm_compute; reflexivity).
  split; [exact sample_column_scores_fitted|]. split; [exact HG|]. split; [exact HN|].
  split; [exact Hlt|].
  exact (supplementary_rows_stale_scores DF N o G sample_column_scores_fitted HG HN Hlt).
Defined.

Lemma supplementary_rows_refuse_count_witness :
  let collab := sample_solvers in
  let DF := survey_table in
  let N := PyInt64 1 in
  let o := snd (_calc_col_factor_scores (9 # 10)%Q PyNone
                  (snd (_fit survey_table MCA_default))) in
  let G := match self.G o with Some G => G | None => empty_array end in
  self.G o = Some G /\
  truthy N = true /\ (forall z, N = PyInt z -> (z <= 0)%Z) /\
  fs_r_sup DF N o =
    (Raise (ValueError "ncols should be a positive integer."), o).
Proof.
  intros collab DF N o G.
  assert (Hsome : match self.G o with Some _ => true | None => false end = true)
    by (vm_compute; reflexivity).
  assert (HG : self.G o = Some G)
    by (subst G; destruct (self.G o); [reflexivity | discriminate Hsome]).
  assert (Hz : forall z, N = PyInt z -> (z <= 0)%Z) by (intros z Hz; discriminate Hz).
  split; [exact HG|]. split; [reflexivity|]. split; [exact Hz|].
  exact (supplementary_rows_refuse_count DF N o G HG eq_refl Hz).
Defined.

Lemma supplementary_rows_generate_scores_witness :
  let collab := sample_solvers in
  let DF := survey_table in
  let N := PyNone in
  let o := snd (_fit survey_table MCA_default) in
  fitted o /\ well_dimensioned o /\ self.G o = None /\
  exists k G,
    let o1 := o{{ self.k := Some k; self.G := Some G }} in
    _calc_col_factor_scores (9 # 10) (PyInt (Z.of_nat (self.rank o))) o = (OK G, o1) /\
    shape G = (List.length (self.c o), self.rank o) /\
    (truthy N = true -> (forall z, N = PyInt z -> (z <= 0)%Z) ->
     fs_r_sup DF N o =
       (Raise (ValueError "ncols should be a positive integer."), o1)) /\
    (truthy N = false \/ (exists z, N = PyInt z /\ (0 < z)%Z) ->
     List.length (columns DF) = List.length (self.c o) ->
     exists R,
       fs_r_sup DF N o = (OK R, o1) /\
       shape R = (index DF,
                  Z.to_nat (if truthy N then Z.min (int_of N) (Z.of_nat (self.rank o))
                            else Z.of_nat (self.rank o)))).
Proof.
  intros collab DF N o.
  assert (HG : self.G o = None) by (vm_compute; reflexivity).
  split; [exact sample_fit_fitted|]. split; [exact sample_fit_dimensions|].
  split; [exact HG|].
  exact (supplementary_rows_generate_scores DF N o sample_fit_fitted
           sample_fit_dimensions HG).
Defined.

Lemma supplementary_columns_formula_witness :
  let collab := sample_solvers in
  let DF := survey_table in
  let N := PyInt 1 in
  let o := snd (_calc_row_factor_scores (9 # 10)%Q PyNone
                  (snd (_fit survey_table MCA_default))) in
  let F := match self.F o with Some F => F | None => empty_array end in
  fitted o /\ self.F o = Some F /\
  (truthy N = false \/ (exists z, N = PyInt z /\ (0 < z)%Z)) /\
  let n := if truthy N then Z.min (int_of N) (Z.of_nat (self.rank o))
           else Z.of_nat (self.rank o) in
  let scale := if self.benzecri o then map (fun x => - sqrt x)%Q (eigenvalues o)
               else self.s o in
  (n <= Z.of_nat (snd (shape F)))%Z /\
  index DF = fst (shape F) /\
  exists R,
    fs_c_sup DF N o = (OK R, o) /\
    shape R = (List.length (columns DF), Z.to_nat n) /\
    forall i a, a < Z.to_nat n ->
      (item R i a ==
       np.sumn (index DF)
         (fun l => values DF l i / nth i (pd.sum DF) 0 * item F l a) *
       (-1 / nth a scale 0))%Q.
Proof.
  intros collab DF N o F.
  assert (Hsome : match self.F o with Some _ => true | None => false end = true)
    by (vm_compute; reflexivity).
  assert (HF0 : self.F o = Some F)
    by (subst F; destruct (self.F o); [reflexivity | discriminate Hsome]).
  assert (HN : truthy N = false \/ (exists z, N = PyInt z /\ (0 < z)%Z))
    by (right; exists 1%Z; split; [reflexivity | lia]).
  assert (Hle : ((if truthy N then Z.min (int_of N) (Z.of_nat (self.rank o))
                  else Z.of_nat (self.rank o)) <= Z.of_nat (snd (shape F)))%Z)
    by (vm_compute; discriminate).
  assert (Hal : index DF = fst (shape F)) by (vm_compute; reflexivity).
  split; [exact sample_row_scores_fitted|]. split; [exact HF0|]. split; [exact HN|].
  intros n scale. split; [exact Hle|]. split; [exact Hal|].
  exact (supplementary_columns_formula DF N o F sample_row_scores_fitted HF0 HN Hle Hal).
Defined.

Lemma supplementary_columns_stale_scores_witness :
  let collab := sample_solvers in
  let DF := survey_table in
  let N := PyNone in
  let o := snd (_calc_row_factor_scores (9 # 10)%Q PyNone
                  (snd (_fit survey_table MCA_default))) in
  let F := match self.F o with Some F => F | None => empty_array end in
  fitted o /\ self.F o = Some F /\
  (truthy N = false \/ (exists z, N = PyInt z /\ (0 < z)%Z)) /\
  (Z.of_nat (snd (shape F)) <
   (if truthy N then Z.min (int_of N) (Z.of_nat (self.rank o))
    else Z.of_nat (self.rank o)))%Z /\
  fs_c_sup DF N o =
    (Raise (ValueError "negative dimensions are not allowed"), o).
Proof.
  intros collab DF N o F.
  assert (Hsome : match self.F o with Some _ => true | None => false end = true)
    by (vm_compute; reflexivity).
  assert (HF0 : self.F o = Some F)
    by (subst F; destruct (self.F o); [reflexivity | discriminate Hsome]).
  assert (HN : truthy N = false \/ (exists z, N = PyInt z /\ (0 < z)%Z))
    by (left; reflexivity).
  assert (Hlt : (Z.of_nat (snd (shape F)) <
                 (if truthy N then Z.min (int_of N) (Z.of_nat (self.rank o))
                  else Z.of_nat (self.rank o)))%Z)
    by (vm_compute; reflexivity).
  split; [exact sample_row_scores_fitted|]. split; [exact HF0|]. split; [exact HN|].
  split; [exact Hlt|].
  exact (supplementary_columns_stale_scores DF N o F sample_row_scores_fitted HF0 HN Hlt).
Defined.

Lemma supplementary_columns_refuse_count_witness :
  let collab := sample_solvers in
  let DF := survey_table in
  let N := PyInt64 1 in
  let o := snd (_calc_row_factor_scores (9 # 10)%Q PyNone
                  (snd (_fit survey_table MCA_default))) in
  let F := match self.F o with Some F => F | None => empty_array end in
  self.F o = Some F /\
  truthy N = true /\ (forall z, N = PyInt z -> (z <= 0)%Z) /\
  fs_c_sup DF N o =
    (Raise (ValueError "ncols should be a positive integer."), o).
Proof.
  intros collab DF N o F.
  assert (Hsome : match self.F o with Some _ => true | None => false end = true)
    by (vm_compute; reflexivity).
  assert (HF0 : self.F o = Some F)
    by (subst F; destruct (self.F o); [reflexivity | discriminate Hsome]).
  assert (Hz : forall z, N = PyInt z -> (z <= 0)%Z) by (intros z Hz; discriminate Hz).
  split; [exact HF0|]. split; [reflexivity|]. split; [exact Hz|].
  exact (supplementary_columns_refuse_count DF N o F HF0 eq_refl Hz).
Defined.

Lemma supplementary_columns_generate_scores_witness :
  let collab := sample_solvers in
  let DF := survey_table in
  let N := PyNone in
  let o := snd (_fit survey_table MCA_default) in
  fitted o /\ well_dimensioned o /\ self.F o = None /\
  exists k F,
    let o1 := o{{ self.k := Some k; self.F := Some F }} in
    _calc_row_factor_scores (9 # 10) (PyInt (Z.of_nat (self.rank o))) o = (OK F, o1) /\
    shape F = (List.length (self.r o), self.rank o) /\
    (truthy N = true -> (forall z, N = PyInt z -> (z <= 0)%Z) ->
     fs_c_sup DF N o =
       (Raise (ValueError "ncols should be a positive integer."), o1)) /\
    (truthy N = false \/ (exists z, N = PyInt z /\ (0 < z)%Z) ->
     index DF = List.length (self.r o) ->
     exists R,
       fs_c_sup DF N o = (OK R, o1) /\
       shape R = (List.length (columns DF),
                  Z.to_nat (if truthy N then Z.min (int_of N) (Z.of_nat (self.rank o))
                            else Z.of_nat (self.rank o)))).
Proof.
  intros collab DF N o.
  assert (HF0 : self.F o = None) by (vm_compute; reflexivity).
  split; [exact sample_fit_fitted|]. split; [exact sample_fit_dimensions|].
  split; [exact HF0|].
  exact (supplementary_columns_generate_scores DF N o sample_fit_fitted
           sample_fit_dimensions HF0).
Defined.




